(** * Steering document validator (tools/validate-steering.py)

    A shallow embedding of the [SteeringValidator] class and of the few
    library functions it calls, followed by the properties of the validator.

    Conventions of the embedding.
    - A Python [str] is a [string]; every [ascii] stands for the code point
      of the same number, so the texts covered are those over U+0000..U+00FF.
    - [self.errors] is threaded explicitly: a method is a function from the
      accumulator to the new accumulator and the way the call ended, which is
      either a returned value or a raised exception.
    - The YAML loader, the file system and the current directory are taken
      from an environment [Env]; the path algebra of [posixpath] is embedded
      as functions. *)

From stdpp Require Import base list gmap strings.
From Stdlib Require Import Ascii String ZArith Lia.

#[local] Set Warnings "-register-all".
#[local] Arguments String.append !_ _ / : simpl nomatch.
Open Scope string_scope.

(** ** Python text primitives *)

Module Py.

(** [str.isspace] on one character, for the code points below 256:
    U+0009..U+000D, U+001C..U+0020, U+0085 and U+00A0.  The same set is
    the class [\s] of [re] for [str] patterns. *)
Definition isspace (c : ascii) : bool :=
  let n := nat_of_ascii c in
  (((9 <=? n) && (n <=? 13)) || ((28 <=? n) && (n <=? 32))
   || (n =? 133) || (n =? 160))%nat.

(** [s.lstrip()] *)
Fixpoint lstrip (s : string) : string :=
  match s with
  | EmptyString => EmptyString
  | String c s' => if isspace c then lstrip s' else s
  end.

(** [s.rstrip(chars)], the characters to remove given as a predicate *)
Fixpoint rstrip_by (f : ascii -> bool) (s : string) : string :=
  match s with
  | EmptyString => EmptyString
  | String c s' =>
      match rstrip_by f s' with
      | EmptyString => if f c then EmptyString else String c EmptyString
      | r => String c r
      end
  end.

(** [s.strip()] *)
Definition strip (s : string) : string := rstrip_by isspace (lstrip s).

(** [s.startswith(p)] *)
Definition startswith (s p : string) : bool := String.prefix p s.

(** [s.endswith(p)] *)
Fixpoint endswith (s p : string) : bool :=
  String.eqb s p
  || match s with
     | EmptyString => false
     | String _ s' => endswith s' p
     end.

(** [s.split(sep)] for a separator of one character *)
Fixpoint split (sep : ascii) (s : string) : list string :=
  match s with
  | EmptyString => [EmptyString]
  | String c s' =>
      if Ascii.eqb c sep then EmptyString :: split sep s'
      else match split sep s' with
           | l :: ls => String c l :: ls
           | [] => [String c EmptyString]
           end
  end.

(** [sep.join(ls)] *)
Definition join (sep : string) (ls : list string) : string :=
  String.concat sep ls.

(** [l[lo:hi]] and [l[lo:]] for indices that are not negative *)
Definition slice {A} (lo hi : nat) (l : list A) : list A :=
  take (hi - lo) (drop lo l).
Definition slice_from {A} (lo : nat) (l : list A) : list A := drop lo l.

(** [s.replace(old, new)] for a non-empty [old]: the occurrences are
    replaced from left to right without overlap. *)
Fixpoint skipn_string (n : nat) (s : string) : string :=
  match n, s with
  | S n', String _ s' => skipn_string n' s'
  | _, _ => s
  end.

Fixpoint replace_aux (fuel : nat) (old new s : string) : string :=
  match fuel with
  | O => s
  | S fuel' =>
      match s with
      | EmptyString => EmptyString
      | String c s' =>
          if String.prefix old s
          then new ++ replace_aux fuel' old new (skipn_string (String.length old) s)
          else String c (replace_aux fuel' old new s')
      end
  end.

Definition replace (s old new : string) : string :=
  replace_aux (S (String.length s)) old new s.

(** Upper and lower case of one character.  Below U+0100 the lower case of a
    character is again below U+0100; three characters have an upper case
    outside the range (U+00B5, U+00FF) or of two characters (U+00DF). *)
Definition is_ascii_upper (n : nat) : bool := ((65 <=? n) && (n <=? 90))%nat.
Definition is_ascii_lower (n : nat) : bool := ((97 <=? n) && (n <=? 122))%nat.
Definition is_latin_upper (n : nat) : bool :=
  ((192 <=? n) && (n <=? 222) && negb (n =? 215))%nat.
Definition is_latin_lower (n : nat) : bool :=
  ((224 <=? n) && (n <=? 254) && negb (n =? 247))%nat.

Definition lower_char (c : ascii) : ascii :=
  let n := nat_of_ascii c in
  if is_ascii_upper n || is_latin_upper n then ascii_of_nat (n + 32) else c.

(** [c.upper()]; U+00DF gives "SS".  U+00B5 and U+00FF are kept: their
    upper case lies outside the modelled range and, like the characters
    themselves, is no letter of the Latin-1 range. *)
Definition upper_char (c : ascii) : string :=
  let n := nat_of_ascii c in
  if is_ascii_lower n || is_latin_lower n
  then String (ascii_of_nat (n - 32)) EmptyString
  else if (n =? 223)%nat then "SS"
  else String c EmptyString.

(** [s.lower()] *)
Fixpoint lower (s : string) : string :=
  match s with
  | EmptyString => EmptyString
  | String c s' => String (lower_char c) (lower s')
  end.

(** [s.isspace()]: one character at least, and all of them white *)
Fixpoint all_space (s : string) : bool :=
  match s with
  | EmptyString => true
  | String c s' => isspace c && all_space s'
  end.

Definition str_isspace (s : string) : bool :=
  negb (String.eqb s "") && all_space s.

(** [s.upper()] *)
Fixpoint upper (s : string) : string :=
  match s with
  | EmptyString => EmptyString
  | String c s' => upper_char c ++ upper s'
  end.

End Py.

(** ** A fragment of [re]

    The patterns of the validator are made of literal characters and of the
    item [\s+]; [re.search] is called with [re.IGNORECASE]. *)

Module Re.

Inductive item :=
| Lit (c : ascii)     (* one literal character *)
| Spaces.             (* [\s+] *)

(** [re.compile] on the fragment *)
Fixpoint compile (p : string) : list item :=
  match p with
  | String "\" (String "s" (String "+" p')) => Spaces :: compile p'
  | String c p' => Lit c :: compile p'
  | EmptyString => []
  end.

(** A literal under [re.IGNORECASE]: equal after lower-casing. *)
Definition lit_matches (ignorecase : bool) (c x : ascii) : bool :=
  if ignorecase then Ascii.eqb (Py.lower_char c) (Py.lower_char x)
  else Ascii.eqb c x.

(** Does the pattern match at the start of [s]? *)
Fixpoint match_here (ic : bool) (r : list item) (s : string) : bool :=
  match r with
  | [] => true
  | Lit c :: r' =>
      match s with
      | String x s' => lit_matches ic c x && match_here ic r' s'
      | EmptyString => false
      end
  | Spaces :: r' =>
      (fix spaces (s : string) : bool :=
         match s with
         | String x s' =>
             Py.isspace x && (match_here ic r' s' || spaces s')
         | EmptyString => false
         end) s
  end.

(** [re.search(pattern, s, flags)] is not [None] *)
Fixpoint search_items (ic : bool) (r : list item) (s : string) : bool :=
  match_here ic r s
  || match s with
     | String _ s' => search_items ic r s'
     | EmptyString => false
     end.

Definition search (pattern s : string) (ignorecase : bool) : bool :=
  search_items ignorecase (compile pattern) s.

End Re.

(** ** [os.path] on a POSIX system *)

Module PosixPath.

(** [os.path.isabs] *)
Definition isabs (p : string) : bool := Py.startswith p "/".

(** [os.path.join(a, b)] *)
Definition join (a b : string) : string :=
  if Py.startswith b "/" then b
  else if String.eqb a "" || Py.endswith a "/" then a ++ b
  else a ++ "/" ++ b.

(** [p[:p.rfind('/') + 1]] *)
Fixpoint upto_last_sep (p : string) : string :=
  match p with
  | EmptyString => EmptyString
  | String c p' =>
      match upto_last_sep p' with
      | EmptyString => if Ascii.eqb c "/" then "/" else EmptyString
      | h => String c h
      end
  end.

Definition is_sep (c : ascii) : bool := Ascii.eqb c "/".

(** [head == '/' * len(head)] *)
Fixpoint all_sep (s : string) : bool :=
  match s with
  | EmptyString => true
  | String c s' => is_sep c && all_sep s'
  end.

(** [os.path.dirname] *)
Definition dirname (p : string) : string :=
  let head := upto_last_sep p in
  if negb (String.eqb head "") && negb (all_sep head)
  then Py.rstrip_by is_sep head
  else head.

(** One round of the loop of [normpath]; the list of components is kept
    with its last element first. *)
Definition norm_step (initial_slashes : nat) (new_comps : list string)
    (comp : string) : list string :=
  if String.eqb comp "" || String.eqb comp "." then new_comps
  else if negb (String.eqb comp "..")
          || ((initial_slashes =? 0)%nat && bool_decide (new_comps = []))
          || match new_comps with
             | top :: _ => String.eqb top ".."
             | [] => false
             end
       then comp :: new_comps
       else match new_comps with
            | _ :: rest => rest
            | [] => []
            end.

Fixpoint repeat_sep (n : nat) : string :=
  match n with
  | O => EmptyString
  | S n' => String "/" (repeat_sep n')
  end.

(** [os.path.normpath] *)
Definition normpath (path : string) : string :=
  if String.eqb path "" then "."
  else
    let initial_slashes :=
      if Py.startswith path "/"
      then if Py.startswith path "//" && negb (Py.startswith path "///")
           then 2 else 1
      else 0 in
    let comps := Py.split "/" path in
    let new_comps := fold_left (norm_step initial_slashes) comps [] in
    let path' := repeat_sep initial_slashes ++ Py.join "/" (rev new_comps) in
    if String.eqb path' "" then "." else path'.

(** [os.path.abspath], the current directory given *)
Definition abspath (cwd path : string) : string :=
  normpath (if isabs path then path else join cwd path).

End PosixPath.

(** ** Values decoded by the YAML loader *)

(** What [yaml.safe_load] builds: [None], booleans, integers, floats (their
    IEEE bit pattern), strings, byte strings, dates and time stamps, lists,
    mappings, sets, and the tuples found inside ordered mappings. *)
Inductive pyval :=
| PyNone
| PyBool (b : bool)
| PyInt (z : Z)
| PyFloat (bits : Z)
| PyStr (s : string)
| PyBytes (b : string)
| PyDate (ordinal : Z)
| PyDatetime (stamp : Z)
| PyList (l : list pyval)
| PyTuple (l : list pyval)
| PyDict (kvs : list (pyval * pyval))
| PySet (l : list pyval).

(** The two classes named in the field tables *)
Inductive pytype := TStr | TList.

(** [cls.__name__] *)
Definition type_dunder_name (t : pytype) : string :=
  match t with TStr => "str" | TList => "list" end.

(** [type(v).__name__] *)
Definition type_name (v : pyval) : string :=
  match v with
  | PyNone => "NoneType"
  | PyBool _ => "bool"
  | PyInt _ => "int"
  | PyFloat _ => "float"
  | PyStr _ => "str"
  | PyBytes _ => "bytes"
  | PyDate _ => "date"
  | PyDatetime _ => "datetime"
  | PyList _ => "list"
  | PyTuple _ => "tuple"
  | PyDict _ => "dict"
  | PySet _ => "set"
  end.

(** [isinstance(v, cls)] *)
Definition isinstance (v : pyval) (t : pytype) : bool :=
  match t, v with
  | TStr, PyStr _ => true
  | TList, PyList _ => true
  | _, _ => false
  end.

Definition is_dict (v : pyval) : bool :=
  match v with PyDict _ => true | _ => false end.

(** [v == s] for a [str] [s]: only an equal [str] compares equal. *)
Definition eq_str (v : pyval) (s : string) : bool :=
  match v with PyStr s' => String.eqb s' s | _ => false end.

(** [d[key]] and [key in d] for a mapping and a [str] key *)
Fixpoint dict_get (kvs : list (pyval * pyval)) (key : string) : option pyval :=
  match kvs with
  | [] => None
  | (k, v) :: kvs' => if eq_str k key then Some v else dict_get kvs' key
  end.

Definition dict_has (kvs : list (pyval * pyval)) (key : string) : bool :=
  match dict_get kvs key with Some _ => true | None => false end.

(** Does [hash(v)] succeed? *)
Fixpoint hashable (v : pyval) : bool :=
  match v with
  | PyList _ | PyDict _ | PySet _ => false
  | PyTuple l => forallb hashable l
  | _ => true
  end.

(** Exceptions that leave the validator *)
Inductive exn :=
| TypeError (msg : string)
| KeyError (key : string)
| LoaderError (msg : string).

Inductive outcome (A : Type) :=
| Returns (a : A)
| Raises (e : exn).
Arguments Returns {A} a.
Arguments Raises {A} e.

(** The type that the [TypeError] of [hash(v)] names: the type of the first
    part of [v] that cannot be hashed, the elements of a tuple being hashed
    in order. *)
Fixpoint unhashable_type (v : pyval) : option string :=
  match v with
  | PyList _ => Some "list"
  | PyDict _ => Some "dict"
  | PySet _ => Some "set"
  | PyTuple l =>
      (fix first (l : list pyval) : option string :=
         match l with
         | [] => None
         | x :: l' =>
             match unhashable_type x with
             | Some type => Some type
             | None => first l'
             end
         end) l
  | _ => None
  end.

(** [v in s] for a [set] of strings [s]: the element is hashed first; a
    [set] is looked up as a [frozenset] and is never found. *)
Definition in_str_set (v : pyval) (s : list string) : outcome bool :=
  match v with
  | PySet _ => Returns false
  | _ =>
      if hashable v
      then Returns (existsb (eq_str v) s)
      else Raises (TypeError ("unhashable type: '"
                              ++ default (type_name v) (unhashable_type v)
                              ++ "'"))
  end.

(** Is [sub] a substring of [s]?  ([sub in s] for two strings) *)
Fixpoint contains (s sub : string) : bool :=
  String.prefix sub s
  || match s with
     | EmptyString => false
     | String _ s' => contains s' sub
     end.

(** What the loader does on a text *)
Inductive load_result :=
| Loaded (v : pyval)
| YAMLError (msg : string)
| LoadRaises (e : exn).

(** ** The environment of a run *)

Record Env := {
  (** [yaml.safe_load] *)
  safe_load : string -> load_result;
  (** [os.path.exists] *)
  os_path_exists : string -> bool;
  (** [open(p, 'r', encoding='utf-8').read()]: the text, or the text of the
      exception *)
  read_text : string -> string + string;
  (** [os.walk]: the triples [(root, dirs, files)] in the order produced *)
  os_walk : string -> list (string * list string * list string);
  (** [os.getcwd()] *)
  getcwd : string;
  (** [str(v)], as an f-string formats a value *)
  py_str : pyval -> string;
  (** the order in which a [set] of strings is iterated *)
  set_iter : list string -> list string
}.

(** The name of the type of a value as the interpreter prints it in the
    text of an exception: with the module for the two types of [datetime] *)
Definition qualified_type_name (v : pyval) : string :=
  match v with
  | PyDate _ => "datetime.date"
  | PyDatetime _ => "datetime.datetime"
  | _ => type_name v
  end.

(** [s in v] for a [str] [s] and any value [v] *)
Definition py_contains (v : pyval) (s : string) : outcome bool :=
  match v with
  | PyDict kvs => Returns (dict_has kvs s)
  | PyStr t => Returns (contains t s)
  | PyList l | PyTuple l | PySet l => Returns (existsb (fun x => eq_str x s) l)
  | PyBytes _ =>
      Raises (TypeError "a bytes-like object is required, not 'str'")
  | _ =>
      Raises (TypeError ("argument of type '" ++ qualified_type_name v
                         ++ "' is not iterable"))
  end.

(** [v[s]] for a [str] [s] and any value [v]; the texts are those of
    CPython 3.11. *)
Definition py_getitem (v : pyval) (s : string) : outcome pyval :=
  match v with
  | PyDict kvs =>
      match dict_get kvs s with
      | Some x => Returns x
      | None => Raises (KeyError s)
      end
  | PyStr _ => Raises (TypeError "string indices must be integers, not 'str'")
  | PyList _ =>
      Raises (TypeError "list indices must be integers or slices, not str")
  | PyTuple _ =>
      Raises (TypeError "tuple indices must be integers or slices, not str")
  | PyBytes _ =>
      Raises (TypeError "byte indices must be integers or slices, not str")
  | _ =>
      Raises (TypeError ("'" ++ qualified_type_name v
                         ++ "' object is not subscriptable"))
  end.

(** ** Validation errors and the accumulator *)

Record ValidationError := {
  file_path : string;
  error_type : string;
  message : string;
  line_number : option Z
}.

(** [ValidationError(file_path, error_type, message)]: the line number is
    left at its default. *)
Definition new_error (file_path error_type message : string)
    : ValidationError :=
  {| file_path := file_path; error_type := error_type;
     message := message; line_number := None |}.

(** A method of the validator: from [self.errors] to the new [self.errors]
    and the way the call ended. *)
Definition M (A : Type) : Type :=
  list ValidationError -> list ValidationError * outcome A.

Definition ret {A} (a : A) : M A := fun errs => (errs, Returns a).

Definition bind {A B} (m : M A) (k : A -> M B) : M B :=
  fun errs =>
    match m errs with
    | (errs', Returns a) => k a errs'
    | (errs', Raises e) => (errs', Raises e)
    end.

(** [self.errors.append(e)] *)
Definition append_error (e : ValidationError) : M unit :=
  fun errs => ((errs ++ [e])%list, Returns tt).

(** [self.errors] *)
Definition get_errors : M (list ValidationError) :=
  fun errs => (errs, Returns errs).

(** [self.errors = []] *)
Definition reset_errors : M unit := fun _ => ([], Returns tt).

(** An expression that may raise *)
Definition lift {A} (o : outcome A) : M A := fun errs => (errs, o).

Notation "'let*' x := m 'in' k" := (bind m (fun x => k))
  (at level 10, x pattern, m at level 100, k at level 200).
Notation "m ;; k" := (bind m (fun _ => k))
  (at level 100, k at level 200, right associativity).

(** [for x in l: body(x)] *)
Fixpoint for_each {A} (l : list A) (body : A -> M unit) : M unit :=
  match l with
  | [] => ret tt
  | x :: l' => body x ;; for_each l' body
  end.

(** [if c: m] *)
Definition when (c : bool) (m : M unit) : M unit :=
  if c then m else ret tt.

Definition nl : ascii := "010"%char.

(** ** The validator *)

Section Validator.

Context (env : Env).

Definition REQUIRED_FIELDS : list (string * pytype) :=
  [("title", TStr); ("description", TStr); ("category", TStr);
   ("tags", TList); ("inclusion", TStr)].

Definition OPTIONAL_FIELDS : list (string * pytype) :=
  [("author", TStr); ("version", TStr); ("kiro_version", TStr);
   ("dependencies", TList); ("file_references", TList)].

Definition VALID_CATEGORIES : list string :=
  ["code-quality"; "testing"; "security"; "frameworks"; "workflows"].

Definition VALID_INCLUSION_VALUES : list string :=
  ["always"; "fileMatch"; "manual"].

(** The scan for the closing delimiter: [enumerate(lines[1:], 1)] *)
Fixpoint find_closing (i : nat) (lines : list string) : option nat :=
  match lines with
  | [] => None
  | line :: rest =>
      if String.eqb (Py.strip line) "---" then Some i
      else find_closing (S i) rest
  end.

(** The two texts cut out of the content once the closing line is found *)
Definition frontmatter_content (lines : list string) (frontmatter_end : nat)
    : string :=
  Py.join (String nl "") (Py.slice 1 frontmatter_end lines).

Definition body_content (lines : list string) (frontmatter_end : nat)
    : string :=
  Py.join (String nl "") (Py.slice_from (frontmatter_end + 1) lines).

(** The last step of [_extract_frontmatter]: the text between the
    delimiters goes to the loader. *)
Definition parse_yaml (file_path frontmatter_content body_content : string)
    : M (pyval * string) :=
  match safe_load env frontmatter_content with
  | Loaded frontmatter => ret (frontmatter, body_content)
  | YAMLError e =>
      append_error (new_error file_path "YAML_SYNTAX_ERROR"
                      ("Invalid YAML syntax: " ++ e)) ;;
      ret (PyNone, body_content)
  | LoadRaises e => lift (Raises e)
  end.

Definition _extract_frontmatter (file_path content : string)
    : M (pyval * string) :=
  if negb (Py.startswith content "---") then
    append_error (new_error file_path "MISSING_FRONTMATTER"
                    "File must start with YAML frontmatter") ;;
    ret (PyNone, content)
  else
    let lines := Py.split nl content in
    match find_closing 1 (Py.slice_from 1 lines) with
    | None =>
        append_error (new_error file_path "INVALID_FRONTMATTER"
                        "Frontmatter not properly closed with ---") ;;
        ret (PyNone, content)
    | Some frontmatter_end =>
        parse_yaml file_path (frontmatter_content lines frontmatter_end)
          (body_content lines frontmatter_end)
    end.

Definition field_type_message (field : string) (expected_type : pytype)
    (value : pyval) : string :=
  "Field '" ++ field ++ "' must be of type "
  ++ type_dunder_name expected_type ++ ", got " ++ type_name value.

(** The loop over [REQUIRED_FIELDS.items()] *)
Definition check_required_fields (file_path : string)
    (frontmatter : list (pyval * pyval)) : M unit :=
  for_each REQUIRED_FIELDS (fun '(field, expected_type) =>
    match dict_get frontmatter field with
    | None =>
        append_error (new_error file_path "MISSING_REQUIRED_FIELD"
                        ("Required field '" ++ field ++ "' is missing"))
    | Some value =>
        when (negb (isinstance value expected_type))
          (append_error (new_error file_path "INVALID_FIELD_TYPE"
                           (field_type_message field expected_type value)))
    end).

Definition check_category (file_path : string)
    (frontmatter : list (pyval * pyval)) : M unit :=
  match dict_get frontmatter "category" with
  | Some category =>
      let* found := lift (in_str_set category VALID_CATEGORIES) in
      when (negb found)
        (append_error (new_error file_path "INVALID_CATEGORY"
           ("Category '" ++ py_str env category
            ++ "' is not valid. Must be one of: "
            ++ Py.join ", " (set_iter env VALID_CATEGORIES))))
  | None => ret tt
  end.

Definition check_inclusion (file_path : string)
    (frontmatter : list (pyval * pyval)) : M unit :=
  match dict_get frontmatter "inclusion" with
  | Some inclusion =>
      let* found := lift (in_str_set inclusion VALID_INCLUSION_VALUES) in
      when (negb found)
        (append_error (new_error file_path "INVALID_INCLUSION"
           ("Inclusion '" ++ py_str env inclusion
            ++ "' is not valid. Must be one of: "
            ++ Py.join ", " (set_iter env VALID_INCLUSION_VALUES))))
  | None => ret tt
  end.

Definition check_tags (file_path : string)
    (frontmatter : list (pyval * pyval)) : M unit :=
  match dict_get frontmatter "tags" with
  | Some tags =>
      match tags with
      | PyList [] =>
          append_error (new_error file_path "EMPTY_TAGS"
                          "Tags list cannot be empty")
      | PyList tags =>
          for_each tags (fun tag =>
            when (negb (isinstance tag TStr))
              (append_error (new_error file_path "INVALID_TAG_TYPE"
                               "All tags must be strings")))
      | _ =>
          append_error (new_error file_path "INVALID_TAGS"
                          "Tags must be a list")
      end
  | None => ret tt
  end.

(** The loop over [OPTIONAL_FIELDS.items()] *)
Definition check_optional_fields (file_path : string)
    (frontmatter : list (pyval * pyval)) : M unit :=
  for_each OPTIONAL_FIELDS (fun '(field, expected_type) =>
    match dict_get frontmatter field with
    | Some value =>
        when (negb (isinstance value expected_type))
          (append_error (new_error file_path "INVALID_FIELD_TYPE"
                           (field_type_message field expected_type value)))
    | None => ret tt
    end).

Definition _validate_frontmatter (file_path : string) (frontmatter : pyval)
    : M unit :=
  match frontmatter with
  | PyDict kvs =>
      check_required_fields file_path kvs ;;
      check_category file_path kvs ;;
      check_inclusion file_path kvs ;;
      check_tags file_path kvs ;;
      check_optional_fields file_path kvs
  | _ =>
      append_error (new_error file_path "INVALID_FRONTMATTER"
                      "Frontmatter must be a YAML object")
  end.

(** The loop of [_find_repo_root].  Every round that goes on replaces
    [current_dir] by a shorter text, so [fuel] rounds are enough when [fuel]
    exceeds its length ([repo_root_loop_fuel] below); [None] is for a loop
    that is out of rounds. *)
Fixpoint repo_root_loop (fuel : nat) (current_dir : string)
    : option (option string) :=
  match fuel with
  | O => None
  | S fuel' =>
      if negb (String.eqb current_dir (PosixPath.dirname current_dir)) then
        if os_path_exists env (PosixPath.join current_dir ".git")
        then Some (Some current_dir)
        else repo_root_loop fuel' (PosixPath.dirname current_dir)
      else Some None
  end.

Definition _find_repo_root (file_path : string) : option string :=
  let current_dir :=
    PosixPath.dirname (PosixPath.abspath (getcwd env) file_path) in
  match repo_root_loop (S (String.length current_dir)) current_dir with
  | Some found => found
  | None => None
  end.

(** [if repo_root:] *)
Definition truthy_root (repo_root : option string) : bool :=
  match repo_root with
  | Some root => negb (String.eqb root "")
  | None => false
  end.

(** One round of the loop over [file_references], for a [str] element *)
Definition check_reference (file_path base_dir ref : string) : M unit :=
  let ref_path := PosixPath.join base_dir ref in
  if negb (os_path_exists env ref_path) then
    let repo_root := _find_repo_root file_path in
    let ref_path :=
      match repo_root with
      | Some root =>
          if truthy_root repo_root then PosixPath.join root ref else ref_path
      | None => ref_path
      end in
    when (negb (os_path_exists env ref_path))
      (append_error (new_error file_path "MISSING_FILE_REFERENCE"
                       ("Referenced file '" ++ ref ++ "' does not exist")))
  else ret tt.

Definition _validate_file_references (file_path : string)
    (frontmatter : pyval) : M unit :=
  let* present := lift (py_contains frontmatter "file_references") in
  if negb present then ret tt
  else
    let* file_references := lift (py_getitem frontmatter "file_references") in
    match file_references with
    | PyList refs =>
        let base_dir := PosixPath.dirname file_path in
        for_each refs (fun ref =>
          match ref with
          | PyStr ref => check_reference file_path base_dir ref
          | _ => ret tt
          end)
    | _ => ret tt
    end.

Definition required_sections : list string :=
  ["##\s+Core Principle"; "##\s+How Kiro Will Write";
   "##\s+What This Prevents"].

Definition section_name (section_pattern : string) : string :=
  Py.replace (Py.replace section_pattern "##\s+" "") "\s+" " ".

Definition _validate_markdown_structure (file_path body : string) : M unit :=
  if String.eqb (Py.strip body) "" then
    append_error (new_error file_path "EMPTY_BODY"
                    "Document body cannot be empty")
  else
    for_each required_sections (fun section_pattern =>
      when (negb (Re.search section_pattern body true))
        (append_error (new_error file_path "MISSING_SECTION"
           ("Required section '" ++ section_name section_pattern
            ++ "' is missing")))).

Definition validate_file (file_path : string) : M (list ValidationError) :=
  reset_errors ;;
  if negb (os_path_exists env file_path) then
    append_error (new_error file_path "FILE_NOT_FOUND" "File does not exist") ;;
    get_errors
  else
    match read_text env file_path with
    | inr e =>
        append_error (new_error file_path "READ_ERROR"
                        ("Cannot read file: " ++ e)) ;;
        get_errors
    | inl content =>
        let* (frontmatter, body) := _extract_frontmatter file_path content in
        match frontmatter with
        | PyNone => ret tt
        | _ =>
            _validate_frontmatter file_path frontmatter ;;
            _validate_file_references file_path frontmatter
        end ;;
        _validate_markdown_structure file_path body ;;
        get_errors
    end.

(** The files of one directory that the walk validates *)
Definition is_steering_file (file : string) : bool :=
  Py.endswith file ".md" && negb (String.eqb (Py.upper file) "README.MD").

(** [for x in l: acc = body(acc, x)] *)
Fixpoint fold_m {A R} (l : list A) (body : R -> A -> M R) (acc : R) : M R :=
  match l with
  | [] => ret acc
  | x :: l' => let* acc' := body acc x in fold_m l' body acc'
  end.

Definition validate_directory (directory : string)
    : M (gmap string (list ValidationError)) :=
  if negb (os_path_exists env directory) then
    ret {[ directory :=
             [new_error directory "DIRECTORY_NOT_FOUND"
                "Directory does not exist"] ]}
  else
    fold_m (os_walk env directory)
      (fun results '(root, dirs, files) =>
         fold_m files
           (fun results file =>
              if is_steering_file file then
                let file_path := PosixPath.join root file in
                let* errors := validate_file file_path in
                ret (<[ file_path := errors ]> results)
              else ret results)
           results)
      ∅.

End Validator.

(** ** Worlds to run the validator in *)

(** The decimal digits of a number, and [str(n)] for an [int] *)
Fixpoint digits (d : Decimal.uint) : string :=
  match d with
  | Decimal.Nil => ""
  | Decimal.D0 d => String "0" (digits d)
  | Decimal.D1 d => String "1" (digits d)
  | Decimal.D2 d => String "2" (digits d)
  | Decimal.D3 d => String "3" (digits d)
  | Decimal.D4 d => String "4" (digits d)
  | Decimal.D5 d => String "5" (digits d)
  | Decimal.D6 d => String "6" (digits d)
  | Decimal.D7 d => String "7" (digits d)
  | Decimal.D8 d => String "8" (digits d)
  | Decimal.D9 d => String "9" (digits d)
  end.

Definition str_int (n : Z) : string :=
  match Z.to_int n with
  | Decimal.Pos d => digits d
  | Decimal.Neg d => "-" ++ digits d
  end.

Module Examples.

(** A loader given by a table of the texts it decodes; any other text is a
    syntax error. *)
Fixpoint table_loader (table : list (string * load_result)) (text : string)
    : load_result :=
  match table with
  | [] => YAMLError "syntax error"
  | (t, r) :: table' =>
      if String.eqb t text then r else table_loader table' text
  end.

(** A loader that hands its argument back *)
Definition echo_loader (text : string) : load_result := Loaded (PyStr text).

Fixpoint lookup_file (files : list (string * (string + string)))
    (path : string) : option (string + string) :=
  match files with
  | [] => None
  | (p, r) :: files' =>
      if String.eqb p path then Some r else lookup_file files' path
  end.

(** A world with the given files (their text, or the error met on reading
    them), the given other paths, and one directory listing for [os.walk].
    Its [py_str] is [str] on texts, [None], booleans and integers; the other
    values, whose text depends on more than the value, are given by the name
    of their type, and no document of the worlds below has one formatted. *)
Definition world (loader : string -> load_result)
    (files : list (string * (string + string))) (other_paths : list string)
    (walk : list (string * list string * list string)) (cwd : string) : Env :=
  {| safe_load := loader;
     os_path_exists := fun p =>
       match lookup_file files p with
       | Some _ => true
       | None => existsb (String.eqb p) other_paths
       end;
     read_text := fun p =>
       match lookup_file files p with
       | Some r => r
       | None => inr "[Errno 21] Is a directory"
       end;
     os_walk := fun _ => walk;
     getcwd := cwd;
     py_str := fun v =>
       match v with
       | PyStr s => s
       | PyNone => "None"
       | PyBool true => "True"
       | PyBool false => "False"
       | PyInt z => str_int z
       | _ => type_name v
       end;
     set_iter := fun s => s |}.

End Examples.

(** A text given by its lines *)
Definition unlines (lines : list string) : string :=
  Py.join (String nl "") lines.

Module Docs.

Import Examples.

(** A document whose frontmatter holds a line that is the delimiter only
    after stripping *)
Definition indented_delimiter : string :=
  unlines ["---"; "a: 1"; "  ---"; "b: 2"; "---"; "body"].

Definition echo_world : Env :=
  world echo_loader [("doc.md", inl indented_delimiter)] [] [] "/".

(** A body whose first required heading is one level too deep *)
Definition deeper_heading_body : string :=
  unlines ["### Core Principle"; "## How Kiro Will Write";
           "## What This Prevents"].

Definition three_sections : list string :=
  ["## Core Principle"; "## How Kiro Will Write"; "## What This Prevents"].

(** A document with an empty frontmatter block, which the loader decodes
    to [None] *)
Definition empty_frontmatter : string :=
  unlines (["---"; "---"] ++ three_sections).

Definition null_world : Env :=
  world (table_loader [("", Loaded PyNone)])
    [("doc.md", inl empty_frontmatter)] [] [] "/".

(** A document whose first line goes on after the three dashes *)
Definition dashes_and_more : string :=
  unlines (["---x"; "---"] ++ three_sections).

Definition dashes_world : Env :=
  world (table_loader [("", Loaded PyNone)])
    [("doc.md", inl dashes_and_more)] [] [] "/".

(** A document without frontmatter *)
Definition no_frontmatter : string := unlines three_sections.

Definition plain_world : Env :=
  world (table_loader []) [("doc.md", inl no_frontmatter)] [] [] "/".

(** A document whose frontmatter is a list *)
Definition list_frontmatter : string :=
  unlines (["---"; "- a"; "---"] ++ three_sections).

Definition list_world : Env :=
  world (table_loader [("- a", Loaded (PyList [PyStr "a"]))])
    [("doc.md", inl list_frontmatter)] [] [] "/".

(** A world with a file that cannot be read and a scalar frontmatter *)
Definition locked_world : Env :=
  world (table_loader [("5", Loaded (PyInt 5))])
    [("locked.md", inr "[Errno 13] Permission denied");
     ("five.md", inl (unlines (["---"; "5"; "---"] ++ three_sections)))]
    [] [] "/".

(** An error left in the accumulator by an earlier call *)
Definition stale_error : ValidationError :=
  new_error "old.md" "EMPTY_BODY" "Document body cannot be empty".

(** A frontmatter whose category is a list and whose tags are no list *)
Definition unhashable_category : list (pyval * pyval) :=
  [(PyStr "category", PyList [PyStr "testing"]);
   (PyStr "tags", PyStr "not-a-list")].

Definition crash_doc : string :=
  unlines (["---"; "category: [testing]"; "tags: not-a-list"; "---"]
           ++ three_sections).

(** A directory [docs] with the one file [a.md], which is [crash_doc] *)
Definition crash_world : Env :=
  world
    (table_loader
       [(unlines ["category: [testing]"; "tags: not-a-list"],
         Loaded (PyDict unhashable_category))])
    [("docs/a.md", inl crash_doc)] ["docs"] [("docs", [], ["a.md"])] "/".

(** A frontmatter with a title of the wrong type and nothing else *)
Definition numeric_title : list (pyval * pyval) := [(PyStr "title", PyInt 3)].

(** A repository kept at the top of the file system: the marker is [/.git],
    the document [/docs/a.md] refers to [x.md], and [/x.md] exists. *)
Definition top_repo_world : Env :=
  world (table_loader []) [("/docs/a.md", inl no_frontmatter)]
    ["/"; "/.git"; "/docs"; "/x.md"] [] "/".

(** A repository at [/repo]: the document [/repo/docs/a.md] refers to [x.md],
    which exists under [/repo], and to [y.md], which exists nowhere. *)
Definition repo_world : Env :=
  world (table_loader []) [("/repo/docs/a.md", inl no_frontmatter)]
    ["/"; "/repo"; "/repo/.git"; "/repo/docs"; "/repo/x.md"] [] "/repo".

Definition references : list (pyval * pyval) :=
  [(PyStr "file_references", PyList [PyStr "x.md"; PyInt 7; PyStr "y.md"])].

End Docs.

(** ** Notions used to state the properties *)

(** [m] only appends the errors [new] and returns [a]. *)
Definition appends {A} (m : M A) (new : list ValidationError) (a : A) : Prop :=
  forall errs, m errs = ((errs ++ new)%list, Returns a).

(** Whatever way [m] ends, it only appends errors, all of them in [P]. *)
Definition emits {A} (P : ValidationError -> Prop) (m : M A) : Prop :=
  forall errs, exists new,
    fst (m errs) = (errs ++ new)%list /\ Forall P new.

(** The literal items of a pattern without special characters *)
Fixpoint lits (p : string) : list Re.item :=
  match p with
  | EmptyString => []
  | String c p' => Re.Lit c :: lits p'
  end.

(** The names of the three required sections *)
Definition required_phrases : list string :=
  ["Core Principle"; "How Kiro Will Write"; "What This Prevents"].

Definition missing_section_error (file_path phrase : string)
    : ValidationError :=
  new_error file_path "MISSING_SECTION"
    ("Required section '" ++ phrase ++ "' is missing").

(** The errors of the loop over the required sections *)
Definition missing_sections (file_path body : string)
    : list ValidationError :=
  List.concat
    (map (fun phrase =>
            if negb (Re.search ("##\s+" ++ phrase) body true)
            then [missing_section_error file_path phrase] else [])
       required_phrases).

(** Somewhere in [body] stand two hash signs, then one or more white
    characters (blanks, tabs, newlines, ...), then [phrase] in any case. *)
Definition has_section_marker (phrase body : string) : Prop :=
  exists before ws found after,
    body = before ++ "##" ++ ws ++ found ++ after
    /\ Py.str_isspace ws = true
    /\ Py.lower found = Py.lower phrase.

(** An error of the document [path], without a line number, with a type
    among [types] *)
Definition stamped (path : string) (types : list string)
    (e : ValidationError) : Prop :=
  file_path e = path /\ line_number e = None /\ In (error_type e) types.

Definition has_type (type : string) (e : ValidationError) : bool :=
  String.eqb (error_type e) type.

(** How many errors of a type a list holds *)
Definition count_type (type : string) (errs : list ValidationError) : nat :=
  List.length (List.filter (has_type type) errs).

(** What the body-structure checks report on a body *)
Definition body_errors (file_path body : string) : list ValidationError :=
  fst (_validate_markdown_structure file_path body []).

Definition body_types : list string := ["EMPTY_BODY"; "MISSING_SECTION"].

Definition extract_types : list string :=
  ["MISSING_FRONTMATTER"; "INVALID_FRONTMATTER"; "YAML_SYNTAX_ERROR"].

Definition frontmatter_types : list string :=
  ["INVALID_FRONTMATTER"; "MISSING_REQUIRED_FIELD"; "INVALID_FIELD_TYPE";
   "INVALID_CATEGORY"; "INVALID_INCLUSION"; "INVALID_TAGS"; "EMPTY_TAGS";
   "INVALID_TAG_TYPE"].

Definition reference_types : list string := ["MISSING_FILE_REFERENCE"].

(** The types of all the errors of a document that was read *)
Definition document_types : list string :=
  (extract_types ++ frontmatter_types ++ reference_types ++ body_types)%list.

(** The value a method returns is the accumulator it leaves. *)
Definition returns_accumulator (m : M (list ValidationError)) : Prop :=
  forall errs,
    match m errs with
    | (errs', Returns l) => l = errs'
    | (_, Raises _) => True
    end.

(** The frontmatter block of [content] is closed and the loader decodes it
    to [v]; [body] is the text after the closing line. *)
Definition parses_to (env : Env) (content : string) (v : pyval)
    (body : string) : Prop :=
  Py.startswith content "---" = true
  /\ exists frontmatter_end,
       let lines := Py.split nl content in
       find_closing 1 (Py.slice_from 1 lines) = Some frontmatter_end
       /\ safe_load env (frontmatter_content lines frontmatter_end) = Loaded v
       /\ body = body_content lines frontmatter_end.

Definition missing_frontmatter_error (file_path : string) : ValidationError :=
  new_error file_path "MISSING_FRONTMATTER"
    "File must start with YAML frontmatter".

Definition not_a_mapping_error (file_path : string) : ValidationError :=
  new_error file_path "INVALID_FRONTMATTER" "Frontmatter must be a YAML object".

Definition missing_field_error (path field : string) : ValidationError :=
  new_error path "MISSING_REQUIRED_FIELD"
    ("Required field '" ++ field ++ "' is missing").

(** The INVALID_FIELD_TYPE error of a field: its message names the field,
    the type expected ([str] or [list]) and the type of the value found. *)
Definition field_type_error (path field : string) (expected : pytype)
    (value : pyval) : ValidationError :=
  new_error path "INVALID_FIELD_TYPE"
    ("Field '" ++ field ++ "' must be of type "
     ++ match expected with TStr => "str" | TList => "list" end
     ++ ", got " ++ type_name value).

(** A MISSING_REQUIRED_FIELD error for [field] *)
Definition is_missing_field (field : string) (e : ValidationError) : bool :=
  has_type "MISSING_REQUIRED_FIELD" e
  && String.eqb (message e) ("Required field '" ++ field ++ "' is missing").

(** An INVALID_FIELD_TYPE error for [field] *)
Definition is_field_type (field : string) (e : ValidationError) : bool :=
  has_type "INVALID_FIELD_TYPE" e
  && String.prefix ("Field '" ++ field ++ "' ") (message e).

(** What the loop over the required fields appends for one of them *)
Definition required_field_report (path : string)
    (frontmatter : list (pyval * pyval)) (entry : string * pytype)
    : list ValidationError :=
  let (field, expected_type) := entry in
  match dict_get frontmatter field with
  | None => [missing_field_error path field]
  | Some value =>
      if negb (isinstance value expected_type)
      then [field_type_error path field expected_type value] else []
  end.

Definition required_field_errors (path : string)
    (frontmatter : list (pyval * pyval)) : list ValidationError :=
  List.concat (map (required_field_report path frontmatter) REQUIRED_FIELDS).

(** What the tags check appends for a value of the key [tags] *)
Definition tags_errors (path : string) (tags : pyval)
    : list ValidationError :=
  match tags with
  | PyList [] => [new_error path "EMPTY_TAGS" "Tags list cannot be empty"]
  | PyList tags =>
      map (fun _ => new_error path "INVALID_TAG_TYPE"
                      "All tags must be strings")
        (List.filter (fun tag => negb (isinstance tag TStr)) tags)
  | _ => [new_error path "INVALID_TAGS" "Tags must be a list"]
  end.

(** The checks after the loop over the required fields report nothing
    about a required field. *)
Definition silent_on_required (e : ValidationError) : Prop :=
  forall field expected_type,
    In (field, expected_type) REQUIRED_FIELDS ->
    is_missing_field field e = false /\ is_field_type field e = false.

Definition tag_types : list string :=
  ["INVALID_TAGS"; "EMPTY_TAGS"; "INVALID_TAG_TYPE"].

(** One of the three errors of the tags check *)
Definition is_tag_error (e : ValidationError) : bool :=
  existsb (String.eqb (error_type e)) tag_types.

Definition non_tag_types : list string :=
  ["MISSING_REQUIRED_FIELD"; "INVALID_FIELD_TYPE"; "INVALID_CATEGORY";
   "INVALID_INCLUSION"].

(** A method that returns whatever the accumulator holds *)
Definition returns_always {A} (m : M A) : Prop :=
  forall errs, exists a, snd (m errs) = Returns a.

Definition missing_reference_error (path ref : string) : ValidationError :=
  new_error path "MISSING_FILE_REFERENCE"
    ("Referenced file '" ++ ref ++ "' does not exist").

(** The directory holds the version-control marker. *)
Definition has_marker (env : Env) (dir : string) : bool :=
  os_path_exists env (PosixPath.join dir ".git").

(** The directories that the loop of [_find_repo_root] looks at, in order:
    [dir], its parent, and so on, as long as the directory is not its own
    parent.  The directory that is its own parent, the top of the file
    system, is not among them. *)
Fixpoint searched_dirs (fuel : nat) (dir : string) : list string :=
  match fuel with
  | O => []
  | S fuel' =>
      if String.eqb dir (PosixPath.dirname dir) then []
      else dir :: searched_dirs fuel' (PosixPath.dirname dir)
  end.

(** The directory of a document, made absolute *)
Definition document_dir (env : Env) (file_path : string) : string :=
  PosixPath.dirname (PosixPath.abspath (getcwd env) file_path).

Definition dirs_below_top (env : Env) (file_path : string) : list string :=
  let dir := document_dir env file_path in
  searched_dirs (S (String.length dir)) dir.

(** A reference that resolves neither beside the document nor under the
    directory that [_find_repo_root] gives *)
Definition unresolved (env : Env) (file_path ref : string) : bool :=
  negb (os_path_exists env
          (PosixPath.join (PosixPath.dirname file_path) ref))
  && match _find_repo_root env file_path with
     | Some root => negb (os_path_exists env (PosixPath.join root ref))
     | None => true
     end.

(** The elements of a list that are strings, in their order *)
Fixpoint string_elements (refs : list pyval) : list string :=
  match refs with
  | [] => []
  | PyStr ref :: refs' => ref :: string_elements refs'
  | _ :: refs' => string_elements refs'
  end.

(** What the loop over the references appends for one element *)
Definition reference_report (env : Env) (file_path : string) (ref : pyval)
    : list ValidationError :=
  match ref with
  | PyStr ref =>
      if unresolved env file_path ref
      then [missing_reference_error file_path ref] else []
  | _ => []
  end.

(** The paths that the walk of a directory validates, in order *)
Definition steering_files (env : Env) (directory : string) : list string :=
  List.concat
    (map (fun '(root, dirs, files) =>
            map (PosixPath.join root) (List.filter is_steering_file files))
       (os_walk env directory)).

(** The errors that single-file validation leaves for a path *)
Definition file_errors (env : Env) (path : string) : list ValidationError :=
  fst (validate_file env path []).

(** Single-file validation of [path] returns. *)
Definition file_returns (env : Env) (path : string) : Prop :=
  exists errors, snd (validate_file env path []) = Returns errors.

(** One validated file of the walk: [results[file_path] = ...] *)
Definition visit (env : Env) (results : gmap string (list ValidationError))
    (file_path : string) : M (gmap string (list ValidationError)) :=
  let* errors := validate_file env file_path in
  ret (<[ file_path := errors ]> results).

(** The mapping built from the validated paths *)
Definition results_of (env : Env) (paths : list string)
    : gmap string (list ValidationError) :=
  foldl (fun results path => <[ path := file_errors env path ]> results)
    ∅ paths.

(** The letters of the name that is left out, and the dot *)
Definition readme_chars : list ascii :=
  ["R"; "E"; "A"; "D"; "M"; "."]%char.

(** All the characters *)
Definition all_chars : list ascii := map ascii_of_nat (seq 0 256).

(** ** The claims as the specification words them

    Each definition below follows the wording of the specification, to be
    compared with what the validator does. *)

Module AsStated.

(** The closing delimiter as a line that is exactly the three dashes *)
Fixpoint find_closing_exact (i : nat) (lines : list string) : option nat :=
  match lines with
  | [] => None
  | line :: rest =>
      if String.eqb line "---" then Some i
      else find_closing_exact (S i) rest
  end.

(** The frontmatter runs from the opening line to the first later line that
    is exactly the delimiter, and the body follows that line. *)
Definition frontmatter_ends_at_exact_delimiter : Prop :=
  forall (env : Env) (file_path content : string) (frontmatter_end : nat),
    Py.startswith content "---" = true ->
    let lines := Py.split nl content in
    find_closing_exact 1 (Py.slice_from 1 lines) = Some frontmatter_end ->
    _extract_frontmatter env file_path content
    = parse_yaml env file_path (frontmatter_content lines frontmatter_end)
        (body_content lines frontmatter_end).

(** A line that is a level-2 heading for [phrase]: the two hash signs at the
    start of the line, white space, then the phrase in any case. *)
Definition heading_line (phrase line : string) : bool :=
  match line with
  | String "#" (String "#" rest) =>
      let after_space := Py.lstrip rest in
      negb (String.eqb after_space rest)
      && String.prefix (Py.lower phrase) (Py.lower after_space)
  | _ => false
  end.

(** A section is reported missing exactly when no line of the body is a
    level-2 heading for it. *)
Definition missing_section_iff_no_heading_line : Prop :=
  forall (file_path body phrase : string),
    Py.strip body <> "" ->
    In phrase required_phrases ->
    (In (missing_section_error file_path phrase)
        (fst (_validate_markdown_structure file_path body []))
     <-> ~ exists line,
           In line (Py.split nl body) /\ heading_line phrase line = true).

(** A frontmatter block that decodes to anything but a mapping, a null
    included, is reported as INVALID_FRONTMATTER. *)
Definition non_mapping_is_reported : Prop :=
  forall (env : Env) (file_path content : string) (v : pyval) (body : string)
         (errs : list ValidationError),
    os_path_exists env file_path = true ->
    read_text env file_path = inl content ->
    parses_to env content v body ->
    is_dict v = false ->
    0 < count_type "INVALID_FRONTMATTER"
          (fst (validate_file env file_path errs)).

(** MISSING_FRONTMATTER is reported exactly when the first line of the
    content is not the delimiter line. *)
Definition missing_frontmatter_iff_no_delimiter_line : Prop :=
  forall (env : Env) (file_path content : string)
         (errs : list ValidationError),
    os_path_exists env file_path = true ->
    read_text env file_path = inl content ->
    (0 < count_type "MISSING_FRONTMATTER"
           (fst (validate_file env file_path errs))
     <-> hd "" (Py.split nl content) <> "---").

(** All the ancestor directories of [dir], the one that is its own parent
    included *)
Fixpoint ancestor_dirs (fuel : nat) (dir : string) : list string :=
  match fuel with
  | O => [dir]
  | S fuel' =>
      if String.eqb dir (PosixPath.dirname dir) then [dir]
      else dir :: ancestor_dirs fuel' (PosixPath.dirname dir)
  end.

(** The repository root: the nearest ancestor directory of the document
    that holds the version-control marker *)
Definition repository_root (env : Env) (file_path : string) : option string :=
  let dir := document_dir env file_path in
  List.find (has_marker env) (ancestor_dirs (String.length dir) dir).

(** A reference is reported exactly when it exists neither beside the
    document nor under the repository root. *)
Definition missing_reference_iff_unresolved : Prop :=
  forall (env : Env) (file_path : string) (kvs : list (pyval * pyval))
         (refs : list pyval) (ref : string),
    dict_get kvs "file_references" = Some (PyList refs) ->
    In (PyStr ref) refs ->
    (In (missing_reference_error file_path ref)
        (fst (_validate_file_references env file_path (PyDict kvs) []))
     <-> os_path_exists env
           (PosixPath.join (PosixPath.dirname file_path) ref) = false
         /\ match repository_root env file_path with
            | Some root =>
                os_path_exists env (PosixPath.join root ref) = false
            | None => True
            end).

End AsStated.

(** ** Notions for the further properties *)

(** A value whose lookup in a set raises: it cannot be hashed and is no
    set *)
Definition unhashable_key (v : pyval) : bool :=
  match v with
  | PySet _ => false
  | _ => negb (hashable v)
  end.

(** The key is present in the mapping with a value that cannot be hashed. *)
Definition raises_on (kvs : list (pyval * pyval)) (key : string) : bool :=
  match dict_get kvs key with
  | Some v => unhashable_key v
  | None => false
  end.

(** The value is a [str] that is one of the given strings. *)
Definition listed (valid : list string) (v : pyval) : bool :=
  existsb (eq_str v) valid.

Definition invalid_category_error (env : Env) (path : string) (v : pyval)
    : ValidationError :=
  new_error path "INVALID_CATEGORY"
    ("Category '" ++ py_str env v ++ "' is not valid. Must be one of: "
     ++ Py.join ", " (set_iter env VALID_CATEGORIES)).

Definition invalid_inclusion_error (env : Env) (path : string) (v : pyval)
    : ValidationError :=
  new_error path "INVALID_INCLUSION"
    ("Inclusion '" ++ py_str env v ++ "' is not valid. Must be one of: "
     ++ Py.join ", " (set_iter env VALID_INCLUSION_VALUES)).

(** What the check of an enumeration appends for the value of its key *)
Definition enumeration_errors (valid : list string)
    (error : pyval -> ValidationError) (value : option pyval)
    : list ValidationError :=
  match value with
  | Some v => if unhashable_key v || listed valid v then [] else [error v]
  | None => []
  end.

Definition category_errors (env : Env) (path : string)
    (kvs : list (pyval * pyval)) : list ValidationError :=
  enumeration_errors VALID_CATEGORIES (invalid_category_error env path)
    (dict_get kvs "category").

Definition inclusion_errors (env : Env) (path : string)
    (kvs : list (pyval * pyval)) : list ValidationError :=
  enumeration_errors VALID_INCLUSION_VALUES (invalid_inclusion_error env path)
    (dict_get kvs "inclusion").

(** How the check of an enumeration ends *)
Definition enumeration_outcome (valid : list string) (value : option pyval)
    : outcome unit :=
  match value with
  | Some v =>
      match in_str_set v valid with
      | Returns _ => Returns tt
      | Raises e => Raises e
      end
  | None => Returns tt
  end.

(** What the loop over the optional fields appends for one of them *)
Definition optional_field_report (path : string)
    (frontmatter : list (pyval * pyval)) (entry : string * pytype)
    : list ValidationError :=
  let (field, expected_type) := entry in
  match dict_get frontmatter field with
  | Some value =>
      if negb (isinstance value expected_type)
      then [field_type_error path field expected_type value] else []
  | None => []
  end.

Definition optional_field_errors (path : string)
    (frontmatter : list (pyval * pyval)) : list ValidationError :=
  List.concat (map (optional_field_report path frontmatter) OPTIONAL_FIELDS).

(** What the tags check appends on a mapping *)
Definition tags_block_errors (path : string) (kvs : list (pyval * pyval))
    : list ValidationError :=
  match dict_get kvs "tags" with
  | Some tags => tags_errors path tags
  | None => []
  end.

(** What follows the check of the category, up to the first check that
    raises *)
Definition after_category (env : Env) (path : string)
    (kvs : list (pyval * pyval)) : list ValidationError :=
  if raises_on kvs "category" then []
  else (inclusion_errors env path kvs
        ++ (if raises_on kvs "inclusion" then []
            else tags_block_errors path kvs
                 ++ optional_field_errors path kvs))%list.

(** The errors of the frontmatter checks on a mapping, block after block, up
    to the first check that raises *)
Definition frontmatter_errors (env : Env) (path : string)
    (kvs : list (pyval * pyval)) : list ValidationError :=
  (required_field_errors path kvs
   ++ category_errors env path kvs
   ++ after_category env path kvs)%list.

(** How the frontmatter checks on a mapping end *)
Definition frontmatter_outcome (kvs : list (pyval * pyval)) : outcome unit :=
  match enumeration_outcome VALID_CATEGORIES (dict_get kvs "category") with
  | Returns _ =>
      enumeration_outcome VALID_INCLUSION_VALUES (dict_get kvs "inclusion")
  | Raises e => Raises e
  end.

(** What the file-reference check appends on a mapping *)
Definition reference_errors (env : Env) (path : string)
    (kvs : list (pyval * pyval)) : list ValidationError :=
  match dict_get kvs "file_references" with
  | Some (PyList refs) =>
      List.concat (map (reference_report env path) refs)
  | _ => []
  end.

Definition empty_body_error (path : string) : ValidationError :=
  new_error path "EMPTY_BODY" "Document body cannot be empty".

Definition unclosed_error (path : string) : ValidationError :=
  new_error path "INVALID_FRONTMATTER"
    "Frontmatter not properly closed with ---".

Definition yaml_syntax_error (path msg : string) : ValidationError :=
  new_error path "YAML_SYNTAX_ERROR" ("Invalid YAML syntax: " ++ msg).

(** The frontmatter block of [content] is opened and never closed: no line
    after the first is the delimiter once it is stripped. *)
Definition unclosed (content : string) : Prop :=
  Py.startswith content "---" = true
  /\ Forall (fun line => Py.strip line <> "---")
       (Py.slice_from 1 (Py.split nl content)).

(** The frontmatter block of [content] is closed and the loader rejects it
    as ill-formed YAML, with the text [msg]; [body] is the text after the
    closing line. *)
Definition rejected (env : Env) (content msg body : string) : Prop :=
  Py.startswith content "---" = true
  /\ exists frontmatter_end,
       let lines := Py.split nl content in
       find_closing 1 (Py.slice_from 1 lines) = Some frontmatter_end
       /\ safe_load env (frontmatter_content lines frontmatter_end)
          = YAMLError msg
       /\ body = body_content lines frontmatter_end.

(** The lookup of the key [file_references] in a value raises: the test of
    membership raises (the value is no container), or the key is found, as a
    part of a text or as an element of a list, a tuple or a set, and the
    subscript that follows raises on a value that is no mapping. *)
Definition reference_lookup_raises (v : pyval) : bool :=
  match py_contains v "file_references" with
  | Returns present => present
  | Raises _ => true
  end.

(** *** The text of an error *)

(** [ValidationError.__str__]: the location is left out for a line number
    that is [None] or zero. *)
Definition __str__ (self : ValidationError) : string :=
  let location :=
    match line_number self with
    | Some n => if (n =? 0)%Z then "" else ":" ++ str_int n
    | None => ""
    end in
  file_path self ++ location ++ " [" ++ error_type self ++ "] "
  ++ message self.

(** *** A frontmatter without fault *)

(** The field is present with a value of its type. *)
Definition well_typed (kvs : list (pyval * pyval)) (entry : string * pytype)
    : bool :=
  match dict_get kvs (fst entry) with
  | Some value => isinstance value (snd entry)
  | None => false
  end.

(** The field is absent, or present with a value of its type. *)
Definition well_typed_if_present (kvs : list (pyval * pyval))
    (entry : string * pytype) : bool :=
  match dict_get kvs (fst entry) with
  | Some value => isinstance value (snd entry)
  | None => true
  end.

(** A list of strings with one element at least *)
Definition good_tags (tags : pyval) : bool :=
  match tags with
  | PyList (tag :: tags) =>
      forallb (fun tag => isinstance tag TStr) (tag :: tags)
  | _ => false
  end.

(** Every string among the references resolves. *)
Definition references_resolve (env : Env) (path : string)
    (kvs : list (pyval * pyval)) : bool :=
  match dict_get kvs "file_references" with
  | Some (PyList refs) =>
      forallb (fun ref =>
                 match ref with
                 | PyStr ref => negb (unresolved env path ref)
                 | _ => true
                 end) refs
  | _ => true
  end.

Definition valid_frontmatter (env : Env) (path : string)
    (kvs : list (pyval * pyval)) : bool :=
  forallb (well_typed kvs) REQUIRED_FIELDS
  && match dict_get kvs "category" with
     | Some v => listed VALID_CATEGORIES v
     | None => false
     end
  && match dict_get kvs "inclusion" with
     | Some v => listed VALID_INCLUSION_VALUES v
     | None => false
     end
  && match dict_get kvs "tags" with
     | Some tags => good_tags tags
     | None => false
     end
  && forallb (well_typed_if_present kvs) OPTIONAL_FIELDS
  && references_resolve env path kvs.

(** The body holds the marker of each required section. *)
Definition sections_present (body : string) : Prop :=
  forall phrase, In phrase required_phrases -> has_section_marker phrase body.

(** A document without fault: it is read, its frontmatter block is closed
    and decodes to null or to a mapping without fault, and its body holds the
    three markers. *)
Definition valid_document (env : Env) (path : string) : Prop :=
  os_path_exists env path = true
  /\ exists content v body,
       read_text env path = inl content
       /\ parses_to env content v body
       /\ (v = PyNone
           \/ exists kvs, v = PyDict kvs
                          /\ valid_frontmatter env path kvs = true)
       /\ sections_present body.

(** *** Documents to run the further properties on *)

Module Cases.

Import Examples.

(** A frontmatter without fault, with one reference *)
Definition good_frontmatter : list (pyval * pyval) :=
  [(PyStr "title", PyStr "Testing guide");
   (PyStr "description", PyStr "How tests are written");
   (PyStr "category", PyStr "testing");
   (PyStr "tags", PyList [PyStr "tests"]);
   (PyStr "inclusion", PyStr "always");
   (PyStr "file_references", PyList [PyStr "x.md"])].

Definition good_yaml : list string :=
  ["title: Testing guide"; "description: How tests are written";
   "category: testing"; "tags: [tests]"; "inclusion: always";
   "file_references: [x.md]"].

Definition good_doc : string :=
  unlines (["---"] ++ good_yaml ++ ["---"] ++ Docs.three_sections).

(** A frontmatter with faults in every block *)
Definition faulty_frontmatter : list (pyval * pyval) :=
  [(PyStr "title", PyStr "Testing guide");
   (PyStr "category", PyStr "Testing");
   (PyStr "tags", PyList [PyStr "tests"; PyInt 1; PyNone]);
   (PyStr "inclusion", PyStr "sometimes");
   (PyStr "author", PyList []);
   (PyStr "file_references", PyList [PyStr "x.md"; PyStr "/y.md"])].

Definition faulty_yaml : list string :=
  ["title: Testing guide"; "category: Testing"; "tags: [tests, 1, null]";
   "inclusion: sometimes"; "author: []"; "file_references: [x.md, /y.md]"].

Definition faulty_doc : string :=
  unlines (["---"] ++ faulty_yaml ++ ["---"; "  "]).

(** A frontmatter whose inclusion is a mapping *)
Definition unhashable_inclusion : list (pyval * pyval) :=
  [(PyStr "category", PyStr "testing");
   (PyStr "inclusion", PyDict []);
   (PyStr "tags", PyStr "not-a-list")].

Definition unhashable_doc : string :=
  unlines (["---"; "category: testing"; "inclusion: {}"; "tags: not-a-list";
            "---"] ++ Docs.three_sections).

(** A frontmatter that is not closed, and one that the loader rejects *)
Definition unclosed_doc : string :=
  unlines (["---"; "title: Testing guide"] ++ Docs.three_sections).

Definition broken_doc : string :=
  unlines (["---"; "title: [unclosed"; "---"] ++ Docs.three_sections).

(** The repository [/repo] with its documents under [/repo/docs] *)
Definition repo_files : list (string * (string + string)) :=
  [("/repo/docs/a.md", inl good_doc);
   ("/repo/docs/b.md", inl faulty_doc);
   ("/repo/docs/c.md", inl unhashable_doc);
   ("/repo/docs/d.md", inl unclosed_doc);
   ("/repo/docs/e.md", inl broken_doc);
   ("/repo/docs/sub/a.md", inl good_doc)].

Definition repo_loader : string -> load_result :=
  table_loader
    [(unlines good_yaml, Loaded (PyDict good_frontmatter));
     (unlines faulty_yaml, Loaded (PyDict faulty_frontmatter));
     (unlines ["category: testing"; "inclusion: {}"; "tags: not-a-list"],
      Loaded (PyDict unhashable_inclusion));
     ("title: [unclosed", YAMLError "while parsing a flow sequence")].

Definition repo_paths : list string :=
  ["/"; "/repo"; "/repo/.git"; "/repo/docs"; "/repo/docs/sub"; "/repo/x.md"].

(** A walk of [/repo/docs] that meets two documents without exception *)
Definition repo : Env :=
  world repo_loader repo_files repo_paths
    [("/repo/docs", ["sub"], ["a.md"; "README.md"; "notes.txt"; "b.md"]);
     ("/repo/docs/sub", [], ["a.md"; "ReadMe.md"; "guide.MD"])]
    "/repo".

(** A walk that meets the document whose validation raises *)
Definition crashing_repo : Env :=
  world repo_loader repo_files repo_paths
    [("/repo/docs", ["sub"], ["a.md"; "c.md"; "b.md"])] "/repo".

End Cases.

(** ** The command line

    [main] is embedded with its effects made explicit: the lines it prints,
    in order, and the way it ends.  Writing to the standard output is taken
    to succeed. *)

(** A printed line is made of pieces of text and of the check mark U+2713,
    which lies outside the code points of [ascii]. *)
Inductive piece :=
| Text (s : string)
| CheckMark.

(** How the program ends *)
Inductive ending :=
| Returned                (* [main] returns: the exit status is 0 *)
| Exited (status : Z)     (* [sys.exit(status)] *)
| Uncaught (e : exn).     (* an exception leaves [main]: the exit status is 1 *)

Definition exit_status (e : ending) : Z :=
  match e with
  | Returned => 0
  | Exited status => status
  | Uncaught _ => 1
  end.

(** What [main] reads besides the environment of the validator *)
Record Cli := {
  (** [sys.argv] *)
  sys_argv : list string;
  (** [os.path.isfile] and [os.path.isdir] *)
  os_path_isfile : string -> bool;
  os_path_isdir : string -> bool
}.

(** [__doc__] of the module *)
Definition module_doc : string :=
  unlines
    [""; "Steering Document Validation Tool"; "";
     "Validates steering documents for proper frontmatter, YAML syntax,";
     "and file references according to the Kiro steering documentation standards.";
     ""].

(** [results[key] = value] on a [dict], which keeps its keys in the order of
    their first insertion *)
Fixpoint dict_setitem {V} (items : list (string * V)) (key : string)
    (value : V) : list (string * V) :=
  match items with
  | [] => [(key, value)]
  | (k, v) :: rest =>
      if String.eqb k key then (k, value) :: rest
      else (k, v) :: dict_setitem rest key value
  end.

(** [validate_directory] with its result kept in the order of
    [results.items()], which is the order that [main] prints it in *)
Definition validate_directory_items (env : Env) (directory : string)
    : M (list (string * list ValidationError)) :=
  if negb (os_path_exists env directory) then
    ret [(directory,
          [new_error directory "DIRECTORY_NOT_FOUND"
             "Directory does not exist"])]
  else
    fold_m (os_walk env directory)
      (fun results '(root, dirs, files) =>
         fold_m files
           (fun results file =>
              if is_steering_file file then
                let file_path := PosixPath.join root file in
                let* errors := validate_file env file_path in
                ret (dict_setitem results file_path errors)
              else ret results)
           results)
      [].

(** The lines printed for a file with errors *)
Definition print_errors (path : string) (errors : list ValidationError)
    : list (list piece) :=
  [Text ("Validation errors in " ++ path ++ ":")]
  :: map (fun error => [Text ("  " ++ __str__ error)]) errors.

(** One round of the loop over [results.items()]: the lines printed so far
    and [total_errors] *)
Definition report_step (state : list (list piece) * nat)
    (item : string * list ValidationError) : list (list piece) * nat :=
  let (printed, total_errors) := state in
  let (file_path, errors) := item in
  match errors with
  | [] =>
      ((printed ++ [[CheckMark; Text (" " ++ file_path ++ " is valid")]])%list,
       total_errors)
  | _ :: _ =>
      ((printed ++ print_errors file_path errors)%list,
       total_errors + List.length errors)
  end.

Definition main (env : Env) (cli : Cli) : list (list piece) * ending :=
  match sys_argv cli with
  | [] | [_] =>
      ([[Text "Usage: python validate-steering.py <file_or_directory>"];
        [Text "       python validate-steering.py --help"]],
       Exited 1)
  | _ :: target :: _ =>
      if String.eqb target "--help" then
        ([[Text module_doc];
          [Text (String nl "Usage:")];
          [Text "  python validate-steering.py <file.md>           # Validate single file"];
          [Text "  python validate-steering.py <directory>        # Validate all .md files in directory"];
          [Text "  python validate-steering.py --help             # Show this help"]],
         Exited 0)
      else if os_path_isfile cli target then
        match validate_file env target [] with
        | (_, Returns []) =>
            ([[CheckMark; Text (" " ++ target ++ " is valid")]], Returned)
        | (_, Returns errors) => (print_errors target errors, Exited 1)
        | (_, Raises e) => ([], Uncaught e)
        end
      else if os_path_isdir cli target then
        match validate_directory_items env target [] with
        | (_, Returns results) =>
            let (printed, total_errors) :=
              fold_left report_step results ([], 0) in
            if (0 <? total_errors)%nat then
              ((printed
                ++ [[Text (String nl "Total: "
                           ++ str_int (Z.of_nat total_errors)
                           ++ " validation errors found")]])%list,
               Exited 1)
            else
              ((printed
                ++ [[Text (String nl ""); CheckMark;
                     Text " All files are valid"]])%list,
               Returned)
        | (_, Raises e) => ([], Uncaught e)
        end
      else
        ([[Text ("Error: " ++ target ++ " is not a valid file or directory")]],
         Exited 1)
  end.

(** Worlds for the command line *)
Module Commands.

Definition on_repo (args : list string) : Cli :=
  {| sys_argv := "validate-steering.py" :: args;
     os_path_isfile := fun p =>
       match Examples.lookup_file Cases.repo_files p with
       | Some _ => true
       | None => false
       end;
     os_path_isdir := fun p =>
       existsb (String.eqb p) ["/"; "/repo"; "/repo/docs"; "/repo/docs/sub"] |}.

End Commands.

(** Two runs end alike: with the same accumulator, and with related results
    or with the same exception *)
Definition agree {R1 R2} (rel : R1 -> R2 -> Prop)
    (x : list ValidationError * outcome R1)
    (y : list ValidationError * outcome R2) : Prop :=
  fst x = fst y
  /\ match snd x, snd y with
     | Returns r1, Returns r2 => rel r1 r2
     | Raises e1, Raises e2 => e1 = e2
     | _, _ => False
     end.

(** An ordered [dict] and the mapping it stands for *)
Definition same_dict (items : list (string * list ValidationError))
    (results : gmap string (list ValidationError)) : Prop :=
  NoDup items.*1 /\ list_to_map items = results.


(** * Properties *)

(** ** The accumulator *)

Section Accumulator.

Lemma appends_ret {A} (a : A) : appends (ret a) [] a.
Proof. intros errs. unfold ret. by rewrite app_nil_r. Qed.

Lemma appends_append_error e : appends (append_error e) [e] tt.
Proof. intros errs. reflexivity. Qed.

Lemma appends_bind {A B} (m : M A) (k : A -> M B) n1 n2 a b :
  appends m n1 a -> appends (k a) n2 b ->
  appends (bind m k) (n1 ++ n2)%list b.
Proof.
  intros Hm Hk errs. unfold bind. rewrite Hm, Hk.
  by rewrite <- app_assoc.
Qed.

Lemma appends_when (c : bool) m new :
  appends m new tt -> appends (when c m) (if c then new else []) tt.
Proof. intros Hm. destruct c; [exact Hm | apply appends_ret]. Qed.

Lemma appends_for_each {A} (l : list A) (body : A -> M unit)
    (g : A -> list ValidationError) :
  (forall x, appends (body x) (g x) tt) ->
  appends (for_each l body) (List.concat (map g l)) tt.
Proof.
  intros Hbody. induction l as [|x l IH]; simpl.
  - apply appends_ret.
  - eapply appends_bind; [apply Hbody | exact IH].
Qed.

Lemma appends_emits {A} P (m : M A) new a :
  appends m new a -> Forall P new -> emits P m.
Proof. intros Hm HP errs. exists new. by rewrite Hm. Qed.

Lemma emits_weaken {A} (P Q : ValidationError -> Prop) (m : M A) :
  (forall e, P e -> Q e) -> emits P m -> emits Q m.
Proof.
  intros HPQ Hm errs. destruct (Hm errs) as (new & Heq & Hnew).
  exists new. split; [done|]. eapply Forall_impl; eauto.
Qed.

Lemma emits_ret {A} P (a : A) : emits P (ret a).
Proof. eapply appends_emits; [apply appends_ret | constructor]. Qed.

Lemma emits_lift {A} P (o : outcome A) : emits P (lift o).
Proof. intros errs. exists []. by rewrite app_nil_r. Qed.

Lemma emits_append_error (P : ValidationError -> Prop) e :
  P e -> emits P (append_error e).
Proof.
  intros He. eapply appends_emits; [apply appends_append_error |].
  by constructor.
Qed.

Lemma emits_get_errors P : emits P get_errors.
Proof. intros errs. exists []. by rewrite app_nil_r. Qed.

Lemma emits_bind {A B} P (m : M A) (k : A -> M B) :
  emits P m -> (forall a, emits P (k a)) -> emits P (bind m k).
Proof.
  intros Hm Hk errs. unfold bind.
  destruct (Hm errs) as (n1 & Heq1 & Hn1).
  destruct (m errs) as [errs' [a|e]]; simpl in *; subst.
  - destruct (Hk a (errs ++ n1)%list) as (n2 & Heq2 & Hn2).
    exists (n1 ++ n2)%list. rewrite Heq2, app_assoc. split; [done|].
    by apply Forall_app.
  - by exists n1.
Qed.

Lemma emits_when P (c : bool) m : emits P m -> emits P (when c m).
Proof. intros Hm. destruct c; [exact Hm | apply emits_ret]. Qed.

Lemma emits_for_each {A} P (l : list A) (body : A -> M unit) :
  (forall x, emits P (body x)) -> emits P (for_each l body).
Proof.
  intros Hbody. induction l as [|x l IH]; simpl.
  - apply emits_ret.
  - apply emits_bind; [apply Hbody | intros _; exact IH].
Qed.

Lemma emits_for_each_in {A} P (l : list A) (body : A -> M unit) :
  (forall x, In x l -> emits P (body x)) -> emits P (for_each l body).
Proof.
  induction l as [|x l IH]; intros Hbody; simpl.
  - apply emits_ret.
  - apply emits_bind; [apply Hbody; by left|].
    intros _. apply IH. intros y Hy. apply Hbody. by right.
Qed.

Lemma emits_fold_m {A R} P (l : list A) (body : R -> A -> M R) :
  (forall acc x, emits P (body acc x)) ->
  forall acc, emits P (fold_m l body acc).
Proof.
  intros Hbody. induction l as [|x l IH]; intros acc; simpl.
  - apply emits_ret.
  - apply emits_bind; [apply Hbody | intros acc'; apply IH].
Qed.

End Accumulator.

(** ** Cutting the frontmatter out of the content *)

Section Extraction.

Context (env : Env).

Lemma find_closing_first (i : nat) (before : list string) (closing : string)
    (after : list string) :
  Forall (fun line => Py.strip line <> "---") before ->
  Py.strip closing = "---" ->
  find_closing i (before ++ closing :: after)%list
  = Some (i + List.length before).
Proof.
  intros Hbefore Hclosing. revert i.
  induction Hbefore as [|line before Hline _ IH]; intros i; simpl.
  - rewrite Hclosing. simpl. f_equal. lia.
  - apply String.eqb_neq in Hline. rewrite Hline, IH. f_equal. lia.
Qed.

Lemma find_closing_none (i : nat) (lines : list string) :
  Forall (fun line => Py.strip line <> "---") lines ->
  find_closing i lines = None.
Proof.
  intros Hlines. revert i.
  induction Hlines as [|line lines Hline _ IH]; intros i; simpl; [done|].
  apply String.eqb_neq in Hline. by rewrite Hline.
Qed.

(** A closing line that is found splits the lines after the first. *)
Lemma find_closing_some (i e : nat) (lines : list string) :
  find_closing i lines = Some e ->
  exists before closing after,
    lines = (before ++ closing :: after)%list
    /\ Forall (fun line => Py.strip line <> "---") before
    /\ Py.strip closing = "---" /\ e = i + List.length before.
Proof.
  revert i. induction lines as [|line lines IH]; intros i; simpl; [done|].
  destruct (String.eqb_spec (Py.strip line) "---") as [Heq|Hne].
  - intros [= <-]. exists [], line, lines. simpl.
    split_and!; [done | constructor | done | lia].
  - intros Hfind.
    destruct (IH _ Hfind) as (before & closing & after & -> & Hb & Hc & ->).
    exists (line :: before), closing, after. simpl.
    split_and!; [done | by constructor | done | lia].
Qed.

Lemma slice_between {A} (first : A) (before : list A) (closing : A)
    (after : list A) :
  Py.slice 1 (1 + List.length before) (first :: before ++ closing :: after)
  = before.
Proof.
  unfold Py.slice. simpl. rewrite Nat.sub_0_r, drop_0.
  apply take_app_length.
Qed.

Lemma slice_after {A} (first : A) (before : list A) (closing : A)
    (after : list A) :
  Py.slice_from (1 + List.length before + 1)
    (first :: before ++ closing :: after)
  = after.
Proof.
  unfold Py.slice_from.
  replace (1 + List.length before + 1) with (S (List.length before + 1)) by lia.
  simpl. by rewrite drop_app_add.
Qed.

(** C1 (amended).  For a content that starts with the three dashes, the lines
    after the first are scanned for the first one that is the delimiter once
    its surrounding whitespace is stripped (so an indented delimiter closes the
    frontmatter too); the lines strictly between the first line and that line,
    joined by newlines, are what the loader receives, and the lines after it,
    joined by newlines, are the body. *)
Theorem C1_frontmatter_cut (file_path content first : string)
    (fm_lines : list string) (closing : string) (body_lines : list string) :
  Py.startswith content "---" = true ->
  Py.split nl content = (first :: fm_lines ++ closing :: body_lines)%list ->
  Forall (fun line => Py.strip line <> "---") fm_lines ->
  Py.strip closing = "---" ->
  _extract_frontmatter env file_path content
  = parse_yaml env file_path (unlines fm_lines) (unlines body_lines).
Proof.
  intros Hstart Hlines Hfm Hclosing.
  unfold _extract_frontmatter. rewrite Hstart, Hlines. simpl negb. cbv iota.
  change (Py.slice_from 1 (first :: fm_lines ++ closing :: body_lines))
    with (fm_lines ++ closing :: body_lines)%list.
  rewrite (find_closing_first 1 fm_lines closing body_lines Hfm Hclosing).
  unfold frontmatter_content, body_content.
  by rewrite slice_between, slice_after.
Qed.

End Extraction.

Lemma C1_frontmatter_cut_witness :
  _extract_frontmatter Docs.echo_world "doc.md" Docs.indented_delimiter
  = parse_yaml Docs.echo_world "doc.md" (unlines ["a: 1"])
      (unlines ["b: 2"; "---"; "body"]).
Proof.
  apply (C1_frontmatter_cut Docs.echo_world "doc.md" Docs.indented_delimiter
           "---" ["a: 1"] "  ---" ["b: 2"; "---"; "body"]).
  - reflexivity.
  - reflexivity.
  - repeat constructor. vm_compute. discriminate.
  - reflexivity.
Defined.

(** C1 as stated fails: in [Docs.indented_delimiter] the line of two blanks
    and three dashes closes the frontmatter, so the loader receives the one
    line before it and not the three lines up to the exact delimiter. *)
Lemma C1_exact_delimiter_counterexample :
  ~ AsStated.frontmatter_ends_at_exact_delimiter.
Proof.
  intros Hclaim.
  specialize (Hclaim Docs.echo_world "doc.md" Docs.indented_delimiter 4
                eq_refl eq_refl).
  apply (f_equal (fun m => m [])) in Hclaim.
  vm_compute in Hclaim. discriminate Hclaim.
Qed.

(** ** Facts on texts *)

Section Texts.

Lemma append_nil_r (s : string) : s ++ "" = s.
Proof. induction s as [|c s IH]; simpl; [done | by rewrite IH]. Qed.

Lemma append_assoc (s1 s2 s3 : string) : (s1 ++ s2) ++ s3 = s1 ++ s2 ++ s3.
Proof. induction s1 as [|c s1 IH]; simpl; [done | by rewrite IH]. Qed.

Lemma append_length (s1 s2 : string) :
  String.length (s1 ++ s2) = String.length s1 + String.length s2.
Proof. induction s1 as [|c s1 IH]; simpl; [done | by rewrite IH]. Qed.

Lemma prefix_app (p s : string) :
  String.prefix p s = true <-> exists rest, s = p ++ rest.
Proof.
  revert s. induction p as [|c p IH]; intros s.
  - split; [intros _; by exists s | by destruct s].
  - destruct s as [|x s]; simpl.
    + split; [done | by intros [rest ?]].
    + destruct (ascii_dec c x) as [->|Hne].
      * rewrite IH. split; intros [rest Hrest]; exists rest; congruence.
      * split; [done | intros [rest Hrest]; congruence].
Qed.

Lemma lower_app (s1 s2 : string) :
  Py.lower (s1 ++ s2) = Py.lower s1 ++ Py.lower s2.
Proof. induction s1 as [|c s1 IH]; simpl; [done | by rewrite IH]. Qed.

Lemma all_space_app (s1 s2 : string) :
  Py.all_space (s1 ++ s2) = Py.all_space s1 && Py.all_space s2.
Proof.
  induction s1 as [|c s1 IH]; simpl; [done|].
  by rewrite IH, andb_assoc.
Qed.

End Texts.

(** ** The pattern matcher *)

Section Matcher.

Lemma match_here_spaces (ic : bool) (r : list Re.item) (x : ascii)
    (s : string) :
  Re.match_here ic (Re.Spaces :: r) (String x s)
  = Py.isspace x
    && (Re.match_here ic r s || Re.match_here ic (Re.Spaces :: r) s).
Proof. reflexivity. Qed.

(** [\s+] takes one or more white characters off the text. *)
Lemma match_here_spaces_iff (ic : bool) (r : list Re.item) (s : string) :
  Re.match_here ic (Re.Spaces :: r) s = true
  <-> exists ws rest,
        s = ws ++ rest /\ Py.str_isspace ws = true
        /\ Re.match_here ic r rest = true.
Proof.
  induction s as [|x s IH].
  - split; [done|]. intros (ws & rest & Hs & Hws & _).
    destruct ws; [done | discriminate Hs].
  - rewrite match_here_spaces, andb_true_iff, orb_true_iff, IH. split.
    + intros [Hx [Hr|(ws & rest & -> & Hws & Hr)]].
      * exists (String x ""), s. simpl. unfold Py.str_isspace. simpl.
        by rewrite Hx.
      * exists (String x ws), rest. unfold Py.str_isspace in *. simpl.
        apply andb_true_iff in Hws as [_ Hws]. by rewrite Hx, Hws.
    + intros (ws & rest & Hs & Hws & Hr).
      destruct ws as [|w ws]; [done|]. simpl in Hs. injection Hs as <- ->.
      unfold Py.str_isspace in Hws. simpl in Hws.
      apply andb_true_iff in Hws as [Hx Hws]. split; [done|].
      destruct ws as [|w' ws]; [by left|]. right.
      exists (String w' ws), rest. unfold Py.str_isspace. by rewrite Hws.
Qed.

(** Literal items under [re.IGNORECASE] take a text that is the pattern up
    to case. *)
Lemma match_here_lits_iff (p s : string) :
  Re.match_here true (lits p) s = true
  <-> exists found rest, s = found ++ rest /\ Py.lower found = Py.lower p.
Proof.
  revert s. induction p as [|c p IH]; intros s; simpl.
  - split; [intros _; by exists "", s|done].
  - destruct s as [|x s].
    + split; [done|]. intros (found & rest & Hs & Hlow).
      destruct found; [done | discriminate Hs].
    + rewrite andb_true_iff, IH. unfold Re.lit_matches.
      rewrite Ascii.eqb_eq. split.
      * intros [Hc (found & rest & -> & Hlow)].
        exists (String x found), rest. simpl. by rewrite Hc, Hlow.
      * intros (found & rest & Hs & Hlow).
        destruct found as [|y found]; [done|]. simpl in Hs, Hlow.
        injection Hs as <- ->. injection Hlow as Hc Hlow.
        split; [done|]. by exists found, rest.
Qed.

Lemma match_here_lit_iff (ic : bool) (c : ascii) (r : list Re.item)
    (s : string) :
  Re.match_here ic (Re.Lit c :: r) s = true
  <-> exists x rest,
        s = String x rest /\ Re.lit_matches ic c x = true
        /\ Re.match_here ic r rest = true.
Proof.
  destruct s as [|x s]; simpl.
  - split; [done | by intros (? & ? & ? & _)].
  - rewrite andb_true_iff. split.
    + intros [? ?]. by exists x, s.
    + by intros (? & ? & [= <- <-] & ? & ?).
Qed.

(** [re.search] tries every position. *)
Lemma search_items_iff (ic : bool) (r : list Re.item) (s : string) :
  Re.search_items ic r s = true
  <-> exists before rest, s = before ++ rest /\ Re.match_here ic r rest = true.
Proof.
  induction s as [|x s IH]; simpl; rewrite orb_true_iff.
  - split.
    + intros [Hm|?]; [by exists "", ""|done].
    + intros (before & rest & Hs & Hm). left.
      destruct before; [simpl in Hs; by subst | discriminate Hs].
  - rewrite IH. split.
    + intros [Hm|(before & rest & -> & Hm)].
      * by exists "", (String x s).
      * by exists (String x before), rest.
    + intros (before & rest & Hs & Hm).
      destruct before as [|y before]; simpl in Hs.
      * left. by subst.
      * right. injection Hs as <- ->. by exists before, rest.
Qed.

End Matcher.

(** ** The required sections of the body *)

Section Sections.

Lemma lower_char_hash (x : ascii) :
  Py.lower_char "#" = Py.lower_char x -> x = "#"%char.
Proof.
  destruct x as [[] [] [] [] [] [] [] []]; vm_compute; congruence.
Qed.

Lemma section_pattern_items (phrase : string) :
  In phrase required_phrases ->
  Re.compile ("##\s+" ++ phrase)
  = Re.Lit "#" :: Re.Lit "#" :: Re.Spaces :: lits phrase.
Proof.
  intros Hin. repeat (destruct Hin as [<-|Hin]; [reflexivity|]).
  destruct Hin.
Qed.

Lemma section_names :
  map (fun pattern => (pattern, section_name pattern)) required_sections
  = map (fun phrase => ("##\s+" ++ phrase, phrase)) required_phrases.
Proof. reflexivity. Qed.

(** The search for a section pattern succeeds exactly on the bodies that
    hold the marker of the section. *)
Lemma search_section_iff (phrase body : string) :
  Re.search_items true
    (Re.Lit "#" :: Re.Lit "#" :: Re.Spaces :: lits phrase) body = true
  <-> has_section_marker phrase body.
Proof.
  rewrite search_items_iff. unfold has_section_marker. split.
  - intros (before & rest & -> & Hm).
    apply match_here_lit_iff in Hm as (x1 & rest1 & -> & Hx1 & Hm).
    apply match_here_lit_iff in Hm as (x2 & rest2 & -> & Hx2 & Hm).
    apply match_here_spaces_iff in Hm as (ws & rest3 & -> & Hws & Hm).
    apply match_here_lits_iff in Hm as (found & after & -> & Hlow).
    apply Ascii.eqb_eq, lower_char_hash in Hx1, Hx2. subst x1 x2.
    by exists before, ws, found, after.
  - intros (before & ws & found & after & -> & Hws & Hlow).
    exists before, ("##" ++ ws ++ found ++ after). split; [done|].
    apply match_here_lit_iff. eexists _, _. split; [reflexivity|].
    split; [reflexivity|].
    apply match_here_lit_iff. eexists _, _. split; [reflexivity|].
    split; [reflexivity|].
    apply match_here_spaces_iff. exists ws, (found ++ after).
    split; [done|]. split; [done|].
    apply match_here_lits_iff. by exists found, after.
Qed.

Lemma search_required_section (phrase body : string) :
  In phrase required_phrases ->
  Re.search ("##\s+" ++ phrase) body true = true
  <-> has_section_marker phrase body.
Proof.
  intros Hin. unfold Re.search. rewrite (section_pattern_items _ Hin).
  apply search_section_iff.
Qed.

Lemma validate_markdown_structure_sections (file_path body : string) :
  Py.strip body <> "" ->
  appends (_validate_markdown_structure file_path body)
    (missing_sections file_path body) tt.
Proof.
  intros Hbody. unfold _validate_markdown_structure.
  apply String.eqb_neq in Hbody. rewrite Hbody.
  pose (g := fun pattern =>
          if negb (Re.search pattern body true)
          then [new_error file_path "MISSING_SECTION"
                  ("Required section '" ++ section_name pattern
                   ++ "' is missing")]
          else []).
  change (missing_sections file_path body)
    with (List.concat (map g required_sections)).
  apply appends_for_each. intros pattern.
  apply (appends_when _ _ [_]), appends_append_error.
Qed.

(** C2 (amended).  For a body that is not blank and each of the three
    required sections, the MISSING_SECTION error naming the section is
    emitted exactly when the body holds nowhere, at any place of any line,
    two hash signs followed by one or more white characters (newlines
    included) and by the phrase in any case.  The marker need not start a
    line, so a deeper heading or a mention inside a line counts as well. *)
Theorem C2_missing_section_iff_no_marker (file_path body phrase : string)
    (errs : list ValidationError) :
  Py.strip body <> "" ->
  In phrase required_phrases ->
  exists new,
    _validate_markdown_structure file_path body errs
    = ((errs ++ new)%list, Returns tt)
    /\ (In (missing_section_error file_path phrase) new
        <-> ~ has_section_marker phrase body).
Proof.
  intros Hbody Hin. exists (missing_sections file_path body).
  split; [by apply validate_markdown_structure_sections|].
  rewrite <- (search_required_section phrase body Hin).
  unfold missing_sections, required_phrases. simpl map.
  destruct Hin as [<-|[<-|[<-|[]]]];
    repeat destruct (Re.search _ body true); simpl;
    unfold missing_section_error, new_error;
    intuition (discriminate || congruence).
Qed.

End Sections.

Lemma C2_missing_section_iff_no_marker_witness :
  exists new,
    _validate_markdown_structure "doc.md" Docs.deeper_heading_body []
    = (([] ++ new)%list, Returns tt)
    /\ (In (missing_section_error "doc.md" "Core Principle") new
        <-> ~ has_section_marker "Core Principle" Docs.deeper_heading_body).
Proof.
  apply (C2_missing_section_iff_no_marker "doc.md" Docs.deeper_heading_body
           "Core Principle" []).
  - vm_compute. discriminate.
  - left. reflexivity.
Defined.

(** C2 as stated fails: no line of [Docs.deeper_heading_body] is a level-2
    heading for "Core Principle" (the phrase stands under three hash signs),
    and yet no MISSING_SECTION error is emitted, because the search finds
    the last two of the three hash signs. *)
Lemma C2_heading_line_counterexample :
  ~ AsStated.missing_section_iff_no_heading_line.
Proof.
  intros Hclaim.
  destruct (Hclaim "doc.md" Docs.deeper_heading_body "Core Principle")
    as [_ Hemit].
  - vm_compute. discriminate.
  - left. reflexivity.
  - assert (Hnone : In (missing_section_error "doc.md" "Core Principle") []).
    { apply Hemit. intros (line & Hin & Hline).
      vm_compute in Hin.
      destruct Hin as [<-|[<-|[<-|[]]]]; vm_compute in Hline;
        discriminate Hline. }
    destruct Hnone.
Qed.

(** ** What each method may append *)

Ltac emits_step :=
  match goal with
  | |- emits _ (bind _ _) => apply emits_bind; [|intros ?]
  | |- emits _ (when _ _) => apply emits_when
  | |- emits _ (for_each _ _) => apply emits_for_each; intros ?
  | |- emits _ (append_error _) => apply emits_append_error
  | |- emits _ (ret _) => apply emits_ret
  | |- emits _ (lift _) => apply emits_lift
  | |- emits _ get_errors => apply emits_get_errors
  | |- emits _ (match ?x with _ => _ end) => destruct x
  | |- stamped _ _ (new_error _ _ _) =>
      split_and!; [reflexivity | reflexivity | simpl; tauto]
  end.

Ltac emits_auto := repeat emits_step.

Section Methods.

Context (env : Env).

Lemma emits_stamped_incl {A} (path : string) (types types' : list string)
    (m : M A) :
  incl types types' ->
  emits (stamped path types) m -> emits (stamped path types') m.
Proof.
  intros Hincl. apply emits_weaken. intros e (? & ? & ?).
  split_and!; [done | done | by apply Hincl].
Qed.

Ltac incl_auto := intros ? Hin; simpl in *; tauto.

Lemma parse_yaml_emits (file_path text body : string) :
  emits (stamped file_path ["YAML_SYNTAX_ERROR"])
    (parse_yaml env file_path text body).
Proof. unfold parse_yaml. emits_auto. Qed.

Lemma extract_frontmatter_emits (file_path content : string) :
  emits (stamped file_path extract_types)
    (_extract_frontmatter env file_path content).
Proof.
  unfold _extract_frontmatter. emits_auto.
  eapply emits_stamped_incl; [|apply parse_yaml_emits]. incl_auto.
Qed.

(** A content that starts with the dashes is never reported as lacking
    its frontmatter. *)
Lemma extract_frontmatter_emits_started (file_path content : string) :
  Py.startswith content "---" = true ->
  emits (stamped file_path ["INVALID_FRONTMATTER"; "YAML_SYNTAX_ERROR"])
    (_extract_frontmatter env file_path content).
Proof.
  intros Hstart. unfold _extract_frontmatter. rewrite Hstart. simpl negb.
  cbv iota. emits_auto.
  eapply emits_stamped_incl; [|apply parse_yaml_emits]. incl_auto.
Qed.

Lemma validate_frontmatter_emits (file_path : string) (frontmatter : pyval) :
  emits (stamped file_path frontmatter_types)
    (_validate_frontmatter env file_path frontmatter).
Proof.
  unfold _validate_frontmatter, check_required_fields, check_category,
    check_inclusion, check_tags, check_optional_fields.
  destruct frontmatter; emits_auto.
Qed.

Lemma check_reference_emits (file_path base_dir ref : string) :
  emits (stamped file_path reference_types)
    (check_reference env file_path base_dir ref).
Proof. unfold check_reference. emits_auto. Qed.

Lemma validate_file_references_emits (file_path : string)
    (frontmatter : pyval) :
  emits (stamped file_path reference_types)
    (_validate_file_references env file_path frontmatter).
Proof.
  unfold _validate_file_references. emits_auto;
    apply check_reference_emits.
Qed.

Lemma validate_markdown_structure_emits (file_path body : string) :
  emits (stamped file_path body_types)
    (_validate_markdown_structure file_path body).
Proof. unfold _validate_markdown_structure. emits_auto. Qed.

End Methods.

(** ** One document *)

Section OneFile.

Context (env : Env).

Lemma appends_fst {A} (m : M A) (new : list ValidationError) (a : A) :
  appends m new a -> fst (m []) = new.
Proof. intros Hm. by rewrite Hm. Qed.

Lemma emits_nil {A} (P : ValidationError -> Prop) (m : M A) :
  emits P m -> Forall P (fst (m [])).
Proof. intros Hm. destruct (Hm []) as (new & -> & Hnew). done. Qed.

(** The body-structure checks never raise and only append. *)
Lemma body_appends (file_path body : string) :
  appends (_validate_markdown_structure file_path body)
    (body_errors file_path body) tt.
Proof.
  assert (exists new,
            appends (_validate_markdown_structure file_path body) new tt)
    as [new Hnew].
  { destruct (String.eqb_spec (Py.strip body) "") as [Heq|Hne].
    - eexists. unfold _validate_markdown_structure. rewrite Heq. simpl.
      apply appends_append_error.
    - eexists. by apply validate_markdown_structure_sections. }
  unfold body_errors. by rewrite (appends_fst _ _ _ Hnew).
Qed.

Lemma body_errors_stamped (file_path body : string) :
  Forall (stamped file_path body_types) (body_errors file_path body).
Proof. apply emits_nil, validate_markdown_structure_emits. Qed.

Lemma count_type_app (type : string) (l1 l2 : list ValidationError) :
  count_type type (l1 ++ l2) = count_type type l1 + count_type type l2.
Proof. unfold count_type. by rewrite List.filter_app, length_app. Qed.

Lemma count_type_stamped_zero (path type : string) (types : list string)
    (errs : list ValidationError) :
  Forall (stamped path types) errs -> ~ In type types ->
  count_type type errs = 0.
Proof.
  intros Herrs Hnot. unfold count_type.
  induction Herrs as [|e errs (_ & _ & Hin) _ IH]; simpl; [done|].
  unfold has_type at 1.
  destruct (String.eqb_spec (error_type e) type) as [Heq|_]; [|exact IH].
  subst type. contradiction.
Qed.

Lemma returns_accumulator_get : returns_accumulator get_errors.
Proof. by intros errs. Qed.

Lemma returns_accumulator_bind {A} (m : M A)
    (k : A -> M (list ValidationError)) :
  (forall a, returns_accumulator (k a)) -> returns_accumulator (bind m k).
Proof.
  intros Hk errs. unfold bind. destruct (m errs) as [errs' [a|e]]; [|done].
  apply Hk.
Qed.

Lemma validate_file_returns_accumulator (file_path : string) :
  returns_accumulator (validate_file env file_path).
Proof.
  unfold validate_file.
  repeat first
    [ apply returns_accumulator_get
    | apply returns_accumulator_bind; intros ?
    | match goal with
      | |- returns_accumulator (match ?x with _ => _ end) => destruct x
      end ].
Qed.

(** Whatever the accumulator held before, [validate_file] leaves only
    errors of the document. *)
Lemma validate_file_emits (file_path : string) (errs : list ValidationError) :
  Forall (stamped file_path
            ("FILE_NOT_FOUND" :: "READ_ERROR" :: document_types))
    (fst (validate_file env file_path errs)).
Proof.
  unfold validate_file, bind at 1, reset_errors.
  match goal with |- Forall _ (fst (?m [])) => apply (emits_nil _ m) end.
  emits_auto;
    (eapply emits_stamped_incl;
     [| first [ apply extract_frontmatter_emits
              | apply validate_frontmatter_emits
              | apply validate_file_references_emits
              | apply validate_markdown_structure_emits ] ]);
    intros ? Hin; cbv in Hin |- *; tauto.
Qed.

(** C9.  A path that does not exist gives the single error FILE_NOT_FOUND,
    a path that exists but cannot be read gives the single error READ_ERROR,
    in both cases at once and with nothing else checked; and the accumulator
    is emptied first, so that what it held before the call has no effect on
    the call. *)
Theorem C9_fail_fast_and_reset (file_path : string)
    (errs : list ValidationError) :
  (os_path_exists env file_path = false ->
   let e := new_error file_path "FILE_NOT_FOUND" "File does not exist" in
   validate_file env file_path errs = ([e], Returns [e]))
  /\ (forall reason,
        os_path_exists env file_path = true ->
        read_text env file_path = inr reason ->
        let e := new_error file_path "READ_ERROR"
                   ("Cannot read file: " ++ reason) in
        validate_file env file_path errs = ([e], Returns [e]))
  /\ (forall errs',
        validate_file env file_path errs = validate_file env file_path errs').
Proof.
  split_and!.
  - intros Hexists. unfold validate_file, bind, reset_errors.
    by rewrite Hexists.
  - intros reason Hexists Hread. unfold validate_file, bind, reset_errors.
    by rewrite Hexists, Hread.
  - intros errs'. reflexivity.
Qed.

(** C10.  Every error that [validate_file] accumulates, and so every error
    of the list it returns, carries the path given to the call and no line
    number. *)
Theorem C10_errors_carry_the_path (path : string)
    (errs : list ValidationError) :
  let from_this_call e := file_path e = path /\ line_number e = None in
  Forall from_this_call (fst (validate_file env path errs))
  /\ match snd (validate_file env path errs) with
     | Returns returned => Forall from_this_call returned
     | Raises _ => True
     end.
Proof.
  intros from_this_call.
  assert (Forall from_this_call (fst (validate_file env path errs)))
    as Hacc.
  { eapply Forall_impl; [apply validate_file_emits|].
    intros e (? & ? & _). by split. }
  split; [exact Hacc|].
  pose proof (validate_file_returns_accumulator path errs) as Hret.
  destruct (validate_file env path errs) as [errs' [l|e]]; [|done].
  simpl in *. by subst l.
Qed.

End OneFile.

Lemma C9_fail_fast_and_reset_witness :
  validate_file Docs.locked_world "absent.md" [Docs.stale_error]
  = ([new_error "absent.md" "FILE_NOT_FOUND" "File does not exist"],
     Returns [new_error "absent.md" "FILE_NOT_FOUND" "File does not exist"])
  /\ validate_file Docs.locked_world "locked.md" [Docs.stale_error]
     = ([new_error "locked.md" "READ_ERROR"
           "Cannot read file: [Errno 13] Permission denied"],
        Returns [new_error "locked.md" "READ_ERROR"
                   "Cannot read file: [Errno 13] Permission denied"]).
Proof.
  split.
  - apply (C9_fail_fast_and_reset Docs.locked_world "absent.md"
             [Docs.stale_error]).
    reflexivity.
  - apply (C9_fail_fast_and_reset Docs.locked_world "locked.md"
             [Docs.stale_error]); reflexivity.
Defined.

(** ** Absent and non-mapping frontmatter *)

Section Presence.

Context (env : Env).

(** With the dashes at the start, no error of the document is of type
    MISSING_FRONTMATTER. *)
Lemma validate_file_started (file_path content : string)
    (errs : list ValidationError) :
  os_path_exists env file_path = true ->
  read_text env file_path = inl content ->
  Py.startswith content "---" = true ->
  Forall (stamped file_path
            ("INVALID_FRONTMATTER" :: "YAML_SYNTAX_ERROR"
             :: frontmatter_types ++ reference_types ++ body_types))
    (fst (validate_file env file_path errs)).
Proof.
  intros Hexists Hread Hstart.
  unfold validate_file, bind at 1, reset_errors.
  rewrite Hexists, Hread. cbn [negb].
  match goal with |- Forall _ (fst (?m [])) => apply (emits_nil _ m) end.
  emits_auto;
    (eapply emits_stamped_incl;
     [| first [ by apply extract_frontmatter_emits_started
              | apply validate_frontmatter_emits
              | apply validate_file_references_emits
              | apply validate_markdown_structure_emits ] ]);
    intros ? Hin; cbv in Hin |- *; tauto.
Qed.

Lemma validate_file_not_started (file_path content : string)
    (errs : list ValidationError) :
  os_path_exists env file_path = true ->
  read_text env file_path = inl content ->
  Py.startswith content "---" = false ->
  let found :=
    missing_frontmatter_error file_path :: body_errors file_path content in
  validate_file env file_path errs = (found, Returns found).
Proof.
  intros Hexists Hread Hstart.
  unfold validate_file, _extract_frontmatter, bind, reset_errors.
  rewrite Hexists, Hread, Hstart. simpl. by rewrite body_appends.
Qed.

(** C4 (amended).  For a file that is read, a MISSING_FRONTMATTER error is
    emitted exactly when the content does not start with the three characters
    of the delimiter; nothing more of the first line is looked at, so a first
    line that goes on after the dashes counts as an opening.  When the error
    is emitted it is the only one of its type, no frontmatter check runs, and
    the other errors are those of the body-structure checks on the whole
    content. *)
Theorem C4_missing_frontmatter (file_path content : string)
    (errs : list ValidationError) :
  os_path_exists env file_path = true ->
  read_text env file_path = inl content ->
  (0 < count_type "MISSING_FRONTMATTER"
         (fst (validate_file env file_path errs))
   <-> Py.startswith content "---" = false)
  /\ (Py.startswith content "---" = false ->
      let found :=
        missing_frontmatter_error file_path
        :: body_errors file_path content in
      validate_file env file_path errs = (found, Returns found)
      /\ count_type "MISSING_FRONTMATTER" found = 1).
Proof.
  intros Hexists Hread.
  assert (Py.startswith content "---" = false ->
          let found :=
            missing_frontmatter_error file_path
            :: body_errors file_path content in
          validate_file env file_path errs = (found, Returns found)
          /\ count_type "MISSING_FRONTMATTER" found = 1) as Habsent.
  { intros Hstart found. split; [by apply validate_file_not_started|].
    subst found.
    change (count_type "MISSING_FRONTMATTER"
              ([missing_frontmatter_error file_path]
               ++ body_errors file_path content) = 1).
    rewrite count_type_app.
    rewrite (count_type_stamped_zero file_path _ body_types
               (body_errors file_path content)).
    - reflexivity.
    - apply body_errors_stamped.
    - cbv. intuition discriminate. }
  split; [|exact Habsent]. split.
  - intros Hcount. destruct (Py.startswith content "---") eqn:Hstart; [|done].
    rewrite (count_type_stamped_zero file_path _ _ _
               (validate_file_started file_path content errs
                  Hexists Hread Hstart)) in Hcount; [lia|].
    cbv. intuition discriminate.
  - intros Hstart. destruct (Habsent Hstart) as [Heq Hcount].
    rewrite Heq. cbn [fst]. rewrite Hcount. lia.
Qed.

Lemma extract_parses_to (file_path content : string) (v : pyval)
    (body : string) :
  parses_to env content v body ->
  _extract_frontmatter env file_path content = ret (v, body).
Proof.
  intros (Hstart & frontmatter_end & Hfind & Hload & ->).
  unfold _extract_frontmatter. rewrite Hstart. cbn [negb].
  cbv zeta in Hfind. rewrite Hfind. unfold parse_yaml.
  by rewrite Hload.
Qed.

(** On a value that is no mapping the file-reference check appends
    nothing: it returns at once or raises. *)
Lemma validate_file_references_non_mapping (file_path : string) (v : pyval) :
  is_dict v = false ->
  exists o, forall errs,
    _validate_file_references env file_path v errs = (errs, o).
Proof.
  intros Hv. unfold _validate_file_references, bind, lift, ret.
  destruct v; try discriminate Hv; simpl;
    try (eexists; intros errs; reflexivity).
  - destruct (contains s "file_references");
      eexists; intros errs; reflexivity.
  - destruct (existsb _ l); eexists; intros errs; reflexivity.
  - destruct (existsb _ l); eexists; intros errs; reflexivity.
  - destruct (existsb _ l); eexists; intros errs; reflexivity.
Qed.

(** C3, at a failing input.  When the frontmatter block of a file that is
    read decodes to an integer, a scalar that is no mapping,
    [_validate_frontmatter] appends the INVALID_FRONTMATTER error and returns;
    [validate_file] then runs the file-reference check on the value all the
    same, and the membership test of that check raises [TypeError] on an
    integer.  So [validate_file] raises: it returns no list of errors, and
    the body is never checked. *)
Theorem C3_scalar_frontmatter_raises (file_path content : string) (z : Z)
    (body : string) (errs : list ValidationError) :
  os_path_exists env file_path = true ->
  read_text env file_path = inl content ->
  parses_to env content (PyInt z) body ->
  _validate_frontmatter env file_path (PyInt z) []
  = ([not_a_mapping_error file_path], Returns tt)
  /\ _validate_file_references env file_path (PyInt z)
       [not_a_mapping_error file_path]
     = ([not_a_mapping_error file_path],
        Raises (TypeError "argument of type 'int' is not iterable"))
  /\ validate_file env file_path errs
     = ([not_a_mapping_error file_path],
        Raises (TypeError "argument of type 'int' is not iterable")).
Proof.
  intros Hexists Hread Hparse. split_and!; [reflexivity | reflexivity |].
  unfold validate_file, bind, reset_errors.
  by rewrite Hexists, Hread,
    (extract_parses_to file_path content (PyInt z) body Hparse).
Qed.

End Presence.

Lemma C4_missing_frontmatter_witness :
  (0 < count_type "MISSING_FRONTMATTER"
         (fst (validate_file Docs.plain_world "doc.md" []))
   <-> Py.startswith Docs.no_frontmatter "---" = false)
  /\ (Py.startswith Docs.no_frontmatter "---" = false ->
      let found :=
        missing_frontmatter_error "doc.md"
        :: body_errors "doc.md" Docs.no_frontmatter in
      validate_file Docs.plain_world "doc.md" [] = (found, Returns found)
      /\ count_type "MISSING_FRONTMATTER" found = 1).
Proof.
  apply (C4_missing_frontmatter Docs.plain_world "doc.md"
           Docs.no_frontmatter []); reflexivity.
Defined.

(** C4 as stated fails: the first line of [Docs.dashes_and_more] is not the
    delimiter line, since it goes on after the dashes, and yet no
    MISSING_FRONTMATTER error is emitted. *)
Lemma C4_delimiter_line_counterexample :
  ~ AsStated.missing_frontmatter_iff_no_delimiter_line.
Proof.
  intros Hclaim.
  destruct (Hclaim Docs.dashes_world "doc.md" Docs.dashes_and_more []
              eq_refl eq_refl) as [_ Hemit].
  assert (0 < count_type "MISSING_FRONTMATTER"
                (fst (validate_file Docs.dashes_world "doc.md" [])))
    as Hcount.
  { apply Hemit. vm_compute. discriminate. }
  vm_compute in Hcount. lia.
Qed.

Lemma C3_scalar_frontmatter_raises_witness :
  _validate_frontmatter Docs.locked_world "five.md" (PyInt 5) []
  = ([not_a_mapping_error "five.md"], Returns tt)
  /\ _validate_file_references Docs.locked_world "five.md" (PyInt 5)
       [not_a_mapping_error "five.md"]
     = ([not_a_mapping_error "five.md"],
        Raises (TypeError "argument of type 'int' is not iterable"))
  /\ validate_file Docs.locked_world "five.md" []
     = ([not_a_mapping_error "five.md"],
        Raises (TypeError "argument of type 'int' is not iterable")).
Proof.
  apply (C3_scalar_frontmatter_raises Docs.locked_world "five.md"
           (unlines (["---"; "5"; "---"] ++ Docs.three_sections)) 5
           (unlines Docs.three_sections) []).
  - reflexivity.
  - reflexivity.
  - split; [reflexivity|]. exists 2. split_and!; reflexivity.
Defined.

(** A frontmatter that decodes to null is not reported either: the empty
    frontmatter block of [Docs.empty_frontmatter] decodes to null, which is
    no mapping, and the validator, which takes a null for a document without
    frontmatter, reports nothing at all for it. *)
Lemma null_frontmatter_is_not_reported :
  ~ AsStated.non_mapping_is_reported.
Proof.
  intros Hclaim.
  assert (0 < count_type "INVALID_FRONTMATTER"
                (fst (validate_file Docs.null_world "doc.md" [])))
    as Hcount.
  { apply (Hclaim Docs.null_world "doc.md" Docs.empty_frontmatter PyNone
             (unlines Docs.three_sections) []).
    - reflexivity.
    - reflexivity.
    - split; [reflexivity|]. exists 1. split_and!; reflexivity.
    - reflexivity. }
  vm_compute in Hcount. lia.
Qed.

(** ** The fields of the frontmatter *)

Section Fields.

Context (env : Env).

Lemma check_required_fields_appends (file_path : string)
    (kvs : list (pyval * pyval)) :
  appends (check_required_fields file_path kvs)
    (required_field_errors file_path kvs) tt.
Proof.
  unfold check_required_fields, required_field_errors.
  apply appends_for_each. intros [field expected_type]. simpl.
  destruct (dict_get kvs field) as [value|].
  - apply (appends_when _ _ [_]), appends_append_error.
  - apply appends_append_error.
Qed.

Lemma later_checks_silent (file_path : string) (kvs : list (pyval * pyval)) :
  emits silent_on_required
    (check_category env file_path kvs ;;
     check_inclusion env file_path kvs ;;
     check_tags file_path kvs ;;
     check_optional_fields file_path kvs).
Proof.
  unfold check_category, check_inclusion, check_tags, check_optional_fields.
  repeat first
    [ apply emits_for_each_in; intros [field expected_type] Hin
    | emits_step ];
    intros field' expected' Hin';
    try (split; reflexivity).
  simpl in Hin, Hin'.
  destruct Hin as [[= <- <-]|[[= <- <-]|[[= <- <-]|[[= <- <-]|[[= <- <-]|[]]]]]];
    destruct Hin' as
      [[= <- <-]|[[= <- <-]|[[= <- <-]|[[= <- <-]|[[= <- <-]|[]]]]]];
    split; reflexivity.
Qed.

(** The accumulator after the frontmatter checks on a mapping: the report
    of the required fields, then errors that say nothing about them. *)
Lemma validate_frontmatter_mapping (file_path : string)
    (kvs : list (pyval * pyval)) (errs : list ValidationError) :
  exists later,
    fst (_validate_frontmatter env file_path (PyDict kvs) errs)
    = (errs ++ required_field_errors file_path kvs ++ later)%list
    /\ Forall silent_on_required later.
Proof.
  unfold _validate_frontmatter, bind at 1.
  rewrite check_required_fields_appends.
  destruct (later_checks_silent file_path kvs
              (errs ++ required_field_errors file_path kvs)%list)
    as (later & Heq & Hlater).
  exists later. by rewrite Heq, app_assoc.
Qed.

Lemma filter_silent (field : string) (expected_type : pytype)
    (later : list ValidationError) :
  In (field, expected_type) REQUIRED_FIELDS ->
  Forall silent_on_required later ->
  List.filter (is_missing_field field) later = []
  /\ List.filter (is_field_type field) later = [].
Proof.
  intros Hin Hlater.
  induction Hlater as [|e later He _ [IH1 IH2]]; simpl; [done|].
  destruct (He field expected_type Hin) as [-> ->]. by split.
Qed.

(** What the report on one required field holds about another one, or
    about itself *)
Lemma report_filters (file_path : string) (kvs : list (pyval * pyval))
    (field : string) (expected_type : pytype) (entry : string * pytype) :
  In (field, expected_type) REQUIRED_FIELDS ->
  In entry REQUIRED_FIELDS ->
  List.filter (is_missing_field field)
    (required_field_report file_path kvs entry)
  = (if String.eqb field (fst entry)
     then match dict_get kvs field with
          | None => [missing_field_error file_path field]
          | Some _ => []
          end
     else [])
  /\ List.filter (is_field_type field)
       (required_field_report file_path kvs entry)
     = (if String.eqb field (fst entry)
        then match dict_get kvs field with
             | None => []
             | Some value =>
                 if isinstance value expected_type then []
                 else [field_type_error file_path field expected_type value]
             end
        else []).
Proof.
  intros Hfield Hentry. simpl in Hfield, Hentry.
  destruct Hfield as
      [[= <- <-]|[[= <- <-]|[[= <- <-]|[[= <- <-]|[[= <- <-]|[]]]]]];
    destruct Hentry as [<-|[<-|[<-|[<-|[<-|[]]]]]];
    cbn [fst required_field_report];
    match goal with
    | |- context [dict_get kvs ?f] =>
        destruct (dict_get kvs f) as [value|];
        [destruct (isinstance value _)|]
    end;
    split; reflexivity.
Qed.

(** C5.  On a frontmatter mapping and for each of the five required
    fields: when the key is absent, exactly one MISSING_REQUIRED_FIELD
    error is emitted for the field and no INVALID_FIELD_TYPE error for
    it; when the key is present, no MISSING_REQUIRED_FIELD error is emitted
    for the field, and if its value has the wrong type exactly one
    INVALID_FIELD_TYPE error is emitted for it, whose message is
    "Field '<field>' must be of type <expected>, got <found>", with [str] or
    [list] for the expected type and the name of the type of the value for
    the type found. *)
Theorem C5_required_fields (file_path : string) (kvs : list (pyval * pyval))
    (errs : list ValidationError) (field : string) (expected_type : pytype) :
  In (field, expected_type) REQUIRED_FIELDS ->
  exists new,
    fst (_validate_frontmatter env file_path (PyDict kvs) errs)
    = (errs ++ new)%list
    /\ match dict_get kvs field with
       | None =>
           List.filter (is_missing_field field) new
           = [missing_field_error file_path field]
           /\ List.filter (is_field_type field) new = []
       | Some value =>
           List.filter (is_missing_field field) new = []
           /\ List.filter (is_field_type field) new
              = (if isinstance value expected_type then []
                 else [new_error file_path "INVALID_FIELD_TYPE"
                         ("Field '" ++ field ++ "' must be of type "
                          ++ match expected_type with
                             | TStr => "str"
                             | TList => "list"
                             end
                          ++ ", got " ++ type_name value)])
       end.
Proof.
  intros Hin.
  destruct (validate_frontmatter_mapping file_path kvs errs)
    as (later & Heq & Hlater).
  exists (required_field_errors file_path kvs ++ later)%list.
  split; [exact Heq|].
  destruct (filter_silent field expected_type later Hin Hlater)
    as [Hmiss Htype].
  rewrite !List.filter_app, Hmiss, Htype, !app_nil_r.
  unfold required_field_errors, REQUIRED_FIELDS. cbn [map List.concat].
  rewrite !List.filter_app.
  assert (forall entry, In entry REQUIRED_FIELDS ->
            _ /\ _) as Hreport
    by (intros entry; apply (report_filters file_path kvs field expected_type
                               entry Hin)).
  destruct (Hreport ("title", TStr)) as [-> ->]; [cbn; tauto|].
  destruct (Hreport ("description", TStr)) as [-> ->]; [cbn; tauto|].
  destruct (Hreport ("category", TStr)) as [-> ->]; [cbn; tauto|].
  destruct (Hreport ("tags", TList)) as [-> ->]; [cbn; tauto|].
  destruct (Hreport ("inclusion", TStr)) as [-> ->]; [cbn; tauto|].
  clear Hreport. cbn [fst]. simpl in Hin.
  destruct (dict_get kvs field) as [value|];
    [destruct (isinstance value expected_type)|];
    destruct Hin as
      [[= <- <-]|[[= <- <-]|[[= <- <-]|[[= <- <-]|[[= <- <-]|[]]]]]];
    split; reflexivity.
Qed.

Lemma tag_loop_appends (file_path : string) (tags : list pyval) :
  appends
    (for_each tags (fun tag =>
       when (negb (isinstance tag TStr))
         (append_error (new_error file_path "INVALID_TAG_TYPE"
                          "All tags must be strings"))))
    (map (fun _ => new_error file_path "INVALID_TAG_TYPE"
                     "All tags must be strings")
       (List.filter (fun tag => negb (isinstance tag TStr)) tags)) tt.
Proof.
  induction tags as [|tag tags IH]; [apply appends_ret|].
  cbn [for_each List.filter].
  destruct (isinstance tag TStr); cbn [negb when map].
  - eapply (appends_bind _ _ []); [apply appends_ret | exact IH].
  - eapply (appends_bind _ _ [_]); [apply appends_append_error | exact IH].
Qed.

Lemma check_tags_appends (file_path : string) (kvs : list (pyval * pyval))
    (tags : pyval) :
  dict_get kvs "tags" = Some tags ->
  appends (check_tags file_path kvs) (tags_errors file_path tags) tt.
Proof.
  intros Htags. unfold check_tags. rewrite Htags.
  destruct tags; try apply appends_append_error.
  destruct l as [|tag l]; [apply appends_append_error|].
  apply (tag_loop_appends file_path (tag :: l)).
Qed.

Lemma filter_tag_errors_stamped (path : string) (types : list string)
    (errs : list ValidationError) :
  Forall (stamped path types) errs ->
  (forall type, In type types -> ~ In type tag_types) ->
  List.filter is_tag_error errs = [].
Proof.
  intros Herrs Hdisjoint.
  induction Herrs as [|e errs (_ & _ & Hin) _ IH]; simpl; [done|].
  destruct (is_tag_error e) eqn:He; [|exact IH].
  unfold is_tag_error in He. apply existsb_exists in He as (t & Ht & Heq).
  apply String.eqb_eq in Heq. subst t. by destruct (Hdisjoint _ Hin).
Qed.

Lemma filter_tag_errors_tags (path : string) (tags : pyval) :
  List.filter is_tag_error (tags_errors path tags) = tags_errors path tags.
Proof.
  destruct tags; try reflexivity.
  destruct l as [|tag l]; [reflexivity|]. unfold tags_errors.
  generalize (List.filter (fun tag => negb (isinstance tag TStr)) (tag :: l)).
  intros bad. induction bad as [|x bad IH]; simpl; [done | by rewrite IH].
Qed.

Lemma other_checks_emit (file_path : string) (kvs : list (pyval * pyval)) :
  emits (stamped file_path non_tag_types) (check_required_fields file_path kvs)
  /\ emits (stamped file_path non_tag_types)
       (check_category env file_path kvs)
  /\ emits (stamped file_path non_tag_types)
       (check_inclusion env file_path kvs)
  /\ emits (stamped file_path non_tag_types)
       (check_optional_fields file_path kvs).
Proof.
  unfold check_required_fields, check_category, check_inclusion,
    check_optional_fields.
  split_and!; emits_auto.
Qed.

(** One step of a run: the errors a check appends, and whether the run
    goes on. *)
Lemma bind_emits {A B} (P : ValidationError -> Prop) (m : M A) (k : A -> M B)
    (errs : list ValidationError) :
  emits P m ->
  exists new, Forall P new
    /\ ((exists a, bind m k errs = k a (errs ++ new)%list)
        \/ (exists e, bind m k errs = ((errs ++ new)%list, Raises e))).
Proof.
  intros Hm. destruct (Hm errs) as (new & Heq & Hnew). exists new.
  split; [done|]. unfold bind.
  destruct (m errs) as [errs' [a|e]]; simpl in Heq; subst errs'; eauto.
Qed.

(** When the frontmatter checks on a mapping return, the errors of the three
    tag types are exactly those of the tags check. *)
Lemma validate_frontmatter_tags (file_path : string)
    (kvs : list (pyval * pyval)) (tags : pyval)
    (errs : list ValidationError) :
  dict_get kvs "tags" = Some tags ->
  match _validate_frontmatter env file_path (PyDict kvs) errs with
  | (errs', Returns _) =>
      exists new,
        errs' = (errs ++ new)%list
        /\ List.filter is_tag_error new = tags_errors file_path tags
  | (_, Raises _) => True
  end.
Proof.
  intros Htags.
  destruct (other_checks_emit file_path kvs) as (Hreq & Hcat & Hinc & Hopt).
  assert (forall type, In type non_tag_types -> ~ In type tag_types) as Hdis.
  { intros type Hin Hin'. cbv in Hin, Hin'.
    intuition (subst; discriminate). }
  unfold _validate_frontmatter.
  destruct (bind_emits _ _ (fun _ =>
              check_category env file_path kvs ;;
              check_inclusion env file_path kvs ;;
              check_tags file_path kvs ;;
              check_optional_fields file_path kvs) errs Hreq)
    as (n1 & P1 & [[a1 ->]|[e ->]]); [|done].
  destruct (bind_emits _ _ (fun _ =>
              check_inclusion env file_path kvs ;;
              check_tags file_path kvs ;;
              check_optional_fields file_path kvs) (errs ++ n1)%list Hcat)
    as (n2 & P2 & [[a2 ->]|[e ->]]); [|done].
  destruct (bind_emits _ _ (fun _ =>
              check_tags file_path kvs ;;
              check_optional_fields file_path kvs)
              ((errs ++ n1) ++ n2)%list Hinc)
    as (n3 & P3 & [[a3 ->]|[e ->]]); [|done].
  unfold bind at 1. rewrite (check_tags_appends file_path kvs tags Htags).
  destruct (Hopt ((((errs ++ n1) ++ n2) ++ n3) ++ tags_errors file_path tags)%list)
    as (n5 & E5 & P5).
  destruct (check_optional_fields file_path kvs _) as [errs' [[]|e]]; [|done].
  simpl in E5. subst errs'.
  exists (n1 ++ n2 ++ n3 ++ tags_errors file_path tags ++ n5)%list.
  split; [by rewrite <- !app_assoc|].
  rewrite !List.filter_app, filter_tag_errors_tags.
  rewrite (filter_tag_errors_stamped _ _ n1 P1 Hdis),
    (filter_tag_errors_stamped _ _ n2 P2 Hdis),
    (filter_tag_errors_stamped _ _ n3 P3 Hdis),
    (filter_tag_errors_stamped _ _ n5 P5 Hdis).
  by rewrite app_nil_r.
Qed.

Lemma returns_always_ret {A} (a : A) : returns_always (ret a).
Proof. intros errs. by exists a. Qed.

Lemma returns_always_append_error e : returns_always (append_error e).
Proof. intros errs. by exists tt. Qed.

Lemma returns_always_bind {A B} (m : M A) (k : A -> M B) :
  returns_always m -> (forall a, returns_always (k a)) ->
  returns_always (bind m k).
Proof.
  intros Hm Hk errs. unfold bind. destruct (Hm errs) as [a Ha].
  destruct (m errs) as [errs' o]. simpl in Ha. subst o. apply Hk.
Qed.

Lemma returns_always_when (c : bool) (m : M unit) :
  returns_always m -> returns_always (when c m).
Proof. intros Hm. destruct c; [exact Hm | apply returns_always_ret]. Qed.

Lemma returns_always_for_each {A} (l : list A) (body : A -> M unit) :
  (forall x, returns_always (body x)) -> returns_always (for_each l body).
Proof.
  intros Hbody. induction l as [|x l IH]; simpl.
  - apply returns_always_ret.
  - apply returns_always_bind; [apply Hbody | intros _; exact IH].
Qed.

Lemma returns_always_lift {A} (a : A) : returns_always (lift (Returns a)).
Proof. intros errs. by exists a. Qed.

Ltac returns_step :=
  match goal with
  | |- returns_always (bind _ _) => apply returns_always_bind; [|intros ?]
  | |- returns_always (when _ _) => apply returns_always_when
  | |- returns_always (for_each _ _) =>
      apply returns_always_for_each; intros ?
  | |- returns_always (append_error _) => apply returns_always_append_error
  | |- returns_always (ret _) => apply returns_always_ret
  | |- returns_always (lift (Returns _)) => apply returns_always_lift
  | |- returns_always (match ?x with _ => _ end) => destruct x
  end.

(** The frontmatter checks on a mapping return whenever the values of
    [category] and [inclusion], if present, can be looked up in a set; the
    only exception they can raise is the one of an unhashable value. *)
Lemma validate_frontmatter_returns (file_path : string)
    (kvs : list (pyval * pyval)) :
  (forall v, dict_get kvs "category" = Some v ->
             exists b, in_str_set v VALID_CATEGORIES = Returns b) ->
  (forall v, dict_get kvs "inclusion" = Some v ->
             exists b, in_str_set v VALID_INCLUSION_VALUES = Returns b) ->
  returns_always (_validate_frontmatter env file_path (PyDict kvs)).
Proof.
  intros Hcat Hinc.
  unfold _validate_frontmatter, check_required_fields, check_category,
    check_inclusion, check_tags, check_optional_fields.
  destruct (dict_get kvs "category") as [c|];
    [destruct (Hcat c eq_refl) as [b1 ->]|];
    (destruct (dict_get kvs "inclusion") as [i|];
     [destruct (Hinc i eq_refl) as [b2 ->]|]);
    repeat returns_step.
Qed.

End Fields.

Lemma C5_required_fields_witness :
  (exists new,
     fst (_validate_frontmatter Docs.plain_world "doc.md"
            (PyDict Docs.numeric_title) [])
     = ([] ++ new)%list
     /\ List.filter (is_missing_field "title") new = []
     /\ List.filter (is_field_type "title") new
        = [new_error "doc.md" "INVALID_FIELD_TYPE"
             "Field 'title' must be of type str, got int"])
  /\ (exists new,
        fst (_validate_frontmatter Docs.plain_world "doc.md"
               (PyDict Docs.numeric_title) [])
        = ([] ++ new)%list
        /\ List.filter (is_missing_field "tags") new
           = [new_error "doc.md" "MISSING_REQUIRED_FIELD"
                "Required field 'tags' is missing"]
        /\ List.filter (is_field_type "tags") new = [])
  /\ (exists new,
        fst (_validate_frontmatter Docs.plain_world "doc.md"
               (PyDict [(PyStr "tags", PyStr "tests")]) [])
        = ([] ++ new)%list
        /\ List.filter (is_missing_field "tags") new = []
        /\ List.filter (is_field_type "tags") new
           = [new_error "doc.md" "INVALID_FIELD_TYPE"
                "Field 'tags' must be of type list, got str"]).
Proof.
  split_and!.
  - apply (C5_required_fields Docs.plain_world "doc.md" Docs.numeric_title
             [] "title" TStr).
    left. reflexivity.
  - apply (C5_required_fields Docs.plain_world "doc.md" Docs.numeric_title
             [] "tags" TList).
    right. right. right. left. reflexivity.
  - apply (C5_required_fields Docs.plain_world "doc.md"
             [(PyStr "tags", PyStr "tests")] [] "tags" TList).
    right. right. right. left. reflexivity.
Defined.

(** C6, at a failing input.  The frontmatter [Docs.unhashable_category] has
    the key [tags] with a value that is no list, and a category that is a
    list.  The membership test of the category in the set of valid
    categories raises [TypeError] before the tags are looked at: the checks
    stop with the report of the required fields, and no INVALID_TAGS error
    is emitted. *)
Theorem C6_tags_unchecked_after_unhashable_category (env : Env)
    (path : string) :
  dict_get Docs.unhashable_category "tags" = Some (PyStr "not-a-list")
  /\ _validate_frontmatter env path (PyDict Docs.unhashable_category) []
     = (required_field_errors path Docs.unhashable_category,
        Raises (TypeError "unhashable type: 'list'"))
  /\ count_type "INVALID_TAGS"
       (required_field_errors path Docs.unhashable_category) = 0.
Proof. split_and!; reflexivity. Qed.

(** ** The repository root *)

Section RepoRoot.

Context (env : Env).

Lemma rstrip_by_prefix (f : ascii -> bool) (s : string) :
  exists rest, s = Py.rstrip_by f s ++ rest.
Proof.
  induction s as [|c s [rest IH]]; simpl; [by exists ""|].
  destruct (Py.rstrip_by f s) as [|c' r] eqn:Hr.
  - destruct (f c).
    + by exists (String c s).
    + exists s. reflexivity.
  - exists rest. simpl. by rewrite IH at 1.
Qed.

Lemma upto_last_sep_prefix (p : string) :
  exists rest, p = PosixPath.upto_last_sep p ++ rest.
Proof.
  induction p as [|c p [rest IH]]; simpl; [by exists ""|].
  destruct (PosixPath.upto_last_sep p) as [|c' h] eqn:Hh.
  - destruct (Ascii.eqb_spec c "/") as [->|_].
    + by exists p.
    + by exists (String c p).
  - exists rest. simpl. by rewrite IH at 1.
Qed.

(** The parent of a directory is a prefix of it. *)
Lemma dirname_prefix (p : string) :
  exists rest, p = PosixPath.dirname p ++ rest.
Proof.
  unfold PosixPath.dirname.
  destruct (upto_last_sep_prefix p) as [rest Hp].
  destruct (_ && _); [|by exists rest].
  destruct (rstrip_by_prefix PosixPath.is_sep (PosixPath.upto_last_sep p))
    as [rest' Hh].
  exists (rest' ++ rest). by rewrite <- append_assoc, <- Hh.
Qed.

Lemma dirname_shorter (p : string) :
  p <> PosixPath.dirname p ->
  String.length (PosixPath.dirname p) < String.length p.
Proof.
  intros Hne. destruct (dirname_prefix p) as [rest Hp].
  destruct rest as [|c rest].
  - rewrite append_nil_r in Hp. contradiction.
  - rewrite Hp at 2. rewrite append_length. simpl. lia.
Qed.

(** With more rounds than the directory has characters, the loop of
    [_find_repo_root] ends by itself, and gives the first of the searched
    directories that holds the marker. *)
Lemma repo_root_loop_fuel (fuel : nat) (dir : string) :
  String.length dir < fuel ->
  repo_root_loop env fuel dir
  = Some (List.find (has_marker env) (searched_dirs fuel dir)).
Proof.
  revert dir. induction fuel as [|fuel IH]; intros dir Hfuel; [lia|].
  simpl. destruct (String.eqb_spec dir (PosixPath.dirname dir)) as [Heq|Hne];
    simpl; [done|].
  unfold has_marker at 1.
  destruct (os_path_exists env (PosixPath.join dir ".git")); [done|].
  apply IH. pose proof (dirname_shorter dir Hne). lia.
Qed.

(** The searched directories do not depend on the number of rounds, once
    there are enough of them. *)
Lemma searched_dirs_fuel (fuel fuel' : nat) (dir : string) :
  String.length dir < fuel -> String.length dir < fuel' ->
  searched_dirs fuel dir = searched_dirs fuel' dir.
Proof.
  revert fuel' dir.
  induction fuel as [|fuel IH]; intros fuel' dir Hfuel Hfuel'; [lia|].
  destruct fuel' as [|fuel']; [lia|]. simpl.
  destruct (String.eqb_spec dir (PosixPath.dirname dir)) as [Heq|Hne];
    [done|].
  f_equal. pose proof (dirname_shorter dir Hne). apply IH; lia.
Qed.

Lemma find_repo_root_searched (file_path : string) :
  _find_repo_root env file_path
  = List.find (has_marker env) (dirs_below_top env file_path).
Proof.
  unfold _find_repo_root, dirs_below_top, document_dir.
  rewrite repo_root_loop_fuel; [done | lia].
Qed.

Lemma searched_dirs_not_empty (fuel : nat) (dir root : string) :
  In root (searched_dirs fuel dir) -> root <> "".
Proof.
  revert dir. induction fuel as [|fuel IH]; intros dir; simpl; [done|].
  destruct (String.eqb_spec dir (PosixPath.dirname dir)) as [Heq|Hne];
    [done|].
  intros [<-|Hin]; [|by eapply IH].
  intros ->. by apply Hne.
Qed.

Lemma find_repo_root_truthy (file_path root : string) :
  _find_repo_root env file_path = Some root ->
  truthy_root (Some root) = true.
Proof.
  rewrite find_repo_root_searched. intros Hfind.
  apply List.find_some in Hfind as [Hin _].
  apply searched_dirs_not_empty in Hin. simpl.
  by apply negb_true_iff, String.eqb_neq.
Qed.

Lemma check_reference_appends (file_path ref : string) :
  appends
    (check_reference env file_path (PosixPath.dirname file_path) ref)
    (reference_report env file_path (PyStr ref)) tt.
Proof.
  unfold check_reference, reference_report, unresolved.
  destruct (os_path_exists env
              (PosixPath.join (PosixPath.dirname file_path) ref))
    eqn:Hlocal; cbn [negb andb].
  - apply appends_ret.
  - destruct (_find_repo_root env file_path) as [root|] eqn:Hroot.
    + rewrite (find_repo_root_truthy _ _ Hroot).
      destruct (os_path_exists env (PosixPath.join root ref)); cbn [negb when].
      * apply appends_ret.
      * apply appends_append_error.
    + rewrite Hlocal. apply appends_append_error.
Qed.

Lemma validate_file_references_list (file_path : string)
    (kvs : list (pyval * pyval)) (refs : list pyval) :
  dict_get kvs "file_references" = Some (PyList refs) ->
  appends (_validate_file_references env file_path (PyDict kvs))
    (List.concat (map (reference_report env file_path) refs)) tt.
Proof.
  intros Hrefs errs.
  unfold _validate_file_references, bind, lift, py_contains, py_getitem,
    dict_has.
  rewrite Hrefs. cbn [negb].
  apply appends_for_each. intros ref.
  destruct ref; try apply appends_ret. apply check_reference_appends.
Qed.

Lemma validate_file_references_noop (file_path : string)
    (kvs : list (pyval * pyval)) (errs : list ValidationError) :
  match dict_get kvs "file_references" with
  | Some (PyList _) => True
  | _ =>
      _validate_file_references env file_path (PyDict kvs) errs
      = (errs, Returns tt)
  end.
Proof.
  unfold _validate_file_references, bind, lift, py_contains, py_getitem,
    dict_has.
  destruct (dict_get kvs "file_references") as [v|]; [|done].
  destruct v; done.
Qed.

Lemma append_inv_r (a b t : string) : a ++ t = b ++ t -> a = b.
Proof.
  revert b. induction a as [|c a IH]; intros [|d b]; simpl; intros Heq.
  - done.
  - apply (f_equal String.length) in Heq. simpl in Heq.
    rewrite append_length in Heq. lia.
  - apply (f_equal String.length) in Heq. simpl in Heq.
    rewrite append_length in Heq. lia.
  - injection Heq as -> Heq. f_equal. by apply IH.
Qed.

Lemma missing_reference_error_inj (path a b : string) :
  missing_reference_error path a = missing_reference_error path b -> a = b.
Proof.
  unfold missing_reference_error, new_error. intros [= Heq].
  by apply append_inv_r in Heq.
Qed.

Lemma in_reference_reports (file_path ref : string) (refs : list pyval) :
  In (missing_reference_error file_path ref)
    (List.concat (map (reference_report env file_path) refs))
  <-> In (PyStr ref) refs /\ unresolved env file_path ref = true.
Proof.
  rewrite in_concat. split.
  - intros (report & Hreport & Hin).
    apply in_map_iff in Hreport as (x & <- & Hx).
    destruct x; try done. simpl in Hin.
    destruct (unresolved env file_path s) eqn:Hs; [|done].
    destruct Hin as [Heq|[]].
    apply missing_reference_error_inj in Heq. by subst s.
  - intros [Hin Hun]. exists [missing_reference_error file_path ref].
    split; [|by left]. apply in_map_iff. exists (PyStr ref).
    split; [|done]. simpl. by rewrite Hun.
Qed.

(** The reports on the elements of a list, put together: one error for
    every string that does not resolve, in the order of the list, and
    nothing for the elements that are no strings. *)
Lemma reference_reports_strings (file_path : string) (refs : list pyval) :
  List.concat (map (reference_report env file_path) refs)
  = map (missing_reference_error file_path)
      (List.filter (unresolved env file_path) (string_elements refs)).
Proof.
  induction refs as [|ref refs IH]; [done|].
  cbn [map List.concat]. rewrite IH.
  destruct ref; try reflexivity.
  cbn [reference_report string_elements List.filter].
  by destruct (unresolved env file_path s).
Qed.

(** C7 (amended).  On a frontmatter mapping the file-reference check appends
    nothing when [file_references] is absent or is no list.  When it is a
    list, the check returns, and what it appends is exactly one
    MISSING_FILE_REFERENCE error for every element that is a string and
    does not resolve, in the order of the list: elements that are no strings
    are skipped without any error.  So the
    MISSING_FILE_REFERENCE error naming a string [ref] is emitted exactly
    when [ref] is an element that exists neither relative to the directory
    of the document nor relative to the directory given by
    [_find_repo_root], if it gives one.  That directory is the nearest one
    holding the version-control marker among the directory of the
    document and its ancestors, the top of the file system left out: the
    search stops below the directory that is its own parent, whose marker is
    never looked for. *)
Theorem C7_file_references (file_path : string) (kvs : list (pyval * pyval))
    (errs : list ValidationError) :
  _find_repo_root env file_path
  = List.find (has_marker env) (dirs_below_top env file_path)
  /\ match dict_get kvs "file_references" with
     | Some (PyList refs) =>
         exists new,
           _validate_file_references env file_path (PyDict kvs) errs
           = ((errs ++ new)%list, Returns tt)
           /\ new
              = map (fun ref =>
                       new_error file_path "MISSING_FILE_REFERENCE"
                         ("Referenced file '" ++ ref ++ "' does not exist"))
                  (List.filter
                     (fun ref =>
                        negb (os_path_exists env
                                (PosixPath.join (PosixPath.dirname file_path)
                                   ref))
                        && match _find_repo_root env file_path with
                           | Some root =>
                               negb (os_path_exists env
                                       (PosixPath.join root ref))
                           | None => true
                           end)
                     (string_elements refs))
           /\ forall ref,
                In (missing_reference_error file_path ref) new
                <-> In (PyStr ref) refs
                    /\ os_path_exists env
                         (PosixPath.join (PosixPath.dirname file_path) ref)
                       = false
                    /\ match _find_repo_root env file_path with
                       | Some root =>
                           os_path_exists env (PosixPath.join root ref)
                           = false
                       | None => True
                       end
     | _ =>
         _validate_file_references env file_path (PyDict kvs) errs
         = (errs, Returns tt)
     end.
Proof.
  split; [apply find_repo_root_searched|].
  pose proof (validate_file_references_noop file_path kvs errs) as Hnoop.
  destruct (dict_get kvs "file_references") as [v|] eqn:Hget; [|done].
  destruct v; try done. rename l into refs.
  exists (List.concat (map (reference_report env file_path) refs)).
  split; [by apply validate_file_references_list|].
  split; [apply reference_reports_strings|].
  intros ref. rewrite in_reference_reports. unfold unresolved.
  rewrite andb_true_iff, negb_true_iff.
  destruct (_find_repo_root env file_path) as [root|].
  - rewrite negb_true_iff. tauto.
  - tauto.
Qed.

End RepoRoot.

Lemma C7_file_references_witness :
  _find_repo_root Docs.repo_world "docs/a.md" = Some "/repo"
  /\ exists new,
       _validate_file_references Docs.repo_world "docs/a.md"
         (PyDict Docs.references) []
       = (([] ++ new)%list, Returns tt)
       /\ new = [new_error "docs/a.md" "MISSING_FILE_REFERENCE"
                   "Referenced file 'y.md' does not exist"]
       /\ In (missing_reference_error "docs/a.md" "y.md") new
       /\ ~ In (missing_reference_error "docs/a.md" "x.md") new.
Proof.
  destruct (C7_file_references Docs.repo_world "docs/a.md" Docs.references [])
    as [Hroot (new & Heq & Hnew & Hiff)].
  split; [reflexivity|].
  exists new. split; [exact Heq|]. split_and!.
  - rewrite Hnew. vm_compute. reflexivity.
  - apply Hiff. split_and!.
    + right. right. left. reflexivity.
    + reflexivity.
    + reflexivity.
  - intros Hin. apply Hiff in Hin as (_ & _ & Hrepo).
    vm_compute in Hrepo. discriminate Hrepo.
Defined.

(** C7 as stated fails: in [Docs.top_repo_world] the marker lies at the top
    of the file system, which is the nearest ancestor of the document that
    holds it, and the referenced [x.md] exists there; the search of the
    validator never looks at the top directory, finds no root, and reports
    the reference as missing. *)
Lemma C7_top_directory_counterexample :
  ~ AsStated.missing_reference_iff_unresolved.
Proof.
  intros Hclaim.
  destruct (Hclaim Docs.top_repo_world "/docs/a.md"
              [(PyStr "file_references", PyList [PyStr "x.md"])]
              [PyStr "x.md"] "x.md" eq_refl) as [Hemitted _].
  - left. reflexivity.
  - destruct Hemitted as [_ Hroot].
    + vm_compute. left. reflexivity.
    + vm_compute in Hroot. discriminate Hroot.
Qed.

(** ** The walk of a directory *)

Section Directory.

Context (env : Env).

Lemma fold_m_app {A R} (l1 l2 : list A) (body : R -> A -> M R) (acc : R)
    (errs : list ValidationError) :
  fold_m (l1 ++ l2) body acc errs
  = bind (fold_m l1 body acc) (fun acc' => fold_m l2 body acc') errs.
Proof.
  revert acc errs. induction l1 as [|x l1 IH]; intros acc errs; simpl.
  - reflexivity.
  - unfold bind in *. destruct (body acc x errs) as [errs' [acc'|e]].
    + apply IH.
    + reflexivity.
Qed.

Lemma bind_ext {A B} (m m' : M A) (k k' : A -> M B)
    (errs : list ValidationError) :
  (forall errs0, m errs0 = m' errs0) ->
  (forall a errs0, k a errs0 = k' a errs0) ->
  bind m k errs = bind m' k' errs.
Proof.
  intros Hm Hk. unfold bind. rewrite Hm.
  destruct (m' errs) as [errs' [a|e]]; [apply Hk | done].
Qed.

(** The files of one directory: only the steering files are visited. *)
Lemma fold_m_files (root : string) (files : list string)
    (results : gmap string (list ValidationError))
    (errs : list ValidationError) :
  fold_m files
    (fun results file =>
       if is_steering_file file then
         let file_path := PosixPath.join root file in
         let* errors := validate_file env file_path in
         ret (<[ file_path := errors ]> results)
       else ret results)
    results errs
  = fold_m (map (PosixPath.join root) (List.filter is_steering_file files))
      (visit env) results errs.
Proof.
  revert results errs.
  induction files as [|file files IH]; intros results errs; [done|].
  cbn [fold_m List.filter]. destruct (is_steering_file file).
  - cbn [map fold_m]. unfold visit, bind.
    destruct (validate_file env (PosixPath.join root file) errs)
      as [errs' [errors|e]]; [apply IH | done].
  - apply IH.
Qed.

(** The walk visits the steering files of all the directories, in order. *)
Lemma validate_directory_visits (directory : string)
    (errs : list ValidationError) :
  os_path_exists env directory = true ->
  validate_directory env directory errs
  = fold_m (steering_files env directory) (visit env) ∅ errs.
Proof.
  intros Hexists. unfold validate_directory, steering_files.
  rewrite Hexists. cbn [negb].
  generalize (∅ : gmap string (list ValidationError)) as results.
  revert errs.
  induction (os_walk env directory) as [|[[root dirs] files] walk IH];
    intros errs results; [done|].
  cbn [fold_m map List.concat]. rewrite fold_m_app.
  apply bind_ext.
  - intros errs0. apply fold_m_files.
  - intros acc' errs'. apply IH.
Qed.

Lemma visit_returns (results : gmap string (list ValidationError))
    (path : string) (errs : list ValidationError) :
  file_returns env path ->
  visit env results path errs
  = (file_errors env path,
     Returns (<[ path := file_errors env path ]> results)).
Proof.
  intros [errors Hreturns]. unfold visit, bind, file_errors.
  change (validate_file env path errs) with (validate_file env path []).
  pose proof (validate_file_returns_accumulator env path []) as Hacc.
  destruct (validate_file env path []) as [errs' [l|e]]; [|done].
  simpl in *. by subst l.
Qed.

(** When every visited file is validated without an exception, the walk
    returns the mapping of the visited paths. *)
Lemma visits_return (paths : list string)
    (results : gmap string (list ValidationError))
    (errs : list ValidationError) :
  (forall path, In path paths -> file_returns env path) ->
  exists errs',
    fold_m paths (visit env) results errs
    = (errs',
       Returns (foldl (fun results path =>
                         <[ path := file_errors env path ]> results)
                  results paths)).
Proof.
  revert results errs.
  induction paths as [|path paths IH]; intros results errs Hreturn.
  - by exists errs.
  - cbn [fold_m foldl]. unfold bind.
    rewrite visit_returns by (apply Hreturn; by left).
    apply IH. intros p Hp. apply Hreturn. by right.
Qed.

(** An exception of one visited file ends the walk. *)
Lemma visits_raise (paths : list string)
    (results : gmap string (list ValidationError))
    (errs : list ValidationError) (path : string) :
  In path paths -> ~ file_returns env path ->
  exists errs' e,
    fold_m paths (visit env) results errs = (errs', Raises e).
Proof.
  revert results errs.
  induction paths as [|p paths IH]; intros results errs Hin Hraises; [done|].
  cbn [fold_m]. unfold bind.
  destruct (visit env results p errs) as [errs' [results'|e]] eqn:Hvisit;
    [|by exists errs', e].
  destruct Hin as [->|Hin]; [|by apply IH].
  exfalso. apply Hraises. unfold visit, bind in Hvisit.
  change (validate_file env path errs) with (validate_file env path [])
    in Hvisit.
  unfold file_returns.
  destruct (validate_file env path []) as [errs'' [l|e]]; [by exists l|done].
Qed.

Lemma results_lookup (paths : list string)
    (results : gmap string (list ValidationError)) (path : string) :
  foldl (fun results path => <[ path := file_errors env path ]> results)
    results paths !! path
  = if decide (path ∈ paths) then Some (file_errors env path)
    else results !! path.
Proof.
  revert results. induction paths as [|p paths IH]; intros results; [done|].
  cbn [foldl]. rewrite IH.
  destruct (decide (path ∈ paths)) as [Hin|Hnin].
  - rewrite decide_True; [done | by right].
  - destruct (decide (p = path)) as [->|Hne].
    + rewrite decide_True by left. apply lookup_insert_eq.
    + rewrite decide_False by (by intros [?|?]%elem_of_cons).
      by apply lookup_insert_ne.
Qed.

(** *** Which files are visited *)

Lemma endswith_unfold (s p : string) :
  Py.endswith s p
  = String.eqb s p
    || match s with
       | EmptyString => false
       | String _ s' => Py.endswith s' p
       end.
Proof. by destruct s. Qed.

Lemma endswith_iff (s p : string) :
  Py.endswith s p = true <-> exists stem, s = stem ++ p.
Proof.
  induction s as [|c s IH]; rewrite endswith_unfold, orb_true_iff,
    String.eqb_eq.
  - split.
    + intros [<-|?]; [by exists ""|done].
    + intros [stem Hstem]. left. destruct stem; [done | discriminate Hstem].
  - rewrite IH. split.
    + intros [<-|[stem ->]]; [by exists ""|]. by exists (String c stem).
    + intros [stem Hstem]. destruct stem as [|x stem]; simpl in Hstem.
      * by left.
      * right. injection Hstem as _ ->. by exists stem.
Qed.

Lemma upper_char_cases (x : ascii) :
  Py.upper_char x = "SS" \/ exists u, Py.upper_char x = String u "".
Proof.
  unfold Py.upper_char. destruct (_ || _); [right; eauto|].
  destruct (_ =? _)%nat; [by left | right; eauto].
Qed.

Lemma all_chars_complete (x : ascii) : In x all_chars.
Proof.
  unfold all_chars. rewrite <- (ascii_nat_embedding x).
  apply in_map, in_seq. pose proof (nat_ascii_bounded x). lia.
Qed.

(** Checked on all the characters: the upper case of [x] is one of the
    letters above exactly when [x] is that letter up to case. *)
Lemma upper_lower_table :
  forallb (fun x =>
    forallb (fun c =>
      Bool.eqb (String.eqb (Py.upper_char x) (String c ""))
        (Ascii.eqb (Py.lower_char x) (Py.lower_char c)))
      readme_chars)
    all_chars = true.
Proof. vm_compute. reflexivity. Qed.

Lemma upper_lower_char (c x : ascii) :
  In c readme_chars ->
  Py.upper_char x = String c "" <-> Py.lower_char x = Py.lower_char c.
Proof.
  intros Hc. pose proof upper_lower_table as Htable.
  rewrite forallb_forall in Htable.
  specialize (Htable x (all_chars_complete x)).
  rewrite forallb_forall in Htable. specialize (Htable c Hc).
  apply Bool.eqb_prop in Htable.
  by rewrite <- String.eqb_eq, <- Ascii.eqb_eq, Htable.
Qed.

Lemma upper_cons_iff (c x : ascii) (rest rest' : string) :
  In c readme_chars ->
  Py.upper_char x ++ rest = String c rest'
  <-> Py.lower_char x = Py.lower_char c /\ rest = rest'.
Proof.
  intros Hc. rewrite <- (upper_lower_char c x Hc).
  destruct (upper_char_cases x) as [->|[u ->]]; simpl.
  - split; [|by intros [[=] _]]. intros [= <- _]. simpl in Hc.
    intuition discriminate.
  - split; [by intros [= -> ->] | by intros [[= ->] ->]].
Qed.

(** A name has a given upper case, made of the letters above, exactly when
    it is that text up to case. *)
Lemma upper_eq_iff (name target : string) :
  Forall (fun c => In c readme_chars) (list_ascii_of_string target) ->
  Py.upper name = target <-> Py.lower name = Py.lower target.
Proof.
  revert name. induction target as [|c target IH]; intros name Htarget.
  - destruct name as [|x name]; simpl; [done|]. split; [|done].
    destruct (upper_char_cases x) as [->|[u ->]]; done.
  - simpl in Htarget. apply Forall_cons in Htarget as [Hc Htarget].
    destruct name as [|x name]; simpl; [done|].
    rewrite (upper_cons_iff c x _ _ Hc), (IH name Htarget).
    split; [by intros [-> ->] | by intros [= -> ->]].
Qed.

(** The walk validates the files whose name ends in [.md], in that very
    case, and is not [README.MD] in any case. *)
Lemma is_steering_file_iff (file : string) :
  is_steering_file file = true
  <-> (exists stem, file = stem ++ ".md")
      /\ Py.lower file <> Py.lower "README.MD".
Proof.
  unfold is_steering_file.
  rewrite andb_true_iff, negb_true_iff, endswith_iff, String.eqb_neq.
  rewrite (upper_eq_iff file "README.MD"); [done|].
  apply List.Forall_forall. intros c Hc. simpl in Hc. unfold readme_chars.
  repeat (destruct Hc as [<-|Hc]; [simpl; tauto|]). destruct Hc.
Qed.

(** What [validate_directory] gives: for a directory that does not exist,
    the one error under the path of the directory; otherwise the mapping of
    every visited path to the errors of its validation, provided every
    validation returns; and the exception of a validation that raises. *)
Lemma validate_directory_results (directory : string)
    (errs : list ValidationError) :
  (os_path_exists env directory = false ->
   validate_directory env directory errs
   = (errs,
      Returns {[ directory :=
                   [new_error directory "DIRECTORY_NOT_FOUND"
                      "Directory does not exist"] ]}))
  /\ (os_path_exists env directory = true ->
      (forall path, In path (steering_files env directory) ->
                    file_returns env path) ->
      exists errs',
        validate_directory env directory errs
        = (errs', Returns (results_of env (steering_files env directory))))
  /\ (os_path_exists env directory = true ->
      forall path, In path (steering_files env directory) ->
                   ~ file_returns env path ->
      exists errs' e,
        validate_directory env directory errs = (errs', Raises e)).
Proof.
  split_and!.
  - intros Hexists. unfold validate_directory. by rewrite Hexists.
  - intros Hexists Hreturn. rewrite validate_directory_visits by done.
    by apply visits_return.
  - intros Hexists path Hin Hraises.
    rewrite validate_directory_visits by done.
    by eapply visits_raise.
Qed.

Lemma results_of_lookup (paths : list string) (path : string) :
  results_of env paths !! path
  = if decide (path ∈ paths) then Some (file_errors env path) else None.
Proof. unfold results_of. by rewrite results_lookup, lookup_empty. Qed.

End Directory.

(** C8, at a failing input.  The directory [docs] of [Docs.crash_world]
    exists and the walk visits its one file [docs/a.md]; the validation of
    that file raises [TypeError] (its category is a list), the exception
    leaves [validate_directory], and no mapping is returned. *)
Theorem C8_walk_raises_with_a_file :
  os_path_exists Docs.crash_world "docs" = true
  /\ steering_files Docs.crash_world "docs" = ["docs/a.md"]
  /\ snd (validate_file Docs.crash_world "docs/a.md" [])
     = Raises (TypeError "unhashable type: 'list'")
  /\ snd (validate_directory Docs.crash_world "docs" [])
     = Raises (TypeError "unhashable type: 'list'").
Proof. split_and!; vm_compute; reflexivity. Qed.
(** * Further properties *)

(** ** The run of the frontmatter checks *)

Section FrontmatterRun.

Context (env : Env).

Lemma listed_set (valid : list string) (l : list pyval) :
  listed valid (PySet l) = false.
Proof. unfold listed. induction valid as [|s valid IH]; [done | exact IH]. Qed.

(** The lookup of a value in a set of strings either raises, for a value
    that cannot be hashed, or tells whether the value is one of the
    strings. *)
Lemma in_str_set_cases (v : pyval) (valid : list string) :
  in_str_set v valid
  = if unhashable_key v
    then Raises (TypeError ("unhashable type: '"
                            ++ default (type_name v) (unhashable_type v)
                            ++ "'"))
    else Returns (listed valid v).
Proof.
  destruct v; try reflexivity.
  - unfold in_str_set, unhashable_key. by destruct (hashable (PyTuple l)).
  - unfold in_str_set, unhashable_key. by rewrite listed_set.
Qed.

Lemma enumeration_outcome_raises (valid : list string)
    (kvs : list (pyval * pyval)) (key : string) :
  raises_on kvs key = true ->
  exists msg,
    enumeration_outcome valid (dict_get kvs key) = Raises (TypeError msg).
Proof.
  unfold raises_on, enumeration_outcome.
  destruct (dict_get kvs key) as [v|]; [|done].
  rewrite in_str_set_cases. intros ->. eauto.
Qed.

Lemma enumeration_outcome_returns (valid : list string)
    (kvs : list (pyval * pyval)) (key : string) :
  raises_on kvs key = false ->
  enumeration_outcome valid (dict_get kvs key) = Returns tt.
Proof.
  unfold raises_on, enumeration_outcome.
  destruct (dict_get kvs key) as [v|]; [|done].
  rewrite in_str_set_cases. by intros ->.
Qed.

Lemma check_category_run (path : string) (kvs : list (pyval * pyval))
    (errs : list ValidationError) :
  check_category env path kvs errs
  = ((errs ++ category_errors env path kvs)%list,
     enumeration_outcome VALID_CATEGORIES (dict_get kvs "category")).
Proof.
  unfold category_errors, enumeration_errors, enumeration_outcome,
    check_category, bind, lift.
  destruct (dict_get kvs "category") as [v|]; [|by rewrite app_nil_r].
  rewrite in_str_set_cases.
  destruct (unhashable_key v); [by rewrite app_nil_r|].
  cbn [orb]. destruct (listed VALID_CATEGORIES v); [by rewrite app_nil_r|].
  reflexivity.
Qed.

Lemma check_inclusion_run (path : string) (kvs : list (pyval * pyval))
    (errs : list ValidationError) :
  check_inclusion env path kvs errs
  = ((errs ++ inclusion_errors env path kvs)%list,
     enumeration_outcome VALID_INCLUSION_VALUES (dict_get kvs "inclusion")).
Proof.
  unfold inclusion_errors, enumeration_errors, enumeration_outcome,
    check_inclusion, bind, lift.
  destruct (dict_get kvs "inclusion") as [v|]; [|by rewrite app_nil_r].
  rewrite in_str_set_cases.
  destruct (unhashable_key v); [by rewrite app_nil_r|].
  cbn [orb].
  destruct (listed VALID_INCLUSION_VALUES v); [by rewrite app_nil_r|].
  reflexivity.
Qed.

Lemma check_tags_block (path : string) (kvs : list (pyval * pyval)) :
  appends (check_tags path kvs) (tags_block_errors path kvs) tt.
Proof.
  unfold tags_block_errors.
  destruct (dict_get kvs "tags") as [tags|] eqn:Htags.
  - by apply check_tags_appends.
  - unfold check_tags. rewrite Htags. apply appends_ret.
Qed.

Lemma check_optional_fields_appends (path : string)
    (kvs : list (pyval * pyval)) :
  appends (check_optional_fields path kvs)
    (optional_field_errors path kvs) tt.
Proof.
  unfold check_optional_fields, optional_field_errors.
  apply appends_for_each. intros [field expected_type]. simpl.
  destruct (dict_get kvs field) as [value|].
  - apply (appends_when _ _ [_]), appends_append_error.
  - apply appends_ret.
Qed.

(** The frontmatter checks on a mapping append their blocks in order, up to
    the first check that raises, whatever the accumulator holds. *)
Lemma validate_frontmatter_run (path : string) (kvs : list (pyval * pyval))
    (errs : list ValidationError) :
  _validate_frontmatter env path (PyDict kvs) errs
  = ((errs ++ frontmatter_errors env path kvs)%list, frontmatter_outcome kvs).
Proof.
  unfold _validate_frontmatter, frontmatter_errors, after_category,
    frontmatter_outcome, bind.
  rewrite check_required_fields_appends, check_category_run.
  destruct (raises_on kvs "category") eqn:Hcat.
  - destruct (enumeration_outcome_raises VALID_CATEGORIES kvs _ Hcat)
      as [msg ->].
    by rewrite app_nil_r, app_assoc.
  - rewrite (enumeration_outcome_returns VALID_CATEGORIES kvs _ Hcat).
    rewrite check_inclusion_run.
    destruct (raises_on kvs "inclusion") eqn:Hinc.
    + destruct (enumeration_outcome_raises VALID_INCLUSION_VALUES kvs _ Hinc)
        as [msg ->].
      by rewrite app_nil_r, !app_assoc.
    + rewrite (enumeration_outcome_returns VALID_INCLUSION_VALUES kvs _ Hinc).
      rewrite check_tags_block, check_optional_fields_appends.
      by rewrite !app_assoc.
Qed.

Lemma frontmatter_outcome_returns (kvs : list (pyval * pyval)) :
  raises_on kvs "category" = false -> raises_on kvs "inclusion" = false ->
  frontmatter_outcome kvs = Returns tt.
Proof.
  intros Hcat Hinc. unfold frontmatter_outcome.
  rewrite (enumeration_outcome_returns _ _ _ Hcat).
  by apply enumeration_outcome_returns.
Qed.

Lemma frontmatter_outcome_raises (kvs : list (pyval * pyval)) :
  raises_on kvs "category" = true \/ raises_on kvs "inclusion" = true ->
  exists msg, frontmatter_outcome kvs = Raises (TypeError msg).
Proof.
  intros Hraises. unfold frontmatter_outcome.
  destruct (raises_on kvs "category") eqn:Hcat.
  - destruct (enumeration_outcome_raises VALID_CATEGORIES kvs _ Hcat)
      as [msg ->].
    eauto.
  - rewrite (enumeration_outcome_returns _ _ _ Hcat).
    destruct Hraises as [?|Hinc]; [done|].
    by apply enumeration_outcome_raises.
Qed.

(** *** The types of the errors of each block *)















End FrontmatterRun.




(** ** The optional fields *)

Section OptionalFields.

Context (env : Env).









End OptionalFields.


(** ** The body *)

Section Body.

Lemma rstrip_blank (s : string) :
  Py.rstrip_by Py.isspace s = "" <-> Py.all_space s = true.
Proof.
  induction s as [|c s IH]; simpl; [done|].
  destruct (Py.rstrip_by Py.isspace s) as [|c' r].
  - destruct (Py.isspace c); simpl.
    + split; [intros _; by apply IH | done].
    + split; done.
  - rewrite andb_true_iff. split; [done|]. intros [_ Hs].
    by apply IH in Hs.
Qed.

Lemma lstrip_all_space (s : string) :
  Py.all_space (Py.lstrip s) = Py.all_space s.
Proof.
  induction s as [|c s IH]; simpl; [done|].
  destruct (Py.isspace c) eqn:Hc; simpl; [exact IH | by rewrite Hc].
Qed.

(** A text is blank once stripped exactly when all its characters are
    white; the empty text is. *)
Lemma strip_blank (s : string) :
  Py.strip s = "" <-> Py.all_space s = true.
Proof. unfold Py.strip. by rewrite rstrip_blank, lstrip_all_space. Qed.

Lemma body_errors_cases (path body : string) :
  body_errors path body
  = if Py.all_space body then [empty_body_error path]
    else missing_sections path body.
Proof.
  destruct (Py.all_space body) eqn:Hblank.
  - apply strip_blank in Hblank. unfold body_errors,
      _validate_markdown_structure. by rewrite Hblank.
  - apply (appends_fst _ _ tt), validate_markdown_structure_sections.
    intros Hstrip. apply strip_blank in Hstrip. congruence.
Qed.

Lemma marker_not_blank (phrase body : string) :
  has_section_marker phrase body -> Py.all_space body = false.
Proof.
  intros (before & ws & found & after & -> & _ & _).
  rewrite all_space_app. apply andb_false_intro2. reflexivity.
Qed.

Lemma missing_sections_nil (path body : string) :
  missing_sections path body = [] <-> sections_present body.
Proof.
  unfold missing_sections, sections_present. rewrite concat_nil_Forall.
  rewrite List.Forall_map, List.Forall_forall.
  split; intros Hall phrase Hin; specialize (Hall phrase Hin).
  - apply (search_required_section phrase body Hin).
    by destruct (Re.search _ body true).
  - apply (search_required_section phrase body Hin) in Hall.
    by rewrite Hall.
Qed.

(** The body checks report nothing exactly on the bodies that hold the
    three markers. *)
Lemma body_errors_nil (path body : string) :
  body_errors path body = [] <-> sections_present body.
Proof.
  rewrite body_errors_cases. destruct (Py.all_space body) eqn:Hblank.
  - split; [done|]. intros Hall.
    rewrite (marker_not_blank "Core Principle" body) in Hblank; [done|].
    apply Hall. by left.
  - apply missing_sections_nil.
Qed.

(** X6.  The body checks never raise.  On a body whose characters are all
    white space, the empty body included, they append the single error
    EMPTY_BODY and look for no section; on any other body they append no
    EMPTY_BODY error, and one MISSING_SECTION error for each of the three
    required sections that is not found, in the order of the sections. *)
Theorem X6_blank_body (path body : string) (errs : list ValidationError) :
  _validate_markdown_structure path body errs
  = ((errs ++ (if Py.all_space body then [empty_body_error path]
               else missing_sections path body))%list,
     Returns tt).
Proof. by rewrite body_appends, body_errors_cases. Qed.

End Body.

(** ** The report on one document *)

Section Report.

Context (env : Env).

(** A file that is read: the three steps of [validate_file] on its
    content *)
Lemma validate_file_read (path content : string)
    (errs : list ValidationError) :
  os_path_exists env path = true ->
  read_text env path = inl content ->
  validate_file env path errs
  = (let* (frontmatter, body) := _extract_frontmatter env path content in
     match frontmatter with
     | PyNone => ret tt
     | _ =>
         _validate_frontmatter env path frontmatter ;;
         _validate_file_references env path frontmatter
     end ;;
     _validate_markdown_structure path body ;;
     get_errors) [].
Proof.
  intros Hexists Hread. unfold validate_file, bind at 1, reset_errors.
  by rewrite Hexists, Hread.
Qed.

Lemma validate_file_unclosed (path content : string)
    (errs : list ValidationError) :
  os_path_exists env path = true ->
  read_text env path = inl content ->
  Py.startswith content "---" = true ->
  find_closing 1 (Py.slice_from 1 (Py.split nl content)) = None ->
  let found := unclosed_error path :: body_errors path content in
  validate_file env path errs = (found, Returns found).
Proof.
  intros Hexists Hread Hstart Hnone.
  rewrite (validate_file_read path content errs Hexists Hread).
  unfold _extract_frontmatter, bind. rewrite Hstart, Hnone. simpl.
  by rewrite body_appends.
Qed.

Lemma validate_file_rejected (path content msg : string)
    (frontmatter_end : nat) (errs : list ValidationError) :
  os_path_exists env path = true ->
  read_text env path = inl content ->
  Py.startswith content "---" = true ->
  find_closing 1 (Py.slice_from 1 (Py.split nl content))
  = Some frontmatter_end ->
  safe_load env (frontmatter_content (Py.split nl content) frontmatter_end)
  = YAMLError msg ->
  let found :=
    yaml_syntax_error path msg
    :: body_errors path (body_content (Py.split nl content) frontmatter_end) in
  validate_file env path errs = (found, Returns found).
Proof.
  intros Hexists Hread Hstart Hfind Hload.
  rewrite (validate_file_read path content errs Hexists Hread).
  unfold _extract_frontmatter, parse_yaml, bind.
  rewrite Hstart, Hfind, Hload. simpl. by rewrite body_appends.
Qed.

Lemma validate_file_loader_raises (path content : string) (e : exn)
    (frontmatter_end : nat) (errs : list ValidationError) :
  os_path_exists env path = true ->
  read_text env path = inl content ->
  Py.startswith content "---" = true ->
  find_closing 1 (Py.slice_from 1 (Py.split nl content))
  = Some frontmatter_end ->
  safe_load env (frontmatter_content (Py.split nl content) frontmatter_end)
  = LoadRaises e ->
  validate_file env path errs = ([], Raises e).
Proof.
  intros Hexists Hread Hstart Hfind Hload.
  rewrite (validate_file_read path content errs Hexists Hread).
  unfold _extract_frontmatter, parse_yaml, bind.
  by rewrite Hstart, Hfind, Hload.
Qed.

Lemma validate_file_null (path content body : string)
    (errs : list ValidationError) :
  os_path_exists env path = true ->
  read_text env path = inl content ->
  parses_to env content PyNone body ->
  validate_file env path errs
  = (body_errors path body, Returns (body_errors path body)).
Proof.
  intros Hexists Hread Hparse.
  rewrite (validate_file_read path content errs Hexists Hread).
  unfold bind. rewrite (extract_parses_to env path content _ body Hparse).
  cbn [ret]. by rewrite body_appends.
Qed.

Lemma validate_file_not_mapping (path content : string) (v : pyval)
    (body : string) (errs : list ValidationError) :
  os_path_exists env path = true ->
  read_text env path = inl content ->
  parses_to env content v body ->
  is_dict v = false -> v <> PyNone ->
  exists rest,
    fst (validate_file env path errs) = not_a_mapping_error path :: rest.
Proof.
  intros Hexists Hread Hparse Hdict Hnone.
  destruct (validate_file_references_non_mapping env path v Hdict) as [o Ho].
  rewrite (validate_file_read path content errs Hexists Hread).
  unfold bind. rewrite (extract_parses_to env path content v body Hparse).
  cbn [ret].
  destruct v; try done;
    (unfold _validate_frontmatter, append_error; rewrite Ho;
     destruct o as [[]|e];
     [ rewrite body_appends; cbn [fst]; by eexists
     | cbn [fst]; by eexists ]).
Qed.

Lemma validate_file_references_mapping (path : string)
    (kvs : list (pyval * pyval)) :
  appends (_validate_file_references env path (PyDict kvs))
    (reference_errors env path kvs) tt.
Proof.
  intros errs. unfold reference_errors.
  pose proof (validate_file_references_noop env path kvs errs) as Hnoop.
  destruct (dict_get kvs "file_references") as [v|] eqn:Hget;
    [|by rewrite app_nil_r].
  destruct v; try (by rewrite app_nil_r).
  by apply validate_file_references_list.
Qed.

(** A document whose frontmatter is a mapping: the frontmatter checks, and
    when they return, the references and the body. *)
Lemma validate_file_mapping (path content : string)
    (kvs : list (pyval * pyval)) (body : string)
    (errs : list ValidationError) :
  os_path_exists env path = true ->
  read_text env path = inl content ->
  parses_to env content (PyDict kvs) body ->
  validate_file env path errs
  = match frontmatter_outcome kvs with
    | Returns _ =>
        let found :=
          (frontmatter_errors env path kvs ++ reference_errors env path kvs
           ++ body_errors path body)%list in
        (found, Returns found)
    | Raises e => (frontmatter_errors env path kvs, Raises e)
    end.
Proof.
  intros Hexists Hread Hparse.
  rewrite (validate_file_read path content errs Hexists Hread).
  unfold bind. rewrite (extract_parses_to env path content _ body Hparse).
  cbn [ret]. rewrite validate_frontmatter_run. cbn [app].
  destruct (frontmatter_outcome kvs) as [[]|e]; [|done].
  rewrite validate_file_references_mapping, body_appends.
  unfold get_errors. by rewrite <- app_assoc.
Qed.

(** X7.  A file that starts with the three dashes and has no later line
    that is the delimiter once stripped gets the INVALID_FRONTMATTER error
    of a frontmatter that is not closed, no frontmatter check, and the body
    checks on its whole content, opening line included. *)
Theorem X7_unclosed_frontmatter (path content : string)
    (errs : list ValidationError) :
  os_path_exists env path = true ->
  read_text env path = inl content ->
  unclosed content ->
  let found := unclosed_error path :: body_errors path content in
  validate_file env path errs = (found, Returns found).
Proof.
  intros Hexists Hread [Hstart Hlines].
  apply validate_file_unclosed; try done.
  by apply find_closing_none.
Qed.

(** X8.  When the loader rejects the text between the delimiters as
    ill-formed YAML, the file gets the single error YAML_SYNTAX_ERROR with
    the text of the loader, no frontmatter check, and the body checks on the
    text after the closing line only. *)
Theorem X8_yaml_syntax_error (path content msg body : string)
    (errs : list ValidationError) :
  os_path_exists env path = true ->
  read_text env path = inl content ->
  rejected env content msg body ->
  let found := yaml_syntax_error path msg :: body_errors path body in
  validate_file env path errs = (found, Returns found).
Proof.
  intros Hexists Hread (Hstart & frontmatter_end & Hfind & Hload & ->).
  by apply validate_file_rejected.
Qed.



End Report.

Lemma X7_unclosed_frontmatter_witness :
  let found :=
    unclosed_error "/repo/docs/d.md"
    :: body_errors "/repo/docs/d.md" Cases.unclosed_doc in
  validate_file Cases.repo "/repo/docs/d.md" [] = (found, Returns found).
Proof.
  apply (X7_unclosed_frontmatter Cases.repo "/repo/docs/d.md"
           Cases.unclosed_doc []).
  - vm_compute. reflexivity.
  - vm_compute. reflexivity.
  - split; [reflexivity|].
    change (Py.slice_from 1 (Py.split nl Cases.unclosed_doc))
      with ("title: Testing guide" :: Docs.three_sections).
    repeat (constructor; [vm_compute; discriminate|]). constructor.
Defined.

Lemma X8_yaml_syntax_error_witness :
  let found :=
    yaml_syntax_error "/repo/docs/e.md" "while parsing a flow sequence"
    :: body_errors "/repo/docs/e.md" (unlines Docs.three_sections) in
  validate_file Cases.repo "/repo/docs/e.md" [] = (found, Returns found).
Proof.
  apply (X8_yaml_syntax_error Cases.repo "/repo/docs/e.md" Cases.broken_doc
           "while parsing a flow sequence" (unlines Docs.three_sections) []).
  - vm_compute. reflexivity.
  - vm_compute. reflexivity.
  - split; [reflexivity|]. exists 2. split_and!; vm_compute; reflexivity.
Defined.


(** ** Documents without fault *)

Section Validity.

Context (env : Env).

Lemma concat_map_nil {A B} (f : A -> list B) (l : list A) :
  List.concat (map f l) = [] <-> forall x, In x l -> f x = [].
Proof. by rewrite concat_nil_Forall, List.Forall_map, List.Forall_forall. Qed.

Lemma required_errors_nil (path : string) (kvs : list (pyval * pyval)) :
  required_field_errors path kvs = []
  <-> forallb (well_typed kvs) REQUIRED_FIELDS = true.
Proof.
  unfold required_field_errors. rewrite concat_map_nil, forallb_forall.
  split; intros Hall [field expected_type] Hin; specialize (Hall _ Hin);
    unfold well_typed, required_field_report in *; cbn [fst snd] in *;
    destruct (dict_get kvs field) as [value|]; try done;
    by destruct (isinstance value expected_type).
Qed.

Lemma optional_errors_nil (path : string) (kvs : list (pyval * pyval)) :
  optional_field_errors path kvs = []
  <-> forallb (well_typed_if_present kvs) OPTIONAL_FIELDS = true.
Proof.
  unfold optional_field_errors. rewrite concat_map_nil, forallb_forall.
  split; intros Hall [field expected_type] Hin; specialize (Hall _ Hin);
    unfold well_typed_if_present, optional_field_report in *;
    cbn [fst snd] in *;
    destruct (dict_get kvs field) as [value|]; try done;
    by destruct (isinstance value expected_type).
Qed.

(** Only a [str] is one of the strings of a set, and a [str] can be
    hashed. *)
Lemma listed_hashable (valid : list string) (v : pyval) :
  listed valid v = true -> unhashable_key v = false.
Proof.
  unfold listed. intros (s & _ & Heq)%existsb_exists.
  by destruct v.
Qed.

Lemma enumeration_errors_nil (valid : list string)
    (error : pyval -> ValidationError) (v : pyval) :
  unhashable_key v = false ->
  enumeration_errors valid error (Some v) = [] <-> listed valid v = true.
Proof.
  intros Hv. unfold enumeration_errors. rewrite Hv. cbn [orb].
  by destruct (listed valid v).
Qed.

Lemma filter_negb_nil {A} (q : A -> bool) (l : list A) :
  List.filter (fun x => negb (q x)) l = [] <-> forallb q l = true.
Proof.
  induction l as [|x l IH]; simpl; [done|].
  destruct (q x); simpl; [exact IH | done].
Qed.

Lemma tags_errors_nil (path : string) (tags : pyval) :
  tags_errors path tags = [] <-> good_tags tags = true.
Proof.
  destruct tags; try done. destruct l as [|tag l]; [done|].
  unfold tags_errors, good_tags. generalize (tag :: l). intros tags.
  rewrite <- filter_negb_nil.
  by destruct (List.filter _ tags).
Qed.

Lemma reference_errors_nil (path : string) (kvs : list (pyval * pyval)) :
  reference_errors env path kvs = []
  <-> references_resolve env path kvs = true.
Proof.
  unfold reference_errors, references_resolve.
  destruct (dict_get kvs "file_references") as [v|]; [|done].
  destruct v; try done.
  rewrite concat_map_nil, forallb_forall.
  split; intros Hall ref Hin; specialize (Hall ref Hin);
    destruct ref; try done; cbn [reference_report] in *;
    by destruct (unresolved env path s).
Qed.

Lemma frontmatter_outcome_returns_inv (kvs : list (pyval * pyval)) :
  frontmatter_outcome kvs = Returns tt ->
  raises_on kvs "category" = false /\ raises_on kvs "inclusion" = false.
Proof.
  intros Hreturns.
  destruct (raises_on kvs "category") eqn:Hcat.
  { destruct (frontmatter_outcome_raises kvs) as [msg Hmsg];
      [by left | congruence]. }
  destruct (raises_on kvs "inclusion") eqn:Hinc; [|done].
  destruct (frontmatter_outcome_raises kvs) as [msg Hmsg];
    [by right | congruence].
Qed.

(** The checks of a mapping return without an error exactly on the
    frontmatters without fault. *)
Lemma valid_frontmatter_iff (path : string) (kvs : list (pyval * pyval)) :
  valid_frontmatter env path kvs = true
  <-> frontmatter_outcome kvs = Returns tt
      /\ frontmatter_errors env path kvs = []
      /\ reference_errors env path kvs = [].
Proof.
  unfold valid_frontmatter. rewrite !andb_true_iff.
  rewrite <- (required_errors_nil path), <- (optional_errors_nil path),
    <- (reference_errors_nil path).
  split.
  - intros (((((Hreq & Hcat) & Hinc) & Htags) & Hopt) & Hrefs).
    destruct (dict_get kvs "category") as [category|] eqn:Hc; [|done].
    destruct (dict_get kvs "inclusion") as [inclusion|] eqn:Hi; [|done].
    destruct (dict_get kvs "tags") as [tags|] eqn:Ht; [|done].
    assert (raises_on kvs "category" = false) as Hcat'.
    { unfold raises_on. rewrite Hc. by eapply listed_hashable. }
    assert (raises_on kvs "inclusion" = false) as Hinc'.
    { unfold raises_on. rewrite Hi. by eapply listed_hashable. }
    split; [by apply frontmatter_outcome_returns|]. split; [|done].
    unfold frontmatter_errors, after_category, category_errors,
      inclusion_errors, tags_block_errors.
    rewrite Hcat', Hinc', Hreq, Hopt, Hc, Hi, Ht.
    rewrite (proj2 (enumeration_errors_nil _ _ category
                      (listed_hashable _ _ Hcat)) Hcat),
      (proj2 (enumeration_errors_nil _ _ inclusion
                (listed_hashable _ _ Hinc)) Hinc),
      (proj2 (tags_errors_nil path tags) Htags).
    reflexivity.
  - intros (Hreturns & Herrors & Hrefs).
    apply frontmatter_outcome_returns_inv in Hreturns as [Hcat Hinc].
    unfold frontmatter_errors, after_category in Herrors.
    rewrite Hcat, Hinc in Herrors.
    apply app_eq_nil in Herrors as [Hreq Herrors].
    apply app_eq_nil in Herrors as [Hcategory Herrors].
    apply app_eq_nil in Herrors as [Hinclusion Herrors].
    apply app_eq_nil in Herrors as [Htags Hopt].
    pose proof Hreq as Hfields.
    rewrite required_errors_nil, forallb_forall in Hfields.
    pose proof (Hfields ("category", TStr)) as Hc.
    pose proof (Hfields ("inclusion", TStr)) as Hi.
    pose proof (Hfields ("tags", TList)) as Ht.
    unfold well_typed in Hc, Hi, Ht. cbn [fst snd] in Hc, Hi, Ht.
    unfold raises_on in Hcat, Hinc.
    unfold category_errors in Hcategory.
    unfold inclusion_errors in Hinclusion.
    unfold tags_block_errors in Htags.
    destruct (dict_get kvs "category") as [category|];
      [|discriminate Hc; cbn; tauto].
    destruct (dict_get kvs "inclusion") as [inclusion|];
      [|discriminate Hi; cbn; tauto].
    destruct (dict_get kvs "tags") as [tags|];
      [|discriminate Ht; cbn; tauto].
    apply (enumeration_errors_nil _ _ _ Hcat) in Hcategory.
    apply (enumeration_errors_nil _ _ _ Hinc) in Hinclusion.
    apply tags_errors_nil in Htags.
    done.
Qed.

(** X11.  [validate_file] returns the empty list, with nothing accumulated,
    exactly for a document without fault: the file exists and is read; its
    content starts with the three dashes, a later line closes the block, and
    the loader decodes the block either to null (an empty block counts as no
    frontmatter and passes) or to a mapping in which the five required
    fields are present with their types, category and inclusion are among
    the valid values, the tags are a list of strings that is not empty, the
    optional fields that are present have their types, and every string
    among the file references resolves; and its body holds the marker of
    each of the three required sections. *)
Theorem X11_valid_document (path : string) (errs : list ValidationError) :
  validate_file env path errs = ([], Returns []) <-> valid_document env path.
Proof.
  split.
  - intros Hrun.
    destruct (os_path_exists env path) eqn:Hexists.
    2: { unfold validate_file, bind, reset_errors in Hrun.
         rewrite Hexists in Hrun. discriminate Hrun. }
    destruct (read_text env path) as [content|reason] eqn:Hread.
    2: { unfold validate_file, bind, reset_errors in Hrun.
         rewrite Hexists, Hread in Hrun. discriminate Hrun. }
    destruct (Py.startswith content "---") eqn:Hstart.
    2: { rewrite (validate_file_not_started env path content errs Hexists
                    Hread Hstart) in Hrun.
         discriminate Hrun. }
    destruct (find_closing 1 (Py.slice_from 1 (Py.split nl content)))
      as [frontmatter_end|] eqn:Hfind.
    2: { rewrite (validate_file_unclosed env path content errs Hexists Hread
                    Hstart Hfind) in Hrun.
         discriminate Hrun. }
    destruct (safe_load env
                (frontmatter_content (Py.split nl content) frontmatter_end))
      as [v|msg|e] eqn:Hload.
    + assert (parses_to env content v
                (body_content (Py.split nl content) frontmatter_end))
        as Hparse.
      { split; [done|]. exists frontmatter_end. by split_and!. }
      split; [done|].
      exists content, v,
        (body_content (Py.split nl content) frontmatter_end).
      split; [done|]. split; [done|].
      destruct (is_dict v) eqn:Hdict.
      * destruct v; try discriminate Hdict.
        rewrite (validate_file_mapping env path content kvs _ errs Hexists
                   Hread Hparse) in Hrun.
        destruct (frontmatter_outcome kvs) as [[]|e] eqn:Hout;
          [|discriminate Hrun].
        cbv zeta in Hrun. injection Hrun as Herrors _.
        apply app_eq_nil in Herrors as [Hfm Herrors].
        apply app_eq_nil in Herrors as [Hrefs Hbody].
        split; [|by apply (body_errors_nil path)].
        right. exists kvs. split; [done|].
        by apply (valid_frontmatter_iff path).
      * assert (v = PyNone \/ v <> PyNone) as [->|Hnone]
          by (destruct v; (by left) || (by right)).
        -- rewrite (validate_file_null env path content _ errs Hexists Hread
                      Hparse) in Hrun.
           injection Hrun as Hbody _.
           split; [by left | by apply (body_errors_nil path)].
        -- destruct (validate_file_not_mapping env path content v _ errs
                       Hexists Hread Hparse Hdict Hnone) as [rest Hrest].
           rewrite Hrun in Hrest. discriminate Hrest.
    + rewrite (validate_file_rejected env path content msg frontmatter_end
                 errs Hexists Hread Hstart Hfind Hload) in Hrun.
      discriminate Hrun.
    + rewrite (validate_file_loader_raises env path content e frontmatter_end
                 errs Hexists Hread Hstart Hfind Hload) in Hrun.
      discriminate Hrun.
  - intros (Hexists & content & v & body & Hread & Hparse & Hv & Hbody).
    apply (body_errors_nil path) in Hbody.
    destruct Hv as [->|(kvs & -> & Hvalid)].
    + rewrite (validate_file_null env path content body errs Hexists Hread
                 Hparse).
      by rewrite Hbody.
    + apply (valid_frontmatter_iff path) in Hvalid
        as (Hout & Hfm & Hrefs).
      rewrite (validate_file_mapping env path content kvs body errs Hexists
                 Hread Hparse).
      by rewrite Hout, Hfm, Hrefs, Hbody.
Qed.

End Validity.

Lemma X11_valid_document_witness :
  validate_file Cases.repo "/repo/docs/a.md" [] = ([], Returns []).
Proof.
  apply (X11_valid_document Cases.repo "/repo/docs/a.md" []).
  split; [reflexivity|].
  exists Cases.good_doc, (PyDict Cases.good_frontmatter),
    (unlines Docs.three_sections).
  split_and!.
  - vm_compute. reflexivity.
  - split; [reflexivity|]. exists 7. split_and!; vm_compute; reflexivity.
  - right. exists Cases.good_frontmatter.
    split; [reflexivity | vm_compute; reflexivity].
  - intros phrase Hin. apply (search_required_section phrase _ Hin).
    destruct Hin as [<-|[<-|[<-|[]]]]; vm_compute; reflexivity.
Defined.

(** ** The search for the repository root *)

Section Root.

Context (env : Env).

(** Every directory of the search is a beginning of the directory it
    starts from, and is not its own parent. *)
Lemma searched_dirs_prefix (fuel : nat) (dir found : string) :
  In found (searched_dirs fuel dir) ->
  (exists rest, dir = found ++ rest) /\ found <> PosixPath.dirname found.
Proof.
  revert dir. induction fuel as [|fuel IH]; intros dir; simpl; [done|].
  destruct (String.eqb_spec dir (PosixPath.dirname dir)) as [Heq|Hne];
    [done|].
  intros [<-|Hin].
  - split; [|done]. exists "". by rewrite append_nil_r.
  - destruct (IH _ Hin) as [[rest Hrest] Hfound]. split; [|done].
    destruct (dirname_prefix dir) as [rest' Hdir].
    exists (rest ++ rest'). by rewrite <- append_assoc, <- Hrest.
Qed.

(** X12.  The loop of [_find_repo_root] ends for every path: it makes at
    most as many rounds as the absolute directory of the document has
    characters, plus one, and more rounds change nothing.  A root that is
    found holds the version-control marker, is a beginning of the absolute
    directory of the document (the directory itself or one of its
    ancestors), is not the empty text, and is not a directory that is its
    own parent. *)
Theorem X12_repo_root (file_path : string) :
  (forall fuel,
     String.length (document_dir env file_path) < fuel ->
     repo_root_loop env fuel (document_dir env file_path)
     = Some (_find_repo_root env file_path))
  /\ (forall root,
        _find_repo_root env file_path = Some root ->
        has_marker env root = true
        /\ (exists rest, document_dir env file_path = root ++ rest)
        /\ root <> ""
        /\ root <> PosixPath.dirname root).
Proof.
  split.
  - intros fuel Hfuel. rewrite (repo_root_loop_fuel env fuel _ Hfuel).
    rewrite find_repo_root_searched. unfold dirs_below_top.
    f_equal. f_equal. apply searched_dirs_fuel; lia.
  - intros root Hroot. rewrite find_repo_root_searched in Hroot.
    apply List.find_some in Hroot as [Hin Hmarker].
    unfold dirs_below_top in Hin.
    destruct (searched_dirs_prefix _ _ _ Hin) as [Hprefix Htop].
    split_and!; try done.
    by eapply searched_dirs_not_empty.
Qed.

(** X13.  A reference that starts with a slash is looked up as it is: the
    directory of the document and the repository root play no part, and
    the MISSING_FILE_REFERENCE error naming it is emitted exactly when it is
    an element of the list and the path itself does not exist. *)
Theorem X13_absolute_reference (file_path : string)
    (kvs : list (pyval * pyval)) (refs : list pyval) (ref : string)
    (errs : list ValidationError) :
  dict_get kvs "file_references" = Some (PyList refs) ->
  Py.startswith ref "/" = true ->
  exists new,
    _validate_file_references env file_path (PyDict kvs) errs
    = ((errs ++ new)%list, Returns tt)
    /\ (In (missing_reference_error file_path ref) new
        <-> In (PyStr ref) refs /\ os_path_exists env ref = false).
Proof.
  intros Hrefs Habs.
  exists (List.concat (map (reference_report env file_path) refs)).
  split; [by apply validate_file_references_list|].
  rewrite in_reference_reports. unfold unresolved, PosixPath.join.
  rewrite Habs.
  destruct (os_path_exists env ref); cbn [negb andb];
    [intuition discriminate|].
  destruct (_find_repo_root env file_path); cbn [negb andb]; tauto.
Qed.

End Root.

Lemma X12_repo_root_witness :
  _find_repo_root Cases.repo "docs/sub/a.md" = Some "/repo"
  /\ has_marker Cases.repo "/repo" = true
  /\ (exists rest, document_dir Cases.repo "docs/sub/a.md" = "/repo" ++ rest)
  /\ "/repo" <> ""
  /\ "/repo" <> PosixPath.dirname "/repo".
Proof.
  split; [vm_compute; reflexivity|].
  apply (X12_repo_root Cases.repo "docs/sub/a.md").
  vm_compute. reflexivity.
Defined.

Lemma X13_absolute_reference_witness :
  exists new,
    _validate_file_references Cases.repo "/repo/docs/b.md"
      (PyDict Cases.faulty_frontmatter) []
    = (([] ++ new)%list, Returns tt)
    /\ (In (missing_reference_error "/repo/docs/b.md" "/y.md") new
        <-> In (PyStr "/y.md") [PyStr "x.md"; PyStr "/y.md"]
            /\ os_path_exists Cases.repo "/y.md" = false).
Proof.
  apply (X13_absolute_reference Cases.repo "/repo/docs/b.md"
           Cases.faulty_frontmatter [PyStr "x.md"; PyStr "/y.md"] "/y.md" []).
  - vm_compute. reflexivity.
  - reflexivity.
Defined.

(** ** The results of a walk *)

Section Walk.

Context (env : Env).

Lemma steering_files_iff (directory path : string) :
  In path (steering_files env directory)
  <-> exists root dirs files file,
        In (root, dirs, files) (os_walk env directory)
        /\ In file files /\ is_steering_file file = true
        /\ path = PosixPath.join root file.
Proof.
  unfold steering_files. rewrite in_concat. split.
  - intros (paths & Hpaths & Hin).
    apply in_map_iff in Hpaths as ([[root dirs] files] & <- & Hwalk).
    apply in_map_iff in Hin as (file & <- & Hfile).
    apply List.filter_In in Hfile as [Hfile Hname].
    by exists root, dirs, files, file.
  - intros (root & dirs & files & file & Hwalk & Hfile & Hname & ->).
    exists (map (PosixPath.join root)
              (List.filter is_steering_file files)).
    split.
    + apply in_map_iff. by exists (root, dirs, files).
    + apply in_map, List.filter_In. by split.
Qed.

Lemma last_cons_default {A B} (f : A -> B) (d : B) (x : A) (l : list A) :
  match last (x :: l) with Some y => f y | None => d end
  = match last l with Some y => f y | None => f x end.
Proof.
  revert d x. induction l as [|y l IH]; intros d x; [done|].
  change (last (x :: y :: l)) with (last (y :: l)). by rewrite !IH.
Qed.

(** The accumulator after a run of visits that return holds the errors of
    the last visited file. *)
Lemma visits_return_last (paths : list string)
    (results : gmap string (list ValidationError))
    (errs : list ValidationError) :
  (forall path, In path paths -> file_returns env path) ->
  fold_m paths (visit env) results errs
  = (match last paths with
     | Some path => file_errors env path
     | None => errs
     end,
     Returns (foldl (fun results path =>
                       <[ path := file_errors env path ]> results)
                results paths)).
Proof.
  revert results errs.
  induction paths as [|path paths IH]; intros results errs Hreturn; [done|].
  cbn [fold_m foldl]. unfold bind.
  rewrite visit_returns by (apply Hreturn; by left).
  rewrite IH by (intros p Hp; apply Hreturn; by right).
  by rewrite last_cons_default.
Qed.

Lemma visit_raises (results : gmap string (list ValidationError))
    (path : string) (e : exn) (errs : list ValidationError) :
  snd (validate_file env path []) = Raises e ->
  visit env results path errs = (file_errors env path, Raises e).
Proof.
  intros Hraises. unfold visit, bind, file_errors.
  change (validate_file env path errs) with (validate_file env path []).
  destruct (validate_file env path []) as [errs' o]. simpl in Hraises.
  by subst o.
Qed.

(** A walk that returns has validated every file it visited, and returns
    the mapping of the visited paths. *)
Lemma validate_directory_returns_inv (directory : string)
    (errs : list ValidationError)
    (results : gmap string (list ValidationError)) :
  os_path_exists env directory = true ->
  snd (validate_directory env directory errs) = Returns results ->
  results = results_of env (steering_files env directory).
Proof.
  intros Hexists Hreturns.
  destruct (validate_directory_results env directory errs)
    as (_ & Hall & Hraise).
  destruct (Hall Hexists) as [errs' Hrun].
  - intros path Hin. unfold file_returns.
    destruct (snd (validate_file env path [])) as [errors|e] eqn:Hfile;
      [by exists errors|].
    destruct (Hraise Hexists path Hin) as (errs' & e' & Hrun).
    { intros [errors Herrors]. unfold file_returns in *. congruence. }
    rewrite Hrun in Hreturns. discriminate Hreturns.
  - rewrite Hrun in Hreturns. by injection Hreturns as <-.
Qed.

(** X14.  When [validate_directory] returns on a directory that exists, the
    keys of the mapping it returns are exactly the paths
    [os.path.join(root, file)] of the files that [os.walk] lists whose name
    ends in [.md], in lower case as written, and is not [readme.md] in any
    mix of cases; and the value under each key is the accumulator that
    [validate_file] leaves on that path.  A name in [.MD] is passed
    over. *)
Theorem X14_visited_paths (directory : string)
    (errs : list ValidationError)
    (results : gmap string (list ValidationError)) (path : string) :
  os_path_exists env directory = true ->
  snd (validate_directory env directory errs) = Returns results ->
  (is_Some (results !! path)
   <-> exists root dirs files file,
         In (root, dirs, files) (os_walk env directory)
         /\ In file files
         /\ (exists stem, file = stem ++ ".md")
         /\ Py.lower file <> "readme.md"
         /\ path = PosixPath.join root file)
  /\ (forall errors,
        results !! path = Some errors ->
        errors = fst (validate_file env path [])).
Proof.
  intros Hexists Hreturns.
  rewrite (validate_directory_returns_inv directory errs results Hexists
             Hreturns), results_of_lookup.
  assert (In path (steering_files env directory)
          <-> exists root dirs files file,
                In (root, dirs, files) (os_walk env directory)
                /\ In file files
                /\ (exists stem, file = stem ++ ".md")
                /\ Py.lower file <> "readme.md"
                /\ path = PosixPath.join root file) as Hvisited.
  { rewrite steering_files_iff.
    split; intros (root & dirs & files & file & Hwalk & Hfile & Hrest).
    - destruct Hrest as [Hname ->].
      apply is_steering_file_iff in Hname as [Hstem Hreadme].
      by exists root, dirs, files, file.
    - destruct Hrest as (Hstem & Hreadme & ->).
      exists root, dirs, files, file. split_and!; try done.
      by apply is_steering_file_iff. }
  rewrite <- Hvisited.
  destruct (decide (path ∈ steering_files env directory)) as [Hin|Hnin].
  - split; [|by intros errors [= <-]].
    split; [intros _; by apply list_elem_of_In | by eexists].
  - split; [|done].
    split; [by intros [? ?] | intros Hin; by apply list_elem_of_In in Hin].
Qed.

(** X15.  For a directory that does not exist, [validate_directory]
    returns the mapping with the single key of the directory and the single
    error DIRECTORY_NOT_FOUND, and leaves the accumulator as it is.  For a
    directory that exists and whose visited files are all validated without
    an exception, it returns the mapping whose keys are exactly the visited
    paths, each with the errors of its own validation (the empty list for a
    document without fault); the accumulator is left with the errors of the
    last visited file. *)
Theorem X15_directory_results (directory : string)
    (errs : list ValidationError) :
  (os_path_exists env directory = false ->
   validate_directory env directory errs
   = (errs,
      Returns {[ directory :=
                   [new_error directory "DIRECTORY_NOT_FOUND"
                      "Directory does not exist"] ]}))
  /\ (os_path_exists env directory = true ->
      (forall path, In path (steering_files env directory) ->
                    file_returns env path) ->
      exists results,
        validate_directory env directory errs
        = (match last (steering_files env directory) with
           | Some path => file_errors env path
           | None => errs
           end, Returns results)
        /\ forall path,
             results !! path
             = if decide (path ∈ steering_files env directory)
               then Some (file_errors env path) else None).
Proof.
  split.
  - intros Hexists. unfold validate_directory. by rewrite Hexists.
  - intros Hexists Hreturn.
    exists (results_of env (steering_files env directory)).
    split; [|intros path; apply results_of_lookup].
    rewrite validate_directory_visits by done.
    by apply visits_return_last.
Qed.

(** X16.  An exception of the validation of one file ends the walk: when
    the files visited before it are validated without exception,
    [validate_directory] raises the exception of that file, returns no
    mapping, and never validates the files that come after it; the
    accumulator is left with the errors the failing validation had
    appended. *)
Theorem X16_walk_stops_at_first_exception (directory : string)
    (before : list string) (path : string) (after : list string) (e : exn)
    (errs : list ValidationError) :
  os_path_exists env directory = true ->
  steering_files env directory = (before ++ path :: after)%list ->
  (forall p, In p before -> file_returns env p) ->
  snd (validate_file env path []) = Raises e ->
  validate_directory env directory errs = (file_errors env path, Raises e).
Proof.
  intros Hexists Hfiles Hbefore Hraises.
  rewrite validate_directory_visits by done.
  rewrite Hfiles, fold_m_app. unfold bind at 1.
  rewrite visits_return_last by done.
  cbn [fold_m]. unfold bind. by rewrite (visit_raises _ _ e).
Qed.

End Walk.

Lemma X14_visited_paths_witness :
  exists results,
    snd (validate_directory Cases.repo "/repo/docs" []) = Returns results
    /\ is_Some (results !! "/repo/docs/sub/a.md")
    /\ forall errors,
         results !! "/repo/docs/sub/a.md" = Some errors ->
         errors = fst (validate_file Cases.repo "/repo/docs/sub/a.md" []).
Proof.
  exists (results_of Cases.repo (steering_files Cases.repo "/repo/docs")).
  assert (snd (validate_directory Cases.repo "/repo/docs" [])
          = Returns (results_of Cases.repo
                       (steering_files Cases.repo "/repo/docs")))
    as Hreturns by (vm_compute; reflexivity).
  split; [exact Hreturns|].
  destruct (X14_visited_paths Cases.repo "/repo/docs" [] _
              "/repo/docs/sub/a.md" eq_refl Hreturns) as [Hkey Hvalue].
  split; [|exact Hvalue].
  apply Hkey.
  exists "/repo/docs/sub", [], ["a.md"; "ReadMe.md"; "guide.MD"], "a.md".
  split_and!.
  - right. left. reflexivity.
  - left. reflexivity.
  - by exists "a".
  - discriminate.
  - reflexivity.
Defined.

Lemma X15_directory_results_witness :
  exists results,
    validate_directory Cases.repo "/repo/docs" []
    = (match last (steering_files Cases.repo "/repo/docs") with
       | Some path => file_errors Cases.repo path
       | None => []
       end, Returns results)
    /\ results !! "/repo/docs/a.md" = Some []
    /\ results !! "/repo/docs/README.md" = None
    /\ results !! "/repo/docs/sub/ReadMe.md" = None
    /\ results !! "/repo/docs/sub/guide.MD" = None
    /\ results !! "/repo/docs/sub/a.md" = Some [].
Proof.
  destruct (X15_directory_results Cases.repo "/repo/docs" []) as [_ Hwalk].
  destruct Hwalk as (results & Hrun & Hlookup).
  - vm_compute. reflexivity.
  - intros path Hin. vm_compute in Hin.
    destruct Hin as [<-|[<-|[<-|[]]]]; eexists; vm_compute; reflexivity.
  - exists results. split; [exact Hrun|].
    rewrite !Hlookup. split_and!; vm_compute; reflexivity.
Defined.

Lemma X16_walk_stops_at_first_exception_witness :
  exists msg,
    validate_directory Cases.crashing_repo "/repo/docs" []
    = (file_errors Cases.crashing_repo "/repo/docs/c.md",
       Raises (TypeError msg)).
Proof.
  eexists.
  apply (X16_walk_stops_at_first_exception Cases.crashing_repo "/repo/docs"
           ["/repo/docs/a.md"] "/repo/docs/c.md" ["/repo/docs/b.md"]).
  - vm_compute. reflexivity.
  - vm_compute. reflexivity.
  - intros p [<-|[]]. eexists. vm_compute. reflexivity.
  - vm_compute. reflexivity.
Defined.

(** ** A frontmatter that is no mapping *)

Section NotAMapping.

Context (env : Env).

(** Validation on a frontmatter that is neither null nor a mapping *)
Lemma validate_file_other (path content : string) (v : pyval)
    (body : string) (errs : list ValidationError) :
  os_path_exists env path = true ->
  read_text env path = inl content ->
  parses_to env content v body ->
  is_dict v = false -> v <> PyNone ->
  if reference_lookup_raises v
  then exists msg,
         validate_file env path errs
         = ([not_a_mapping_error path], Raises (TypeError msg))
  else let found := not_a_mapping_error path :: body_errors path body in
       validate_file env path errs = (found, Returns found).
Proof.
  intros Hexists Hread Hparse Hdict Hnone.
  rewrite (validate_file_read env path content errs Hexists Hread).
  unfold bind. rewrite (extract_parses_to env path content v body Hparse).
  cbn [ret]. unfold reference_lookup_raises.
  destruct v; try done;
    unfold _validate_frontmatter, _validate_file_references, append_error,
      bind, lift; cbn [py_contains app];
    try (eexists; reflexivity).
  - destruct (contains s "file_references"); cbn [negb py_getitem].
    + eexists. reflexivity.
    + unfold ret. by rewrite body_appends.
  - destruct (existsb _ l); cbn [negb py_getitem].
    + eexists. reflexivity.
    + unfold ret. by rewrite body_appends.
  - destruct (existsb _ l); cbn [negb py_getitem].
    + eexists. reflexivity.
    + unfold ret. by rewrite body_appends.
  - destruct (existsb _ l); cbn [negb py_getitem].
    + eexists. reflexivity.
    + unfold ret. by rewrite body_appends.
Qed.

(** X17.  For a document whose frontmatter block decodes to a value that is
    neither null nor a mapping, the INVALID_FRONTMATTER error is appended
    and the file-reference check is still run on the value.  When the
    membership test of [file_references] raises on the value (a number, a
    boolean, a date, a byte string) or finds the key (as a part of a text, as
    an element of a list or a set), [validate_file] raises a [TypeError]
    with that one error accumulated and the body never checked; otherwise it
    returns the error followed by the errors of the body. *)
Theorem X17_non_mapping_outcome (path content : string) (v : pyval)
    (body : string) (errs : list ValidationError) :
  os_path_exists env path = true ->
  read_text env path = inl content ->
  parses_to env content v body ->
  is_dict v = false -> v <> PyNone ->
  if reference_lookup_raises v
  then exists msg,
         validate_file env path errs
         = ([not_a_mapping_error path], Raises (TypeError msg))
  else let found := not_a_mapping_error path :: body_errors path body in
       validate_file env path errs = (found, Returns found).
Proof. apply validate_file_other. Qed.

End NotAMapping.

Lemma X17_non_mapping_outcome_witness :
  (exists msg,
     validate_file Docs.locked_world "five.md" []
     = ([not_a_mapping_error "five.md"], Raises (TypeError msg)))
  /\ (let found :=
        not_a_mapping_error "doc.md"
        :: body_errors "doc.md" (unlines Docs.three_sections) in
      validate_file Docs.list_world "doc.md" [] = (found, Returns found)).
Proof.
  split.
  - apply (X17_non_mapping_outcome Docs.locked_world "five.md"
             (unlines (["---"; "5"; "---"] ++ Docs.three_sections))
             (PyInt 5) (unlines Docs.three_sections) []).
    + vm_compute. reflexivity.
    + vm_compute. reflexivity.
    + split; [reflexivity|]. exists 2. split_and!; vm_compute; reflexivity.
    + reflexivity.
    + discriminate.
  - apply (X17_non_mapping_outcome Docs.list_world "doc.md"
             Docs.list_frontmatter (PyList [PyStr "a"])
             (unlines Docs.three_sections) []).
    + vm_compute. reflexivity.
    + vm_compute. reflexivity.
    + split; [reflexivity|]. exists 2. split_and!; vm_compute; reflexivity.
    + reflexivity.
    + discriminate.
Defined.

(** ** The text of an error *)

Section Text.

Context (env : Env).

(** X18.  Every error that [validate_file] accumulates is printed by
    [__str__] as the path given to the call, a blank, the type of the error
    in square brackets, a blank, and the message: no check records a line
    number, so the part for the location is always left out. *)
Theorem X18_errors_print_without_location (path : string)
    (errs : list ValidationError) (e : ValidationError) :
  In e (fst (validate_file env path errs)) ->
  __str__ e = path ++ " [" ++ error_type e ++ "] " ++ message e.
Proof.
  intros Hin.
  pose proof (validate_file_emits env path errs) as Hall.
  rewrite List.Forall_forall in Hall.
  destruct (Hall e Hin) as (Hpath & Hline & _).
  unfold __str__. by rewrite Hpath, Hline.
Qed.

End Text.

Lemma X18_errors_print_without_location_witness :
  __str__ (unclosed_error "/repo/docs/d.md")
  = "/repo/docs/d.md [INVALID_FRONTMATTER] Frontmatter not properly closed with ---".
Proof.
  apply (X18_errors_print_without_location Cases.repo "/repo/docs/d.md" []
           (unclosed_error "/repo/docs/d.md")).
  vm_compute. left. reflexivity.
Defined.

(** ** The command line *)

Section CommandLine.

Context (env : Env).

Lemma dict_setitem_keys {V} (items : list (string * V)) (key : string)
    (value : V) :
  (dict_setitem items key value).*1
  = if decide (key ∈ items.*1) then items.*1 else (items.*1 ++ [key])%list.
Proof.
  induction items as [|[k v] items IH]; [done|]. cbn [dict_setitem].
  destruct (String.eqb_spec k key) as [->|Hne].
  - cbn [fmap list_fmap fst]. rewrite decide_True; [done | by left].
  - cbn [fmap list_fmap fst] in *. rewrite IH.
    destruct (decide (key ∈ items.*1)) as [Hin|Hnin].
    + rewrite decide_True; [done | by right].
    + rewrite decide_False; [done|].
      intros [?|?]%elem_of_cons; [congruence | done].
Qed.

Lemma dict_setitem_NoDup {V} (items : list (string * V)) (key : string)
    (value : V) :
  NoDup items.*1 -> NoDup (dict_setitem items key value).*1.
Proof.
  intros Hitems. rewrite dict_setitem_keys.
  destruct (decide (key ∈ items.*1)) as [Hin|Hnin]; [done|].
  apply NoDup_app. split_and!; [done | | apply NoDup_singleton].
  intros k Hk ->%list_elem_of_singleton. done.
Qed.

Lemma dict_setitem_map (items : list (string * list ValidationError))
    (key : string) (value : list ValidationError) :
  (list_to_map (dict_setitem items key value)
     : gmap string (list ValidationError))
  = <[ key := value ]> (list_to_map items).
Proof.
  induction items as [|[k v] items IH]; [done|]. cbn [dict_setitem].
  destruct (String.eqb_spec k key) as [->|Hne]; cbn [list_to_map foldr].
  - cbn. by rewrite insert_insert_eq.
  - cbn. cbn in IH. rewrite IH. by apply insert_insert_ne.
Qed.

Lemma same_dict_setitem (items : list (string * list ValidationError))
    (results : gmap string (list ValidationError)) (key : string)
    (value : list ValidationError) :
  same_dict items results ->
  same_dict (dict_setitem items key value) (<[ key := value ]> results).
Proof.
  intros [Hkeys <-]. split.
  - by apply dict_setitem_NoDup.
  - apply dict_setitem_map.
Qed.

(** Two loops whose rounds end alike end alike. *)
Lemma fold_m_agree {A R1 R2} (rel : R1 -> R2 -> Prop) (l : list A)
    (body1 : R1 -> A -> M R1) (body2 : R2 -> A -> M R2) :
  (forall a r1 r2 errs,
     rel r1 r2 -> agree rel (body1 r1 a errs) (body2 r2 a errs)) ->
  forall r1 r2 errs,
    rel r1 r2 -> agree rel (fold_m l body1 r1 errs) (fold_m l body2 r2 errs).
Proof.
  intros Hbody. induction l as [|a l IH]; intros r1 r2 errs Hrel.
  - by split.
  - cbn [fold_m]. unfold bind.
    destruct (Hbody a r1 r2 errs Hrel) as [Herrs Hout].
    destruct (body1 r1 a errs) as [errs1 [x1|e1]],
      (body2 r2 a errs) as [errs2 [x2|e2]];
      simpl in Herrs, Hout; subst; try done.
    by apply IH.
Qed.

(** The ordered result of the walk stands for the mapping that
    [validate_directory] returns, and both runs end alike. *)
Lemma validate_directory_items_agree (directory : string)
    (errs : list ValidationError) :
  agree same_dict (validate_directory_items env directory errs)
    (validate_directory env directory errs).
Proof.
  unfold validate_directory_items, validate_directory.
  destruct (os_path_exists env directory); cbn [negb].
  - apply fold_m_agree.
    + intros [[root dirs] files] r1 r2 errs1 Hrel.
      apply fold_m_agree; [|done].
      intros file r1' r2' errs2 Hrel'.
      destruct (is_steering_file file); [|by split].
      unfold bind.
      destruct (validate_file env (PosixPath.join root file) errs2)
        as [errs' [errors|e]]; [|by split].
      split; [done|]. by apply same_dict_setitem.
    + split; [constructor | done].
  - split; [done|]. split.
    + apply NoDup_singleton.
    + cbn. by rewrite insert_empty.
Qed.

Lemma report_total (items : list (string * list ValidationError))
    (printed : list (list piece)) (total : nat) :
  snd (fold_left report_step items (printed, total)) = 0
  <-> total = 0 /\ Forall (fun item => item.2 = []) items.
Proof.
  revert printed total.
  induction items as [|[path errors] items IH]; intros printed total.
  - cbn. split; [by split | by intros [? _]].
  - cbn [fold_left report_step]. destruct errors as [|e errors].
    + rewrite IH. split.
      * intros [? ?]. split; [done|]. by constructor.
      * intros [? [_ ?]%Forall_cons]. by split.
    + rewrite IH. split.
      * intros [Hzero _]. simpl in Hzero. lia.
      * intros [_ [Hnil _]%Forall_cons]. discriminate Hnil.
Qed.

Lemma items_all_empty (items : list (string * list ValidationError)) :
  NoDup items.*1 ->
  Forall (fun item => item.2 = []) items
  <-> forall path errors,
        (list_to_map items : gmap string (list ValidationError)) !! path
        = Some errors ->
        errors = [].
Proof.
  intros Hkeys. rewrite Forall_forall. split.
  - intros Hall path errors Hlookup.
    apply elem_of_list_to_map in Hlookup; [|done].
    apply (Hall (path, errors) Hlookup).
  - intros Hall [path errors] Hin. cbn.
    apply (Hall path). by apply elem_of_list_to_map.
Qed.

(** X19.  The program ends with exit status 0 or 1, and with 0 exactly in
    these cases: the first argument is [--help]; or it is a file whose
    validation returns no error; or it is no file but a directory, the walk
    of the directory raises no exception, and every visited file has an
    empty list of errors (a directory without steering file included).  In
    every other case (no argument, errors found, a target that is neither
    file nor directory, an exception raised by a validation) the status
    is 1. *)
Theorem X19_exit_status (cli : Cli) :
  (exit_status (snd (main env cli)) = 0%Z
   \/ exit_status (snd (main env cli)) = 1%Z)
  /\ (exit_status (snd (main env cli)) = 0%Z
      <-> exists program target rest,
            sys_argv cli = program :: target :: rest
            /\ (target = "--help"
                \/ (target <> "--help"
                    /\ os_path_isfile cli target = true
                    /\ snd (validate_file env target []) = Returns [])
                \/ (target <> "--help"
                    /\ os_path_isfile cli target = false
                    /\ os_path_isdir cli target = true
                    /\ exists results,
                         snd (validate_directory env target [])
                         = Returns results
                         /\ forall path errors,
                              results !! path = Some errors ->
                              errors = []))).
Proof.
  unfold main.
  destruct (sys_argv cli) as [|program [|target rest]].
  { split; [by right|]. split; [done | by intros (? & ? & ? & ? & _)]. }
  { split; [by right|]. split; [done | by intros (? & ? & ? & ? & _)]. }
  destruct (String.eqb_spec target "--help") as [Hhelp|Hhelp].
  { split; [by left|]. split; [|done]. intros _.
    exists program, target, rest. split; [done | by left]. }
  destruct (os_path_isfile cli target) eqn:Hfile.
  { destruct (validate_file env target []) as [errs' [[|e errors]|e]]
      eqn:Hrun; cbn [snd exit_status].
    - split; [by left|]. split; [|done]. intros _.
      exists program, target, rest. split; [done|]. right. left.
      split_and!; [done | done | by rewrite Hrun].
    - split; [by right|]. split; [done|].
      intros (p & t & r & [= <- <- <-]
              & [?|[(_ & _ & Hret)|(_ & ? & _)]]);
        [done | | congruence].
      rewrite Hrun in Hret. discriminate Hret.
    - split; [by right|]. split; [done|].
      intros (p & t & r & [= <- <- <-]
              & [?|[(_ & _ & Hret)|(_ & ? & _)]]);
        [done | | congruence].
      rewrite Hrun in Hret. discriminate Hret. }
  destruct (os_path_isdir cli target) eqn:Hdir.
  2: { split; [by right|]. split; [done|].
       intros (p & t & r & [= <- <- <-]
               & [?|[(_ & ? & _)|(_ & _ & ? & _)]]); congruence. }
  destruct (validate_directory_items_agree target []) as [_ Hagree].
  destruct (validate_directory_items env target []) as [errs1 [items|e]],
    (validate_directory env target []) as [errs2 [results|e']] eqn:Hwalk;
    simpl in Hagree; try done.
  2: { split; [by right|]. split; [done|].
       intros (p & t & r & [= <- <- <-]
               & [?|[(_ & ? & _)|(_ & _ & _ & results & Hret & _)]]);
         [done | congruence |].
       rewrite Hwalk in Hret. discriminate Hret. }
  destruct Hagree as [Hkeys <-].
  pose proof (report_total items [] 0) as Htotal.
  destruct (fold_left report_step items ([], 0)) as [printed total].
  cbn [snd] in Htotal.
  destruct (Nat.ltb_spec 0 total) as [Hpos|Hzero]; cbn [snd exit_status].
  - split; [by right|]. split; [done|].
    intros (p & t & r & [= <- <- <-]
            & [?|[(_ & ? & _)|(_ & _ & _ & results & Hret & Hall)]]);
      [done | congruence |].
    rewrite Hwalk in Hret. injection Hret as <-.
    apply (items_all_empty items Hkeys) in Hall.
    assert (total = 0) by (apply Htotal; by split). lia.
  - split; [by left|]. split; [|done]. intros _.
    exists program, target, rest. split; [done|]. right. right.
    split_and!; try done. rewrite Hwalk. eexists. split; [reflexivity|].
    apply (items_all_empty items Hkeys).
    apply Htotal. lia.
Qed.

End CommandLine.

Lemma X19_exit_status_witness :
  exit_status (snd (main Cases.repo (Commands.on_repo ["/repo/docs/a.md"])))
  = 0%Z.
Proof.
  apply (X19_exit_status Cases.repo (Commands.on_repo ["/repo/docs/a.md"])).
  exists "validate-steering.py", "/repo/docs/a.md", [].
  split; [reflexivity|]. right. left.
  split_and!; [discriminate | reflexivity | vm_compute; reflexivity].
Defined.

(** ** When the validation of a file raises *)

Section Exceptions.

Context (env : Env).


End Exceptions.


(** ** The lines of a content *)

Section Lines.

Lemma split_not_empty (sep : ascii) (s : string) : Py.split sep s <> [].
Proof.
  destruct s as [|c s]; simpl; [done|].
  destruct (Ascii.eqb c sep); [done|]. by destruct (Py.split sep s).
Qed.

(** Joining the lines of a text with the newline gives the text back. *)
Lemma unlines_split (s : string) : unlines (Py.split nl s) = s.
Proof.
  unfold unlines, Py.join. induction s as [|c s IH]; [done|].
  cbn [Py.split]. pose proof (split_not_empty nl s) as Hne.
  destruct (Ascii.eqb_spec c nl) as [->|Hc].
  - destruct (Py.split nl s) as [|l ls]; [done|].
    cbn [String.concat] in *. by rewrite IH.
  - destruct (Py.split nl s) as [|l ls]; [done|].
    destruct ls as [|l' ls]; cbn [String.concat] in *; by rewrite <- IH.
Qed.

(** X21.  Cutting the frontmatter out of a content loses nothing but the
    opening and the closing line: whenever the scan finds a closing line,
    the content is the newline-joined sequence of its first line, the lines
    handed to the loader, the closing line and the lines of the body; none
    of the lines handed to the loader is a delimiter once stripped, and the
    closing line is one. *)
Theorem X21_extraction_keeps_the_lines (content : string)
    (frontmatter_end : nat) :
  find_closing 1 (Py.slice_from 1 (Py.split nl content))
  = Some frontmatter_end ->
  exists first fm_lines closing body_lines,
    content = unlines (first :: fm_lines ++ closing :: body_lines)
    /\ frontmatter_content (Py.split nl content) frontmatter_end
       = unlines fm_lines
    /\ body_content (Py.split nl content) frontmatter_end
       = unlines body_lines
    /\ Forall (fun line => Py.strip line <> "---") fm_lines
    /\ Py.strip closing = "---".
Proof.
  intros Hfind. pose proof (unlines_split content) as Hjoin.
  pose proof (split_not_empty nl content) as Hne.
  destruct (Py.split nl content) as [|first lines]; [done|].
  change (Py.slice_from 1 (first :: lines)) with lines in Hfind.
  apply find_closing_some in Hfind
    as (fm_lines & closing & body_lines & -> & Hfm & Hclosing & ->).
  exists first, fm_lines, closing, body_lines.
  unfold frontmatter_content, body_content.
  rewrite slice_between, slice_after. by split_and!.
Qed.

End Lines.

Lemma X21_extraction_keeps_the_lines_witness :
  exists first fm_lines closing body_lines,
    Docs.indented_delimiter
    = unlines (first :: fm_lines ++ closing :: body_lines)
    /\ frontmatter_content (Py.split nl Docs.indented_delimiter) 2
       = unlines fm_lines
    /\ body_content (Py.split nl Docs.indented_delimiter) 2
       = unlines body_lines
    /\ Forall (fun line => Py.strip line <> "---") fm_lines
    /\ Py.strip closing = "---".
Proof.
  apply (X21_extraction_keeps_the_lines Docs.indented_delimiter 2).
  vm_compute. reflexivity.
Defined.
